(** * bib-enrich-mcp: metadata reconciliation for BibTeX records

    A shallow embedding of [bib_parser.py], [scrapers.py] and [server.py]
    together with the properties the specification states about them.

    Conventions of the embedding.
    - Python [str] is a sequence of Unicode code points; it is given by
      its UTF-8 encoding, a [string] of bytes. [PyStr.chars] cuts the bytes
      into code points, and what looks at characters (stripping, slicing,
      indexing, iterating, [\d]) works on those. Only a well-formed
      encoding stands for a [str]. Searching for an ASCII separator and
      comparing for equality give the same result on the bytes.
    - Python [float] is a binary64 primitive float.
    - [None] is [None]; a field annotated [str | None] is [option string].
    - A [dict] keeps insertion order, so it is an association list with
      Python's update-in-place semantics.
    - Exceptions are values of [exn] carried by [result].
    - The libraries the program calls (bibtexparser, httpx, BeautifulSoup,
      [json]) are not part of the repository: their outputs are inputs of
      the model (a parsed document, a decoded JSON value, the list of
      dictionaries the BibTeX reader returns, the text the BibTeX writer
      makes of a list of dictionaries), and the reader and the writer may
      raise.
    - A file is given by the characters it holds; reading translates line
      ends and writing writes them as the platform does. *)

From Stdlib Require Import ZArith NArith Floats Lia Ascii String DecimalString.
From stdpp Require Import base list strings gmap.

Set Warnings "-inexact-float,-register-all".
Set Default Proof Using "Type".

(** ** Python strings *)

Module PyStr.

(** [bool(s)] *)
Definition nonempty (s : string) : bool :=
  match s with EmptyString => false | String _ _ => true end.

(** *** Code points

    UTF-8 writes a code point below U+0080 as one byte, and any other as
    a lead byte of the form 110xxxxx, 1110xxxx or 11110xxx followed by
    one, two or three bytes of the form 10xxxxxx; the bits marked x are
    the number of the code point. *)

(** The number of bytes of the code point that starts with byte [lead]. *)
Definition width (lead : ascii) : nat :=
  let n := nat_of_ascii lead in
  if n <? 192 then 1 else if n <? 224 then 2 else if n <? 240 then 3 else 4.

(** The code points of [s], each as the bytes that encode it. [owed]
    counts the bytes the code point under construction still lacks; the
    pair is the rest of that code point and the code points after it. *)
Fixpoint chars_go (owed : nat) (s : string) : string * list string :=
  match s with
  | EmptyString => (EmptyString, [])
  | String b s' =>
      match owed with
      | S k => let '(c, cs) := chars_go k s' in (String b c, cs)
      | O =>
          let '(c, cs) := chars_go (width b - 1) s' in
          (EmptyString, String b c :: cs)
      end
  end.

Definition chars (s : string) : list string := (chars_go 0 s).2.

(** [len(s)] *)
Definition len (s : string) : nat := length (chars s).

(** ["".join(l)] *)
Fixpoint cat (l : list string) : string :=
  match l with
  | [] => EmptyString
  | c :: l' => c +:+ cat l'
  end.

(** [acc] extended by the six low bits of each byte of [t]. *)
Fixpoint tail_bits (acc : N) (t : string) : N :=
  match t with
  | EmptyString => acc
  | String b t' => tail_bits (acc * 64 + N_of_ascii b mod 64) t'
  end.

(** [ord(c)] for a code point given by its bytes. A byte sequence that
    is not the encoding of a code point is given the number of the
    replacement character. *)
Definition ord (c : string) : N :=
  match c with
  | String a t =>
      let n := N_of_ascii a in
      if negb (Nat.eqb (String.length t) (width a - 1)) then 0xFFFD%N
      else
        match width a with
        | 1 => if (n <? 128)%N then n else 0xFFFD%N
        | 2 => tail_bits (n mod 32) t
        | 3 => tail_bits (n mod 16) t
        | _ => tail_bits (n mod 8) t
        end
  | EmptyString => 0xFFFD%N
  end.

Definition between (lo hi n : N) : bool := ((lo <=? n) && (n <=? hi))%N.

(** [c.isspace()]: the code points Python treats as white space, which
    are also the ones [str.strip()] removes. *)
Definition isspace (c : string) : bool :=
  let n := ord c in
  between 0x09 0x0D n || between 0x1C 0x20 n || (n =? 0x85)%N
  || (n =? 0xA0)%N || (n =? 0x1680)%N || between 0x2000 0x200A n
  || (n =? 0x2028)%N || (n =? 0x2029)%N || (n =? 0x202F)%N
  || (n =? 0x205F)%N || (n =? 0x3000)%N.

Fixpoint drop_spaces (l : list string) : list string :=
  match l with
  | [] => []
  | c :: l' => if isspace c then drop_spaces l' else l
  end.

(** The code points of [s.strip()]. *)
Definition strip_chars (l : list string) : list string :=
  rev (drop_spaces (rev (drop_spaces l))).

(** [s.strip()] *)
Definition strip (s : string) : string := cat (strip_chars (chars s)).

(** [s[:n]] *)
Definition take (n : nat) (s : string) : string := cat (firstn n (chars s)).

(** [sep.join(l)] *)
Definition join (sep : string) (l : list string) : string :=
  String.concat sep l.

(** [s.split(sep)] for a non-empty separator: the text is cut at the
    leftmost occurrences of [sep], scanning from the left and never
    overlapping. [skip] counts the bytes of a separator that has just
    been recognised and is still being passed over; the pair is the piece
    under construction and the pieces after it. In well-formed UTF-8 a
    separator made of ASCII characters is found at the same places
    whether the text is scanned by bytes or by code points. *)
Fixpoint split_go (sep : string) (skip : nat) (s : string)
  : string * list string :=
  match s with
  | EmptyString => (EmptyString, [])
  | String c s' =>
      match skip with
      | S k => split_go sep k s'
      | O =>
          if String.prefix sep s
          then let '(p, ps) := split_go sep (String.length sep - 1) s' in
               (EmptyString, p :: ps)
          else let '(p, ps) := split_go sep 0 s' in
               (String c p, ps)
      end
  end.

Definition split (sep s : string) : list string :=
  let '(p, ps) := split_go sep 0 s in p :: ps.

End PyStr.

(** ** Exceptions *)

Inductive exn : Set :=
| AttributeError
| TypeError
| KeyError
| IndexError
| JSONDecodeError
| TransportError
| FileNotFoundError.

Inductive result (A : Type) : Type :=
| Ok (a : A)
| Raise (e : exn).
Arguments Ok {A} a.
Arguments Raise {A} e.

Definition rbind {A B} (r : result A) (k : A -> result B) : result B :=
  match r with
  | Ok a => k a
  | Raise e => Raise e
  end.

Declare Scope result_scope.
Delimit Scope result_scope with result.
Notation "'let?' x := r 'in' k" := (rbind r (fun x => k))
  (at level 10, x name, r at level 100, k at level 200) : result_scope.
Open Scope result_scope.

(** ** Candidates: [MetadataResult]

    The dataclass annotates its fields as strings, but Python stores
    whatever the constructor is handed: the JSON scrapers pass payload
    values through unchecked. The record is therefore indexed by the type
    [V] of those values: [string] for the dataclass as annotated, a JSON
    value for what the scrapers build. *)

Record MetadataResult_ (V : Type) : Type := mkMetadataResult {
  mr_title : V;
  mr_authors : option (list V);
  mr_year : option V;
  mr_venue : option V;
  mr_doi : option V;
  mr_arxiv_id : option V;
  mr_booktitle : option V;
  mr_journal : option V;
  mr_volume : option V;
  mr_pages : option V;
  mr_publisher : option V;
  mr_source : string;
  mr_confidence : float
}.
Arguments mkMetadataResult {V}.
Arguments mr_title {V}.
Arguments mr_authors {V}.
Arguments mr_year {V}.
Arguments mr_venue {V}.
Arguments mr_doi {V}.
Arguments mr_arxiv_id {V}.
Arguments mr_booktitle {V}.
Arguments mr_journal {V}.
Arguments mr_volume {V}.
Arguments mr_pages {V}.
Arguments mr_publisher {V}.
Arguments mr_source {V}.
Arguments mr_confidence {V}.

Abbreviation MetadataResult := (MetadataResult_ string).

(** ** Selecting the best candidate ([server.py], lines 51-54 and 85-86) *)

Section Select.
Context {A : Type}.
Variable key : A -> float.

(** [max(iterable, key=key)] after its first element: the running
    maximum is replaced only by an element whose key is strictly
    greater. *)
Fixpoint py_max_from (best : A) (rest : list A) : A :=
  match rest with
  | [] => best
  | x :: rest' =>
      if PrimFloat.ltb (key best) (key x)
      then py_max_from x rest'
      else py_max_from best rest'
  end.
End Select.

(** [if not results: ... else: best = max(results, key=lambda r: r.confidence)] *)
Definition select_best {V} (results : list (MetadataResult_ V))
  : option (MetadataResult_ V) :=
  match results with
  | [] => None
  | r :: rest => Some (py_max_from mr_confidence r rest)
  end.

(** The confidence of a candidate is a score between 0 and 1. *)
Definition score (f : float) : bool :=
  (PrimFloat.leb 0 f && PrimFloat.leb f 1)%float.

(** ** Decoded JSON payloads

    The values [response.json()] returns. An object is the list of the
    items of the resulting [dict] (its keys are distinct). *)

Inductive json : Type :=
| JNull
| JBool (b : bool)
| JInt (n : Z)
| JFloat (f : float)
| JStr (s : string)
| JArr (items : list json)
| JObj (members : list (string * json)).

Module Py.

Fixpoint assoc {B} (k : string) (m : list (string * B)) : option B :=
  match m with
  | [] => None
  | (k', v) :: m' => if String.eqb k k' then Some v else assoc k m'
  end.

(** Truth value of a JSON value, as [if v:] and [not v] see it. *)
Definition truthy (v : json) : bool :=
  match v with
  | JNull => false
  | JBool b => b
  | JInt n => negb (n =? 0)%Z
  | JFloat f => negb (PrimFloat.eqb f 0)
  | JStr s => PyStr.nonempty s
  | JArr l => match l with [] => false | _ => true end
  | JObj m => match m with [] => false | _ => true end
  end.

(** [v.get(k, default)]: only a [dict] has the method. *)
Definition get (v : json) (k : string) (default : json) : result json :=
  match v with
  | JObj m => Ok (match assoc k m with Some x => x | None => default end)
  | _ => Raise AttributeError
  end.

(** [v[0]]. The keys of a decoded object are strings, so the integer
    [0] is never one of them. *)
Definition item0 (v : json) : result json :=
  match v with
  | JArr (x :: _) => Ok x
  | JArr [] => Raise IndexError
  | JStr s =>
      match PyStr.chars s with
      | c :: _ => Ok (JStr c)
      | [] => Raise IndexError
      end
  | JObj _ => Raise KeyError
  | _ => Raise TypeError
  end.

(** The elements [for a in v] ranges over. *)
Definition iter (v : json) : result (list json) :=
  match v with
  | JArr l => Ok l
  | JStr s => Ok (map JStr (PyStr.chars s))
  | JObj m => Ok (map (fun kv => JStr (fst kv)) m)
  | _ => Raise TypeError
  end.

(** A value with [None] read as an absent field. *)
Definition optional (v : json) : option json :=
  match v with JNull => None | _ => Some v end.

(** [str(v)], which is also how an f-string renders [v]. The text of a
    float, a list or a dict is left to [repr_other]. *)
Definition str (repr_other : json -> string) (v : json) : string :=
  match v with
  | JStr s => s
  | JNull => "None"
  | JBool true => "True"
  | JBool false => "False"
  | JInt n => DecimalString.NilEmpty.string_of_int (Z.to_int n)
  | _ => repr_other v
  end.

(** Truth value of a field annotated [str | None]. *)
Definition truthy_str (o : option string) : bool :=
  match o with Some s => PyStr.nonempty s | None => false end.

(** Truth value of a field annotated [list[str] | None]. *)
Definition truthy_list {B} (o : option (list B)) : bool :=
  match o with Some (_ :: _) => true | _ => false end.

(** [authors if authors else None] *)
Definition nonempty_or_none {B} (l : list B) : option (list B) :=
  match l with [] => None | _ => Some l end.

End Py.

(** ** Parsed XML documents

    What [BeautifulSoup(xml_text, "lxml-xml")] hands to the arXiv scraper:
    a tree of tags and text nodes. *)

Module Soup.

Inductive node : Type :=
| Tag (name : string) (children : list node)
| NavigableString (text : string).

(** The nodes below [n], in document order. *)
Fixpoint descendants (n : node) : list node :=
  match n with
  | Tag _ children => flat_map (fun c => c :: descendants c) children
  | NavigableString _ => []
  end.

Definition named (name : string) (n : node) : bool :=
  match n with
  | Tag name' _ => String.eqb name' name
  | NavigableString _ => false
  end.

(** [n.find_all(name)] *)
Definition find_all (name : string) (n : node) : list node :=
  List.filter (named name) (descendants n).

(** [n.find(name)]: the first such tag, or [None]. A tag is truthy
    whatever its contents, so [if not tag] tests for [None] only. *)
Definition find (name : string) (n : node) : option node :=
  head (find_all name n).

Definition stripped_text (n : node) : option string :=
  match n with
  | NavigableString s =>
      let s' := PyStr.strip s in
      if PyStr.nonempty s' then Some s' else None
  | Tag _ _ => None
  end.

(** [n.get_text(strip=True)]: the text nodes below [n], each stripped,
    the empty ones dropped, concatenated. *)
Definition get_text_strip (n : node) : string :=
  String.concat "" (omap stripped_text (descendants n)).

End Soup.

(** ** The regular expression of the arXiv scraper *)

Module Re.

(** The code points of category Nd, the decimal digits, which [\d]
    matches in a pattern that is a [str]: the ranges of Unicode 14.0,
    the database of CPython 3.11. *)
Definition decimal_ranges : list (N * N) :=
  [ (0x30, 0x39); (0x660, 0x669); (0x6F0, 0x6F9); (0x7C0, 0x7C9);
    (0x966, 0x96F); (0x9E6, 0x9EF); (0xA66, 0xA6F); (0xAE6, 0xAEF);
    (0xB66, 0xB6F); (0xBE6, 0xBEF); (0xC66, 0xC6F); (0xCE6, 0xCEF);
    (0xD66, 0xD6F); (0xDE6, 0xDEF); (0xE50, 0xE59); (0xED0, 0xED9);
    (0xF20, 0xF29); (0x1040, 0x1049); (0x1090, 0x1099); (0x17E0, 0x17E9);
    (0x1810, 0x1819); (0x1946, 0x194F); (0x19D0, 0x19D9); (0x1A80, 0x1A89);
    (0x1A90, 0x1A99); (0x1B50, 0x1B59); (0x1BB0, 0x1BB9); (0x1C40, 0x1C49);
    (0x1C50, 0x1C59); (0xA620, 0xA629); (0xA8D0, 0xA8D9); (0xA900, 0xA909);
    (0xA9D0, 0xA9D9); (0xA9F0, 0xA9F9); (0xAA50, 0xAA59); (0xABF0, 0xABF9);
    (0xFF10, 0xFF19); (0x104A0, 0x104A9); (0x10D30, 0x10D39);
    (0x11066, 0x1106F); (0x110F0, 0x110F9); (0x11136, 0x1113F);
    (0x111D0, 0x111D9); (0x112F0, 0x112F9); (0x11450, 0x11459);
    (0x114D0, 0x114D9); (0x11650, 0x11659); (0x116C0, 0x116C9);
    (0x11730, 0x11739); (0x118E0, 0x118E9); (0x11950, 0x11959);
    (0x11C50, 0x11C59); (0x11D50, 0x11D59); (0x11DA0, 0x11DA9);
    (0x16A60, 0x16A69); (0x16AC0, 0x16AC9); (0x16B50, 0x16B59);
    (0x1D7CE, 0x1D7FF); (0x1E140, 0x1E149); (0x1E2F0, 0x1E2F9);
    (0x1E950, 0x1E959); (0x1FBF0, 0x1FBF9) ]%N.

(** [\d] on one code point. *)
Definition isdigit (c : string) : bool :=
  existsb (fun r => PyStr.between r.1 r.2 (PyStr.ord c)) decimal_ranges.

(** The longest run of digits at the head of [l], and what follows. *)
Fixpoint span_digits (l : list string) : list string * list string :=
  match l with
  | c :: l' =>
      if isdigit c
      then let '(d, r) := span_digits l' in (c :: d, r)
      else ([], l)
  | [] => ([], [])
  end.

(** A match of [\d+\.\d+] starting at the head of [l]. Both runs are
    greedy, and giving back digits of the first run cannot help since a
    digit is not a dot. *)
Definition match_here (l : list string) : option string :=
  match span_digits l with
  | (c :: d, dot :: r) =>
      if String.eqb dot "." then
        match span_digits r with
        | (c' :: d', _) =>
            Some (PyStr.cat (c :: d) +:+ "." +:+ PyStr.cat (c' :: d'))
        | _ => None
        end
      else None
  | _ => None
  end.

(** The leftmost match among the starting points [l] offers. *)
Fixpoint search_from (l : list string) : option string :=
  match match_here l with
  | Some m => Some m
  | None =>
      match l with
      | _ :: l' => search_from l'
      | [] => None
      end
  end.

(** [re.search(r"(\d+\.\d+)", s)] followed by [.group(1)]. *)
Definition search (s : string) : option string :=
  search_from (PyStr.chars s).

End Re.

(** ** HTTP *)

Record request : Type := mkRequest {
  req_url : string;
  req_params : list (string * string)
}.

(** A response, seen through the two accessors the scrapers use:
    [response.text] parsed by BeautifulSoup, and [response.json()]. *)
Record response : Type := mkResponse {
  resp_soup : Soup.node;
  resp_json : result json
}.

(** Computations that issue requests: the requests made so far are
    logged, and an exception ends the computation with the log kept. *)
Definition M (A : Type) : Type := list request -> list request * result A.

Definition ret {A} (a : A) : M A := fun log => (log, Ok a).

Definition bind {A B} (m : M A) (k : A -> M B) : M B :=
  fun log =>
    match m log with
    | (log', Ok a) => k a log'
    | (log', Raise e) => (log', Raise e)
    end.

Definition lift {A} (r : result A) : M A := fun log => (log, r).

Declare Scope io_scope.
Delimit Scope io_scope with io.
Notation "'let!' x := m 'in' k" := (bind m (fun x => k))
  (at level 10, x name, m at level 100, k at level 200) : io_scope.
Open Scope io_scope.

Definition mr_map {V W} (f : V -> W) (r : MetadataResult_ V)
  : MetadataResult_ W :=
  {| mr_title := f (mr_title r);
     mr_authors := map f <$> mr_authors r;
     mr_year := f <$> mr_year r;
     mr_venue := f <$> mr_venue r;
     mr_doi := f <$> mr_doi r;
     mr_arxiv_id := f <$> mr_arxiv_id r;
     mr_booktitle := f <$> mr_booktitle r;
     mr_journal := f <$> mr_journal r;
     mr_volume := f <$> mr_volume r;
     mr_pages := f <$> mr_pages r;
     mr_publisher := f <$> mr_publisher r;
     mr_source := mr_source r;
     mr_confidence := mr_confidence r |}.

(** ** [class ArxivScraper] *)

Module ArxivScraper.

Definition BASE_URL : string := "https://export.arxiv.org/api/query".

Definition _parse_response (soup : Soup.node) (arxiv_id : option string)
  : option MetadataResult :=
  match Soup.find "entry" soup with
  | None => None
  | Some entry =>
      match Soup.find "title" entry with
      | None => None
      | Some title_elem =>
          let title := Soup.get_text_strip title_elem in
          let authors :=
            omap (fun a => Soup.get_text_strip <$> Soup.find "name" a)
                 (Soup.find_all "author" entry) in
          let year :=
            (fun published => PyStr.take 4 (Soup.get_text_strip published))
              <$> Soup.find "published" entry in
          let arxiv_id :=
            if Py.truthy_str arxiv_id then arxiv_id
            else
              match Soup.find "id" entry with
              | Some id_elem =>
                  match Re.search (Soup.get_text_strip id_elem) with
                  | Some m => Some m
                  | None => arxiv_id
                  end
              | None => arxiv_id
              end in
          Some {| mr_title := title;
                  mr_authors := Py.nonempty_or_none authors;
                  mr_year := year;
                  mr_venue := None;
                  mr_doi := None;
                  mr_arxiv_id := arxiv_id;
                  mr_booktitle := None;
                  mr_journal := None;
                  mr_volume := None;
                  mr_pages := None;
                  mr_publisher := None;
                  mr_source := "arxiv";
                  mr_confidence := 0.9 |}
      end
  end.

Section Client.
Variable client_get : request -> M response.

Definition search_by_arxiv_id (arxiv_id : string)
  : M (option MetadataResult) :=
  let url := BASE_URL +:+ "?id_list=" +:+ arxiv_id in
  let! response := client_get (mkRequest url []) in
  ret (_parse_response (resp_soup response) (Some arxiv_id)).

Definition search_by_title (title : string) : M (option MetadataResult) :=
  let query := "ti:" +:+ title in
  let url := BASE_URL +:+ "?search_query=" +:+ query +:+ "&max_results=1" in
  let! response := client_get (mkRequest url []) in
  ret (_parse_response (resp_soup response) None).
End Client.

End ArxivScraper.

(** ** [class DBLPScraper] *)

Module DBLPScraper.

Definition BASE_URL : string := "https://dblp.org/search/publ/api".

(** The loop of [_extract_authors]. *)
Fixpoint authors_loop (authors_data authors : list json)
  : result (list json) :=
  match authors_data with
  | [] => Ok authors
  | a :: rest =>
      match a with
      | JObj _ =>
          let? text := Py.get a "text" (JStr "") in
          authors_loop rest (authors ++ [text])
      | JStr _ => authors_loop rest (authors ++ [a])
      | _ => authors_loop rest authors
      end
  end.

Definition _extract_authors (info : json) : result (option (list json)) :=
  let? authors_obj := Py.get info "authors" (JObj []) in
  let? authors_data := Py.get authors_obj "author" (JArr []) in
  let authors_data :=
    match authors_data with
    | JObj _ => JArr [authors_data]
    | _ => authors_data
    end in
  let? items := Py.iter authors_data in
  let? authors := authors_loop items [] in
  Ok (Py.nonempty_or_none authors).

(** The body of the [try] block of [_parse_response]. *)
Definition parse_response_try (data : json)
  : result (option (MetadataResult_ json)) :=
  let? result := Py.get data "result" JNull in
  if negb (Py.truthy result) then Ok None else
  let? hits_obj := Py.get result "hits" (JObj []) in
  let? hits := Py.get hits_obj "hit" (JArr []) in
  if negb (Py.truthy hits) then Ok None else
  let? hit0 := Py.item0 hits in
  let? info := Py.get hit0 "info" (JObj []) in
  let? title := Py.get info "title" (JStr "") in
  if negb (Py.truthy title) then Ok None else
  let? authors := _extract_authors info in
  let? year := Py.get info "year" JNull in
  let? venue := Py.get info "venue" JNull in
  let? doi := Py.get info "doi" JNull in
  Ok (Some {| mr_title := title;
              mr_authors := authors;
              mr_year := Py.optional year;
              mr_venue := Py.optional venue;
              mr_doi := Py.optional doi;
              mr_arxiv_id := None;
              mr_booktitle := None;
              mr_journal := None;
              mr_volume := None;
              mr_pages := None;
              mr_publisher := None;
              mr_source := "dblp";
              mr_confidence := 0.85 |}).

(** [except (KeyError, IndexError): return None] *)
Definition _parse_response (data : json)
  : result (option (MetadataResult_ json)) :=
  match parse_response_try data with
  | Raise KeyError | Raise IndexError => Ok None
  | r => r
  end.

Section Client.
Variable client_get : request -> M response.

Definition search_by_title (title : string)
  : M (option (MetadataResult_ json)) :=
  let params := [("q", title); ("format", "json"); ("h", "1")] in
  let! response := client_get (mkRequest BASE_URL params) in
  let! data := lift (resp_json response) in
  lift (_parse_response data).
End Client.

End DBLPScraper.

(** ** [class CrossRefScraper] *)

Module CrossRefScraper.

Definition BASE_URL : string := "https://api.crossref.org/works".

Section Builtins.
(** Python's rendering of floats, lists and dicts, see [Py.str]. *)
Variable repr_other : json -> string.

(** The loop of [_extract_authors]. *)
Fixpoint authors_loop (authors_data : list json) (authors : list string)
  : result (list string) :=
  match authors_data with
  | [] => Ok authors
  | a :: rest =>
      let? given := Py.get a "given" (JStr "") in
      let? family := Py.get a "family" (JStr "") in
      let name :=
        PyStr.strip
          (Py.str repr_other given +:+ " " +:+ Py.str repr_other family) in
      authors_loop rest
        (if PyStr.nonempty name then authors ++ [name] else authors)
  end.

Definition _extract_authors (work : json) : result (option (list string)) :=
  let? authors_data := Py.get work "author" (JArr []) in
  let? items := Py.iter authors_data in
  let? authors := authors_loop items [] in
  Ok (Py.nonempty_or_none authors).

(** The loop of [_extract_year] over the date fields. *)
Fixpoint year_loop (keys : list string) (work : json)
  : result (option string) :=
  match keys with
  | [] => Ok None
  | key :: rest =>
      let? date := Py.get work key (JObj []) in
      let? date_parts := Py.get date "date-parts" (JArr [JArr []]) in
      if Py.truthy date_parts then
        let? first := Py.item0 date_parts in
        if Py.truthy first then
          let? y := Py.item0 first in
          Ok (Some (Py.str repr_other y))
        else year_loop rest work
      else year_loop rest work
  end.

Definition _extract_year (work : json) : result (option string) :=
  year_loop ["published-print"; "published-online"; "created"] work.

Definition _parse_work (work : json)
  : result (option (MetadataResult_ json)) :=
  let? title_list := Py.get work "title" (JArr []) in
  let? title :=
    if Py.truthy title_list then Py.item0 title_list else Ok (JStr "") in
  if negb (Py.truthy title) then Ok None else
  let? authors := _extract_authors work in
  let? year := _extract_year work in
  let? doi := Py.get work "DOI" JNull in
  let? journal_list := Py.get work "container-title" (JArr []) in
  let? journal :=
    if Py.truthy journal_list then Py.item0 journal_list else Ok JNull in
  let? volume := Py.get work "volume" JNull in
  let? pages := Py.get work "page" JNull in
  Ok (Some {| mr_title := title;
              mr_authors := map JStr <$> authors;
              mr_year := JStr <$> year;
              mr_venue := None;
              mr_doi := Py.optional doi;
              mr_arxiv_id := None;
              mr_booktitle := None;
              mr_journal := Py.optional journal;
              mr_volume := Py.optional volume;
              mr_pages := Py.optional pages;
              mr_publisher := None;
              mr_source := "crossref";
              mr_confidence := 0.8 |}).

(** [v != "ok"] *)
Definition not_ok (v : json) : bool :=
  match v with
  | JStr s => negb (String.eqb s "ok")
  | _ => true
  end.

Section Client.
Variable client_get : request -> M response.

Definition search_by_doi (doi : string)
  : M (option (MetadataResult_ json)) :=
  let url := BASE_URL +:+ "/" +:+ doi in
  let! response := client_get (mkRequest url []) in
  let! data := lift (resp_json response) in
  let! status := lift (Py.get data "status" JNull) in
  if not_ok status then ret None else
  let! message := lift (Py.get data "message" (JObj [])) in
  lift (_parse_work message).

Definition search_by_title (title : string)
  : M (option (MetadataResult_ json)) :=
  let params := [("query.title", title); ("rows", "1")] in
  let! response := client_get (mkRequest BASE_URL params) in
  let! data := lift (resp_json response) in
  let! message := lift (Py.get data "message" (JObj [])) in
  let! items := lift (Py.get message "items" (JArr [])) in
  if negb (Py.truthy items) then ret None else
  let! item0 := lift (Py.item0 items) in
  lift (_parse_work item0).
End Client.
End Builtins.

End CrossRefScraper.

(** ** [scrape_metadata] *)

Section Engine.
(** The network: what a GET of each request produces. *)
Variable http_get : request -> result response.
Variable repr_other : json -> string.

(** [await client.get(...)]: the request is logged, then answered. *)
Definition client_get (req : request) : M response :=
  fun log => (log ++ [req], http_get req).

(** [if result: results.append(result)]; a dataclass instance is
    truthy, so only [None] is skipped. *)
Definition append_found {A} (results : list A) (r : option A) : list A :=
  match r with
  | Some x => results ++ [x]
  | None => results
  end.

(** An argument that passes the test [if arg:]. *)
Definition given (arg : option string) : option string :=
  if Py.truthy_str arg then arg else None.

Definition scrape_metadata (title arxiv_id doi : option string)
  : M (list (MetadataResult_ json)) :=
  let results := [] in
  let! results :=
    match given arxiv_id with
    | Some arxiv_id =>
        let! result := ArxivScraper.search_by_arxiv_id client_get arxiv_id in
        ret (append_found results (mr_map JStr <$> result))
    | None => ret results
    end in
  let! results :=
    match given doi with
    | Some doi =>
        let! result :=
          CrossRefScraper.search_by_doi repr_other client_get doi in
        ret (append_found results result)
    | None => ret results
    end in
  match given title with
  | Some title =>
      let! arxiv_result := ArxivScraper.search_by_title client_get title in
      let results := append_found results (mr_map JStr <$> arxiv_result) in
      let! dblp_result := DBLPScraper.search_by_title client_get title in
      let results := append_found results dblp_result in
      let! crossref_result :=
        CrossRefScraper.search_by_title repr_other client_get title in
      let results := append_found results crossref_result in
      ret results
  | None => ret results
  end.

End Engine.

(** ** [bib_parser.py] *)

(** As for [MetadataResult], the dataclass annotates its fields as
    strings and Python stores what the constructor is handed: the record
    is indexed by the type [V] of the values, [string] for a record as
    annotated (and as the reader produces it), a JSON value for a record
    into which a candidate has been merged. *)
Record BibEntry_ (V : Type) : Type := mkBibEntry {
  entry_type : V;
  cite_key : V;
  title : V;
  authors : option (list V);
  year : option V;
  venue : option V;
  doi : option V;
  arxiv_id : option V;
  url : option V;
  abstract : option V;
  booktitle : option V;
  journal : option V;
  volume : option V;
  pages : option V;
  publisher : option V;
  raw_fields : list (string * V)
}.
Arguments mkBibEntry {V}.
Arguments entry_type {V}.
Arguments cite_key {V}.
Arguments title {V}.
Arguments authors {V}.
Arguments year {V}.
Arguments venue {V}.
Arguments doi {V}.
Arguments arxiv_id {V}.
Arguments url {V}.
Arguments abstract {V}.
Arguments booktitle {V}.
Arguments journal {V}.
Arguments volume {V}.
Arguments pages {V}.
Arguments publisher {V}.
Arguments raw_fields {V}.

Abbreviation BibEntry := (BibEntry_ string).

(** A bibtexparser entry: a [dict] from field names to strings, in
    insertion order. *)
Definition pydict : Type := list (string * string).

Module Dict.

(** [k in d] *)
Definition contains {B} (k : string) (d : list (string * B)) : bool :=
  match Py.assoc k d with Some _ => true | None => false end.

(** [d[k] = v]: an existing key keeps its place and takes the new
    value, a new key goes last. *)
Fixpoint set {B} (d : list (string * B)) (k : string) (v : B)
  : list (string * B) :=
  match d with
  | [] => [(k, v)]
  | (k', v') :: d' =>
      if String.eqb k k' then (k', v) :: d' else (k', v') :: set d' k v
  end.

(** [d.update(other)] *)
Definition update {B} (d other : list (string * B)) : list (string * B) :=
  fold_left (fun acc kv => set acc (fst kv) (snd kv)) other d.

(** [if value: d[k] = value] for a field annotated [str | None]. *)
Definition set_if_truthy (d : pydict) (k : string) (value : option string)
  : pydict :=
  match value with
  | Some v => if PyStr.nonempty v then set d k v else d
  | None => d
  end.

Definition keys {B} (d : list (string * B)) : list string := map fst d.

Fixpoint distinct_keys {B} (d : list (string * B)) : bool :=
  match d with
  | [] => true
  | (k, _) :: d' => negb (contains k d') && distinct_keys d'
  end.

End Dict.

Definition _parse_authors (author_string : option string)
  : option (list string) :=
  match author_string with
  | Some s =>
      if negb (PyStr.nonempty s) then None
      else
        let authors := map PyStr.strip (PyStr.split " and " s) in
        Py.nonempty_or_none authors
  | None => None
  end.

Definition _extract_arxiv_id (entry : pydict) : option string :=
  if Dict.contains "eprint" entry then Py.assoc "eprint" entry
  else if Dict.contains "arxiv" entry then Py.assoc "arxiv" entry
  else None.

(** The field names [_dict_to_bib_entry] keeps out of [raw_fields]. *)
Definition modelled_keys : list string :=
  [ "ENTRYTYPE"; "ID"; "title"; "author"; "year"; "doi"; "url"; "abstract";
    "booktitle"; "journal"; "volume"; "pages"; "publisher"; "eprint";
    "arxiv" ].

Definition modelled (k : string) : bool :=
  existsb (String.eqb k) modelled_keys.

Definition _dict_to_bib_entry (entry : pydict) : BibEntry :=
  let raw_fields := List.filter (fun kv => negb (modelled (fst kv))) entry in
  {| entry_type := default "misc" (Py.assoc "ENTRYTYPE" entry);
     cite_key := default "" (Py.assoc "ID" entry);
     title := default "" (Py.assoc "title" entry);
     authors := _parse_authors (Py.assoc "author" entry);
     year := Py.assoc "year" entry;
     venue := None;
     doi := Py.assoc "doi" entry;
     arxiv_id := _extract_arxiv_id entry;
     url := Py.assoc "url" entry;
     abstract := Py.assoc "abstract" entry;
     booktitle := Py.assoc "booktitle" entry;
     journal := Py.assoc "journal" entry;
     volume := Py.assoc "volume" entry;
     pages := Py.assoc "pages" entry;
     publisher := Py.assoc "publisher" entry;
     raw_fields := raw_fields |}.

Definition _bib_entry_to_dict (entry : BibEntry) : pydict :=
  let result :=
    [ ("ENTRYTYPE", entry_type entry);
      ("ID", cite_key entry);
      ("title", title entry) ] in
  let result :=
    match authors entry with
    | Some (a :: l) => Dict.set result "author" (PyStr.join " and " (a :: l))
    | _ => result
    end in
  let result := Dict.set_if_truthy result "year" (year entry) in
  let result := Dict.set_if_truthy result "doi" (doi entry) in
  let result := Dict.set_if_truthy result "eprint" (arxiv_id entry) in
  let result := Dict.set_if_truthy result "url" (url entry) in
  let result := Dict.set_if_truthy result "abstract" (abstract entry) in
  let result := Dict.set_if_truthy result "booktitle" (booktitle entry) in
  let result := Dict.set_if_truthy result "journal" (journal entry) in
  let result := Dict.set_if_truthy result "volume" (volume entry) in
  let result := Dict.set_if_truthy result "pages" (pages entry) in
  let result := Dict.set_if_truthy result "publisher" (publisher entry) in
  Dict.update result (raw_fields entry).

(** ** The same functions on the values Python passes around

    The annotations are not checked: [_merge_metadata] and
    [_bib_entry_to_dict] also run on candidates whose fields hold JSON
    values, as the DBLP and CrossRef scrapers build them. A string is
    then the JSON value [JStr]. *)

Definition item_map {V W} (f : V -> W) (d : list (string * V))
  : list (string * W) :=
  map (fun kv => (fst kv, f (snd kv))) d.

Definition be_map {V W} (f : V -> W) (r : BibEntry_ V) : BibEntry_ W :=
  {| entry_type := f (entry_type r);
     cite_key := f (cite_key r);
     title := f (title r);
     authors := map f <$> authors r;
     year := f <$> year r;
     venue := f <$> venue r;
     doi := f <$> doi r;
     arxiv_id := f <$> arxiv_id r;
     url := f <$> url r;
     abstract := f <$> abstract r;
     booktitle := f <$> booktitle r;
     journal := f <$> journal r;
     volume := f <$> volume r;
     pages := f <$> pages r;
     publisher := f <$> publisher r;
     raw_fields := item_map f (raw_fields r) |}.

(** [[f(x) for x in l]], where [f] may raise. *)
Fixpoint rmap {A B} (f : A -> result B) (l : list A) : result (list B) :=
  match l with
  | [] => Ok []
  | x :: l' =>
      let? y := f x in
      let? ys := rmap f l' in
      Ok (y :: ys)
  end.

Module Dyn.

(** Truth value of an optional value. *)
Definition truthy_opt (o : option json) : bool :=
  match o with Some v => Py.truthy v | None => false end.

(** [a or b] *)
Definition or_val (a b : option json) : option json :=
  if truthy_opt a then a else b.

Definition or_list (a b : option (list json)) : option (list json) :=
  if Py.truthy_list a then a else b.

Definition _merge_metadata (entry : BibEntry_ json)
    (result : MetadataResult_ json) : BibEntry_ json :=
  {| entry_type := entry_type entry;
     cite_key := cite_key entry;
     title :=
       if Py.truthy (mr_title result) then mr_title result else title entry;
     authors := or_list (mr_authors result) (authors entry);
     year := or_val (mr_year result) (year entry);
     venue := or_val (mr_venue result) (venue entry);
     doi := or_val (mr_doi result) (doi entry);
     arxiv_id := or_val (mr_arxiv_id result) (arxiv_id entry);
     url := url entry;
     abstract := abstract entry;
     booktitle := or_val (mr_booktitle result) (booktitle entry);
     journal := or_val (mr_journal result) (journal entry);
     volume := or_val (mr_volume result) (volume entry);
     pages := or_val (mr_pages result) (pages entry);
     publisher := or_val (mr_publisher result) (publisher entry);
     raw_fields := raw_fields entry |}.

(** The items [sep.join(l)] accepts: every one has to be a [str]. *)
Fixpoint strs (l : list json) : result (list string) :=
  match l with
  | [] => Ok []
  | JStr s :: l' =>
      let? names := strs l' in
      Ok (s :: names)
  | _ :: _ => Raise TypeError
  end.

(** [if value: d[k] = value] *)
Definition set_if_truthy (d : list (string * json)) (k : string)
    (value : option json) : list (string * json) :=
  match value with
  | Some v => if Py.truthy v then Dict.set d k v else d
  | None => d
  end.

Definition _bib_entry_to_dict (entry : BibEntry_ json)
  : result (list (string * json)) :=
  let result :=
    [ ("ENTRYTYPE", entry_type entry);
      ("ID", cite_key entry);
      ("title", title entry) ] in
  let? result :=
    match authors entry with
    | Some (a :: l) =>
        let? names := strs (a :: l) in
        Ok (Dict.set result "author" (JStr (PyStr.join " and " names)))
    | _ => Ok result
    end in
  let result := set_if_truthy result "year" (year entry) in
  let result := set_if_truthy result "doi" (doi entry) in
  let result := set_if_truthy result "eprint" (arxiv_id entry) in
  let result := set_if_truthy result "url" (url entry) in
  let result := set_if_truthy result "abstract" (abstract entry) in
  let result := set_if_truthy result "booktitle" (booktitle entry) in
  let result := set_if_truthy result "journal" (journal entry) in
  let result := set_if_truthy result "volume" (volume entry) in
  let result := set_if_truthy result "pages" (pages entry) in
  let result := set_if_truthy result "publisher" (publisher entry) in
  Ok (Dict.update result (raw_fields entry)).

End Dyn.

(** ** Text files

    [open(path, encoding="utf-8")] reads in universal-newlines mode, and
    [open(path, "w", encoding="utf-8")] writes each line feed as the
    platform's line separator. *)

Module TextIO.

Definition LF : ascii := "010".
Definition CR : ascii := "013".

(** What [f.read()] returns for the characters a file holds: ["\r\n"]
    and a lone ["\r"] are read as ["\n"]. *)
Fixpoint universal_newlines (s : string) : string :=
  match s with
  | EmptyString => EmptyString
  | String c s' =>
      if Ascii.eqb c CR then
        match s' with
        | String c' s'' =>
            if Ascii.eqb c' LF then String LF (universal_newlines s'')
            else String LF (universal_newlines s')
        | EmptyString => String LF EmptyString
        end
      else String c (universal_newlines s')
  end.

(** What [f.write(s)] stores, given [os.linesep]. *)
Fixpoint translate_newlines (linesep s : string) : string :=
  match s with
  | EmptyString => EmptyString
  | String c s' =>
      if Ascii.eqb c LF then linesep +:+ translate_newlines linesep s'
      else String c (translate_newlines linesep s')
  end.

End TextIO.

Section Bibtexparser.
(** The two entry points of the bibtexparser library the module uses:
    [bibtexparser.loads(text, parser=parser).entries] with the parser
    configured as in [parse_bib_string], and [writer.write(db)] for the
    [BibTexWriter] with [indent = "  "] on a database holding the given
    entries. Either may raise. *)
Variable loads : string -> result (list pydict).
Variable write : list (list (string * json)) -> result string.

Definition parse_bib_string (bib_string : string)
  : result (list BibEntry) :=
  if negb (PyStr.nonempty (PyStr.strip bib_string)) then Ok []
  else
    let? entries := loads bib_string in
    Ok (map _dict_to_bib_entry entries).

Definition entry_to_bibtex (entry : BibEntry_ json) : result string :=
  let? db_entry := Dyn._bib_entry_to_dict entry in
  let? text := write [db_entry] in
  Ok (PyStr.strip text).

(** The text [write_bib_file] puts together: [db.entries] is built
    first, then handed to the writer. *)
Definition bibtex_of_entries (entries : list (BibEntry_ json))
  : result string :=
  let? db_entries := rmap Dyn._bib_entry_to_dict entries in
  write db_entries.

(** Files, by path: the characters each file holds. A file that exists
    can be read, and every path can be opened for writing. *)
Definition parse_bib_file (file_path : string) (fs : gmap string string)
  : result (list BibEntry) :=
  match fs !! file_path with
  | None => Raise FileNotFoundError
  | Some content => parse_bib_string (TextIO.universal_newlines content)
  end.

(** [os.linesep] *)
Variable linesep : string.

(** [db.entries] is built before the file is opened; opening the file
    for writing empties it, and only then is [writer.write(db)]
    evaluated: a writer that raises leaves the file empty. *)
Definition write_bib_file (entries : list (BibEntry_ json))
    (file_path : string) (fs : gmap string string)
  : gmap string string * result unit :=
  match rmap Dyn._bib_entry_to_dict entries with
  | Raise e => (fs, Raise e)
  | Ok db_entries =>
      match write db_entries with
      | Raise e => (<[file_path := EmptyString]> fs, Raise e)
      | Ok text =>
          (<[file_path := TextIO.translate_newlines linesep text]> fs, Ok tt)
      end
  end.
End Bibtexparser.

(** ** [server.py]: merging a candidate into a record *)

(** [a or b] on fields annotated [str | None] and [list[str] | None]. *)
Definition or_str (a b : option string) : option string :=
  if Py.truthy_str a then a else b.

Definition or_list (a b : option (list string)) : option (list string) :=
  if Py.truthy_list a then a else b.

Definition _merge_metadata (entry : BibEntry) (result : MetadataResult)
  : BibEntry :=
  {| entry_type := entry_type entry;
     cite_key := cite_key entry;
     title :=
       if PyStr.nonempty (mr_title result) then mr_title result
       else title entry;
     authors := or_list (mr_authors result) (authors entry);
     year := or_str (mr_year result) (year entry);
     venue := or_str (mr_venue result) (venue entry);
     doi := or_str (mr_doi result) (doi entry);
     arxiv_id := or_str (mr_arxiv_id result) (arxiv_id entry);
     url := url entry;
     abstract := abstract entry;
     booktitle := or_str (mr_booktitle result) (booktitle entry);
     journal := or_str (mr_journal result) (journal entry);
     volume := or_str (mr_volume result) (volume entry);
     pages := or_str (mr_pages result) (pages entry);
     publisher := or_str (mr_publisher result) (publisher entry);
     raw_fields := raw_fields entry |}.

(** Records as objects: a store of [BibEntry] objects addressed by
    position. Calling the class allocates; nothing in [_merge_metadata]
    assigns to an attribute of an existing object. *)
Definition store : Type := list BibEntry.

Definition new_BibEntry (e : BibEntry) (h : store) : nat * store :=
  (length h, h ++ [e]).

(** [_merge_metadata] on the object at address [entry]. *)
Definition merge_metadata_at (entry : nat) (result : MetadataResult)
    (h : store) : option (nat * store) :=
  match h !! entry with
  | Some e => Some (new_BibEntry (_merge_metadata e result) h)
  | None => None
  end.

(** ** The querying policy, as the specification words it

    The five queries, the order in which they are planned, and the
    gathering of their answers one after the other. *)

Inductive query : Type :=
| ArxivById (arxiv_id : string)
| CrossrefByDoi (doi : string)
| ArxivByTitle (title : string)
| DblpByTitle (title : string)
| CrossrefByTitle (title : string).

Inductive provider : Set := Arxiv | Dblp | Crossref.

Definition provider_of (q : query) : provider :=
  match q with
  | ArxivById _ | ArxivByTitle _ => Arxiv
  | DblpByTitle _ => Dblp
  | CrossrefByDoi _ | CrossrefByTitle _ => Crossref
  end.

Definition provider_confidence (p : provider) : float :=
  match p with
  | Arxiv => 0.9
  | Dblp => 0.85
  | Crossref => 0.8
  end.

(** The request each query sends. *)
Definition request_of (q : query) : request :=
  match q with
  | ArxivById arxiv_id =>
      mkRequest (ArxivScraper.BASE_URL +:+ "?id_list=" +:+ arxiv_id) []
  | CrossrefByDoi doi =>
      mkRequest (CrossRefScraper.BASE_URL +:+ "/" +:+ doi) []
  | ArxivByTitle title =>
      mkRequest (ArxivScraper.BASE_URL +:+ "?search_query=" +:+ ("ti:" +:+ title)
                 +:+ "&max_results=1") []
  | DblpByTitle title =>
      mkRequest DBLPScraper.BASE_URL
                [("q", title); ("format", "json"); ("h", "1")]
  | CrossrefByTitle title =>
      mkRequest CrossRefScraper.BASE_URL [("query.title", title); ("rows", "1")]
  end.

Definition planned_queries (title arxiv_id doi : option string) : list query :=
  match given arxiv_id with Some a => [ArxivById a] | None => [] end
  ++ match given doi with Some d => [CrossrefByDoi d] | None => [] end
  ++ match given title with
     | Some t => [ArxivByTitle t; DblpByTitle t; CrossrefByTitle t]
     | None => []
     end.

Section Policy.
Variable http_get : request -> result response.
Variable repr_other : json -> string.

Definition run_query (q : query) : M (option (MetadataResult_ json)) :=
  let get := client_get http_get in
  match q with
  | ArxivById a =>
      let! r := ArxivScraper.search_by_arxiv_id get a in
      ret (mr_map JStr <$> r)
  | ArxivByTitle t =>
      let! r := ArxivScraper.search_by_title get t in
      ret (mr_map JStr <$> r)
  | DblpByTitle t => DBLPScraper.search_by_title get t
  | CrossrefByDoi d => CrossRefScraper.search_by_doi repr_other get d
  | CrossrefByTitle t => CrossRefScraper.search_by_title repr_other get t
  end.

(** What a query answers once its request has been sent. *)
Definition answer (q : query) : result (option (MetadataResult_ json)) :=
  snd (run_query q []).

Definition found (q : query) : option (MetadataResult_ json) :=
  match answer q with
  | Ok r => r
  | Raise _ => None
  end.

Definition returns (q : query) : Prop := exists r, answer q = Ok r.

(** Every query is run, in order; each candidate found is appended. *)
Fixpoint gather (qs : list query) (results : list (MetadataResult_ json))
  : M (list (MetadataResult_ json)) :=
  match qs with
  | [] => ret results
  | q :: qs' =>
      let! r := run_query q in
      gather qs' (append_found results r)
  end.
End Policy.

(** ** The stored format, as the specification words it *)

(** A populated optional field survives a round trip, an empty one reads
    back as absent. *)
Definition keep (o : option string) : option string :=
  if Py.truthy_str o then o else None.


(** The separator does not start anywhere inside [a], not even when [a]
    is followed by a separator: [a] neither contains [sep] nor ends in a
    proper prefix of [sep] that the next separator would complete. *)
Fixpoint sep_free (sep a : string) : bool :=
  match a with
  | EmptyString => true
  | String _ a' => negb (String.prefix sep (a +:+ sep)) && sep_free sep a'
  end.

(** [sep in s], for a separator that is not empty. *)
Fixpoint occurs (sep s : string) : bool :=
  String.prefix sep s ||
  match s with
  | EmptyString => false
  | String _ s' => occurs sep s'
  end.

(** An author name the joined author string gives back: not empty, no
    white space around it, and free of the delimiter. *)
Definition author_ok (a : string) : bool :=
  PyStr.nonempty a && String.eqb (PyStr.strip a) a && sep_free " and " a.

(** Extra fields that do not clash: distinct names, none of them a name
    the format adapter models. *)
Definition raw_ok (raw : pydict) : bool :=
  Dict.distinct_keys raw && forallb (fun kv => negb (modelled (fst kv))) raw.



(** Two entries with the same fields, whatever their order: equality of
    Python dictionaries. *)
Definition same_fields (d d' : pydict) : Prop :=
  forall k, Py.assoc k d = Py.assoc k d'.








(** A field written only if set. *)
Definition opt_item (k : string) (o : option string) : pydict :=
  match o with
  | Some v => if PyStr.nonempty v then [(k, v)] else []
  | None => []
  end.

Definition author_item (r : BibEntry) : pydict :=
  match authors r with
  | Some (a :: l) => [("author", PyStr.join " and " (a :: l))]
  | _ => []
  end.

Definition head_items (r : BibEntry) : pydict :=
  [("ENTRYTYPE", entry_type r); ("ID", cite_key r); ("title", title r)].

(** The modelled fields in the order in which [_bib_entry_to_dict]
    enters them: type, key, title; authors; year; DOI; the arXiv
    identifier as [eprint]; URL, abstract, booktitle, journal, volume,
    pages, publisher. *)
Definition known_items (r : BibEntry) : pydict :=
  head_items r ++ author_item r ++ opt_item "year" (year r)
  ++ opt_item "doi" (doi r) ++ opt_item "eprint" (arxiv_id r)
  ++ opt_item "url" (url r)
  ++ opt_item "abstract" (abstract r) ++ opt_item "booktitle" (booktitle r)
  ++ opt_item "journal" (journal r) ++ opt_item "volume" (volume r)
  ++ opt_item "pages" (pages r) ++ opt_item "publisher" (publisher r).

Definition layout_with_eprint (r : BibEntry) : pydict :=
  known_items r ++ raw_fields r.


(** ** The order of binary64 values

    Comparison of floats that are not NaN is the lexicographic order of
    their ranks. *)

Definition rank (f : spec_float) : Z * (Z * Z) :=
  match f with
  | S754_infinity true => (-2, (0, 0))
  | S754_finite true m e => (-1, (- e, - Z.pos m))
  | S754_zero _ => (0, (0, 0))
  | S754_finite false m e => (1, (e, Z.pos m))
  | S754_infinity false => (2, (0, 0))
  | S754_nan => (3, (0, 0))
  end%Z.

Definition lex_lt (a b : Z * (Z * Z)) : Prop :=
  (a.1 < b.1 \/ (a.1 = b.1 /\ (a.2.1 < b.2.1 \/ (a.2.1 = b.2.1 /\ a.2.2 < b.2.2))))%Z.

Definition is_number (f : float) : Prop := Prim2SF f <> S754_nan.

(** ** Merging, as the specification words it *)

(** [merged] is the candidate's value when that value is present and
    non-empty, and the original value otherwise. *)
Definition candidate_wins_str (candidate original merged : option string)
  : Prop :=
  (forall s, candidate = Some s -> s <> EmptyString -> merged = Some s) /\
  (candidate = None \/ candidate = Some EmptyString -> merged = original).

Definition candidate_wins_list (candidate original merged : option (list string))
  : Prop :=
  (forall l, candidate = Some l -> l <> [] -> merged = Some l) /\
  (candidate = None \/ candidate = Some [] -> merged = original).

(** An author list is absent or has at least one name. *)
Definition absent_or_nonempty {B} (o : option (list B)) : Prop :=
  match o with
  | Some [] => False
  | _ => True
  end.

Definition returns_absent_or_nonempty {B} (r : result (option (list B)))
  : Prop :=
  match r with
  | Ok o => absent_or_nonempty o
  | Raise _ => True
  end.

(** ** Sample data *)

(** Two white-space characters outside ASCII: the no-break space U+00A0
    and the em space U+2003. *)
Definition nbsp : string := String "194" (String "160" "").

Definition em_space : string := String "226" (String "128" (String "131" "")).

(** A candidate that carries a title and a confidence only. *)
Definition cand (conf : float) : MetadataResult :=
  {| mr_title := "T"; mr_authors := None; mr_year := None; mr_venue := None;
     mr_doi := None; mr_arxiv_id := None; mr_booktitle := None;
     mr_journal := None; mr_volume := None; mr_pages := None;
     mr_publisher := None; mr_source := ""; mr_confidence := conf |}.

(** A record with a URL and no DOI, and a candidate that carries a DOI. *)
Definition sample_entry : BibEntry :=
  {| entry_type := "article"; cite_key := "smith2023"; title := "Old Title";
     authors := Some ["J. Smith"]; year := None; venue := None; doi := None;
     arxiv_id := None; url := Some "http://keep"; abstract := None;
     booktitle := None; journal := None; volume := None; pages := None;
     publisher := None; raw_fields := [("keywords", "deep learning")] |}.

Definition sample_candidate : MetadataResult :=
  {| mr_title := "New Title"; mr_authors := None; mr_year := Some "2023";
     mr_venue := None; mr_doi := Some "10.1/x"; mr_arxiv_id := None;
     mr_booktitle := None; mr_journal := None; mr_volume := None;
     mr_pages := None; mr_publisher := None; mr_source := "crossref";
     mr_confidence := 0.8 |}.

(** The payloads of the test suite: an arXiv feed with one entry, a DBLP
    answer with one hit, a CrossRef work. *)
Definition sample_feed : Soup.node :=
  Soup.Tag "[document]"
    [Soup.Tag "feed"
       [Soup.Tag "entry"
          [Soup.Tag "title" [Soup.NavigableString "Test Paper Title"];
           Soup.Tag "author" [Soup.Tag "name" [Soup.NavigableString "John Doe"]];
           Soup.Tag "author"
             [Soup.Tag "name" [Soup.NavigableString "Jane Smith"]];
           Soup.Tag "published" [Soup.NavigableString "2024-01-15T00:00:00Z"];
           Soup.Tag "id"
             [Soup.NavigableString "http://arxiv.org/abs/2401.12345v1"]]]].

Definition sample_dblp : json :=
  JObj [("result",
    JObj [("hits",
      JObj [("hit",
        JArr [JObj [("info",
          JObj [("title", JStr "Attention Is All You Need");
                ("authors",
                 JObj [("author",
                        JArr [JObj [("text", JStr "Ashish Vaswani")];
                              JObj [("text", JStr "Noam Shazeer")]])]);
                ("year", JStr "2017");
                ("venue", JStr "NIPS");
                ("doi", JStr "10.5555/3295222.3295349")])]])])])].

Definition sample_work : json :=
  JObj [("title", JArr [JStr "Test Paper"]);
        ("author", JArr [JObj [("given", JStr "John"); ("family", JStr "Doe")]]);
        ("published-print", JObj [("date-parts", JArr [JArr [JInt 2024]])]);
        ("DOI", JStr "10.1234/test");
        ("container-title", JArr [JStr "Nature"]);
        ("volume", JStr "123");
        ("page", JStr "1-10")].

(** A network in which every request is answered by the sample feed and
    by the sample work wrapped as a CrossRef answer. *)
Definition sample_net (_ : request) : result response :=
  Ok {| resp_soup := sample_feed;
        resp_json := Ok (JObj [("status", JStr "ok"); ("message", sample_work)]) |}.

Definition sample_repr (_ : json) : string := "?".

(** A record with a DOI, an arXiv identifier and a URL. *)
Definition arxiv_entry : BibEntry :=
  {| entry_type := "misc"; cite_key := "arxiv2024"; title := "ArXiv Paper";
     authors := None; year := None; venue := None;
     doi := Some "10.1/x"; arxiv_id := Some "2401.12345";
     url := Some "https://arxiv.org/abs/2401.12345"; abstract := None;
     booktitle := None; journal := None; volume := None; pages := None;
     publisher := None; raw_fields := [] |}.

(** A record whose extra fields reuse the name of a modelled field. *)
Definition clash_entry : BibEntry :=
  {| entry_type := "misc"; cite_key := "a"; title := "X";
     authors := None; year := None; venue := None; doi := None;
     arxiv_id := None; url := None; abstract := None; booktitle := None;
     journal := None; volume := None; pages := None; publisher := None;
     raw_fields := [("note", "n"); ("title", "Y")] |}.



(** The scenario of the specification: the stored text, the fields the
    reader finds in it, and the record expected. *)
Definition scenario_text : string :=
  "@misc{a, title={X}, eprint={2401.00001}}".

Definition scenario_fields : pydict :=
  [("ENTRYTYPE", "misc"); ("ID", "a"); ("title", "X");
   ("eprint", "2401.00001")].

Definition scenario_record : BibEntry :=
  {| entry_type := "misc"; cite_key := "a"; title := "X";
     authors := None; year := None; venue := None; doi := None;
     arxiv_id := Some "2401.00001"; url := None; abstract := None;
     booktitle := None; journal := None; volume := None; pages := None;
     publisher := None; raw_fields := [] |}.

(** A stand-in for the BibTeX reader that finds the scenario's entry in
    every text. *)
Definition scenario_loads (_ : string) : result (list pydict) :=
  Ok [[("title", "X"); ("eprint", "2401.00001"); ("ENTRYTYPE", "misc");
       ("ID", "a")]].

(** A small codec to exercise the properties on a writer and a reader
    that depend on their input: an entry is written as its fields
    [name=value] separated by [|], entries are separated by [;;], and a
    value that is not a string makes the writer raise [TypeError]. *)
Definition toy_field (kv : string * json) : result string :=
  match snd kv with
  | JStr v => Ok (fst kv +:+ "=" +:+ v)
  | _ => Raise TypeError
  end.

Definition toy_write (entries : list (list (string * json)))
  : result string :=
  let? blocks :=
    rmap (fun d => let? fields := rmap toy_field d in
                   Ok (PyStr.join "|" fields)) entries in
  Ok (PyStr.join ";;" blocks).

Definition toy_read_field (s : string) : string * string :=
  match PyStr.split "=" s with
  | k :: v :: _ => (k, v)
  | _ => (s, "")
  end.

Definition toy_loads (text : string) : result (list pydict) :=
  Ok (map (fun block => map toy_read_field (PyStr.split "|" block))
          (PyStr.split ";;" text)).

(** Records outside the hypotheses of the round trip: an author name
    that contains the delimiter, and one that ends in its first word. *)
Definition delimiter_entry : BibEntry :=
  {| entry_type := "book"; cite_key := "b"; title := "T";
     authors := Some ["Simon and Schuster"]; year := None; venue := None;
     doi := None; arxiv_id := None; url := None; abstract := None;
     booktitle := None; journal := None; volume := None; pages := None;
     publisher := None; raw_fields := [] |}.

Definition trailing_and_entry : BibEntry :=
  {| entry_type := "book"; cite_key := "b"; title := "T";
     authors := Some ["x and"; "y"]; year := None; venue := None;
     doi := None; arxiv_id := None; url := None; abstract := None;
     booktitle := None; journal := None; volume := None; pages := None;
     publisher := None; raw_fields := [] |}.

(** The DBLP answers of the specification's scenarios: no hit, and one
    hit whose author is a single object. *)
Definition dblp_no_hit : json :=
  JObj [("result", JObj [("hits", JObj [("hit", JArr [])])])].

Definition dblp_single_author : json :=
  JObj [("result",
    JObj [("hits",
      JObj [("hit",
        JArr [JObj [("info",
          JObj [("title", JStr "A Paper");
                ("authors",
                 JObj [("author", JObj [("text", JStr "Ada Lovelace")])])])]])])])].

(** An arXiv feed without entries. *)
Definition empty_feed : Soup.node :=
  Soup.Tag "[document]" [Soup.Tag "feed" [Soup.NavigableString " "]].

(** ** [server.py]: the two tools *)

(** [str(n)] for a count. *)
Definition str_nat (n : nat) : string :=
  NilEmpty.string_of_int (Z.to_int (Z.of_nat n)).

(** The record [enrich_bib_entry] builds from the best candidate. *)
Definition entry_of_best (cite_key : string) (best : MetadataResult_ json)
  : BibEntry_ json :=
  {| entry_type := JStr "article";
     cite_key := JStr cite_key;
     title := mr_title best;
     authors := mr_authors best;
     year := mr_year best;
     venue := None;
     doi := mr_doi best;
     arxiv_id := mr_arxiv_id best;
     url := None;
     abstract := None;
     booktitle := None;
     journal := mr_journal best;
     volume := mr_volume best;
     pages := mr_pages best;
     publisher := None;
     raw_fields := [] |}.

Section Tools.
Variable http_get : request -> result response.
Variable repr_other : json -> string.
Variable loads : string -> result (list pydict).
Variable write : list (list (string * json)) -> result string.
Variable linesep : string.

Definition enrich_bib_entry (cite_key : string)
    (title arxiv_id doi : option string) : M string :=
  let! results := scrape_metadata http_get repr_other title arxiv_id doi in
  match select_best results with
  | None => ret ("No metadata found for " +:+ cite_key)
  | Some best => lift (entry_to_bibtex write (entry_of_best cite_key best))
  end.

(** The loop of [enrich_bib_file] over the entries still to process.
    The entries come from the reader, so their fields are strings; a
    merged entry holds what the candidate held. *)
Fixpoint enrich_loop (entries : list BibEntry)
    (updated_entries : list (BibEntry_ json)) (enriched_count : nat)
  : M (list (BibEntry_ json) * nat) :=
  match entries with
  | [] => ret (updated_entries, enriched_count)
  | entry :: rest =>
      let! results :=
        scrape_metadata http_get repr_other
          (Some (title entry)) (arxiv_id entry) (doi entry) in
      match select_best results with
      | Some best =>
          enrich_loop rest
            (updated_entries ++ [Dyn._merge_metadata (be_map JStr entry) best])
            (enriched_count + 1)
      | None =>
          enrich_loop rest (updated_entries ++ [be_map JStr entry])
            enriched_count
      end
  end.

(** [enrich_bib_file] on the requests made so far and the files: the
    file is written once, after the loop. *)
Definition enrich_bib_file (file_path : string)
    (st : list request * gmap string string)
  : (list request * gmap string string) * result string :=
  let '(log, fs) := st in
  match parse_bib_file loads file_path fs with
  | Raise e => ((log, fs), Raise e)
  | Ok entries =>
      match enrich_loop entries [] 0 log with
      | (log', Raise e) => ((log', fs), Raise e)
      | (log', Ok (updated_entries, enriched_count)) =>
          match write_bib_file write linesep updated_entries file_path fs with
          | (fs', Raise e) => ((log', fs'), Raise e)
          | (fs', Ok _) =>
              ((log', fs'),
               Ok ("Enriched " +:+ str_nat enriched_count +:+ "/"
                   +:+ str_nat (length entries) +:+ " entries in "
                   +:+ file_path))
          end
      end
  end.
End Tools.

(** ** Further notions used in the properties *)

(** A code point whose bytes are all there, and one that may have been
    cut short by the end of the text. *)
Definition complete (c : string) : Prop :=
  match c with
  | String b x => String.length x = PyStr.width b - 1
  | EmptyString => False
  end.

Definition partial (c : string) : Prop :=
  match c with
  | String b x => String.length x <= PyStr.width b - 1
  | EmptyString => False
  end.

(** A list of code points as [PyStr.chars] produces them: only the last
    one may be cut short. *)
Fixpoint chunks (l : list string) : Prop :=
  match l with
  | [] => True
  | c :: l' =>
      match l' with
      | [] => partial c
      | _ => complete c /\ chunks l'
      end
  end.

Definition all_digits (s : string) : bool :=
  forallb Re.isdigit (PyStr.chars s).

(** Digits, a dot, digits. *)
Definition arxiv_number (x : string) : Prop :=
  exists d1 d2,
    x = d1 +:+ "." +:+ d2 /\
    PyStr.nonempty d1 = true /\ all_digits d1 = true /\
    PyStr.nonempty d2 = true /\ all_digits d2 = true.

(** The first and the last code point of a text. *)
Definition first_char (s : string) : option string := head (PyStr.chars s).

Definition last_char (s : string) : option string := last (PyStr.chars s).

(** A string with no white space at either end. *)
Definition trimmed (s : string) : Prop :=
  (forall c, first_char s = Some c -> PyStr.isspace c = false) /\
  (forall c, last_char s = Some c -> PyStr.isspace c = false).

Definition provider_name (p : provider) : string :=
  match p with
  | Arxiv => "arxiv"
  | Dblp => "dblp"
  | Crossref => "crossref"
  end.

(** The last value bound to [k] in a list of items. *)
Definition last_assoc (k : string) (d : pydict) : option string :=
  Py.assoc k (rev d).

(** A field of the record is populated. *)
Definition populated_list (o : option (list string)) : Prop :=
  Py.truthy_list o = true.

Definition populated (o : option string) : Prop := Py.truthy_str o = true.


(** A candidate whose author is a number. *)
Definition number_author : MetadataResult_ json :=
  {| mr_title := JStr "T"; mr_authors := Some [JInt 1]; mr_year := None;
     mr_venue := None; mr_doi := None; mr_arxiv_id := None;
     mr_booktitle := None; mr_journal := None; mr_volume := None;
     mr_pages := None; mr_publisher := None; mr_source := "dblp";
     mr_confidence := 0.85 |}.

(** A network in which nothing is found, and one that is down. *)
Definition empty_net (_ : request) : result response :=
  Ok {| resp_soup := empty_feed;
        resp_json :=
          Ok (JObj [("result", JObj [("hits", JObj [("hit", JArr [])])]);
                    ("message", JObj [("items", JArr [])])]) |}.


(** [os.linesep] on POSIX systems. *)
Definition posix : string := String TextIO.LF "".

(** A file system with one file, in the format of the small codec. *)
Definition sample_fs : gmap string string :=
  {[ "refs.bib" := "ENTRYTYPE=misc|ID=a|title=X|eprint=2401.00001" ]}.

(** The date parts the work gives under [key]: those of
    [work.get(key, {}).get("date-parts", [[]])]. *)
Definition date_parts_of (work : list (string * json)) (key : string)
  : result json :=
  let? date := Py.get (JObj work) key (JObj []) in
  Py.get date "date-parts" (JArr [JArr []]).

(** The date under [key] gives the year [y]: its date parts are not
    empty, nor is the first of them, which starts with [y]. *)
Definition has_date (work : list (string * json)) (key : string) (y : json)
  : Prop :=
  exists date_parts first,
    date_parts_of work key = Ok date_parts /\
    Py.truthy date_parts = true /\ Py.item0 date_parts = Ok first /\
    Py.truthy first = true /\ Py.item0 first = Ok y.

(** The date under [key] gives no year: its date parts are empty, or
    the first of them is. *)
Definition no_year (work : list (string * json)) (key : string) : Prop :=
  exists date_parts,
    date_parts_of work key = Ok date_parts /\
    (Py.truthy date_parts = false \/
     exists first, Py.item0 date_parts = Ok first /\ Py.truthy first = false).

(** A CrossRef work with a print date that has no parts, an online date
    and a creation date. *)
Definition online_work : list (string * json) :=
  [("title", JArr [JStr "T"]);
   ("published-print", JObj [("date-parts", JArr [JArr []])]);
   ("published-online", JObj [("date-parts", JArr [JArr [JInt 2021; JInt 5]])]);
   ("created", JObj [("date-parts", JArr [JArr [JInt 2020]])])].

(** A CrossRef work whose first author has a no-break space for a given
    name and no family name. *)
Definition blank_author_work : json :=
  JObj [("author",
         JArr [JObj [("given", JStr nbsp)];
               JObj [("given", JStr "John"); ("family", JStr "Doe")]])].

(** The candidates found for an entry of the file. *)
Definition scraped (http_get : request -> result response)
    (repr_other : json -> string) (entry : BibEntry)
  : result (list (MetadataResult_ json)) :=
  snd (scrape_metadata http_get repr_other
         (Some (title entry)) (arxiv_id entry) (doi entry) []).

(** What the loop makes of an entry for which [results] were found. *)
Definition updated_entry (entry : BibEntry)
    (results : list (MetadataResult_ json)) : BibEntry_ json :=
  match select_best results with
  | Some best => Dyn._merge_metadata (be_map JStr entry) best
  | None => be_map JStr entry
  end.

Definition found_any {A} (results : list A) : bool :=
  match results with [] => false | _ => true end.

(** An updated entry is the entry itself or the entry merged with a
    candidate. *)
Definition kept_or_merged (entry : BibEntry) (updated : BibEntry_ json)
  : Prop :=
  updated = be_map JStr entry \/
  exists best, updated = Dyn._merge_metadata (be_map JStr entry) best.

(** The summary [enrich_bib_file] returns. *)
Definition enriched_summary (count total : nat) (file_path : string) : string :=
  "Enriched " +:+ str_nat count +:+ "/" +:+ str_nat total
  +:+ " entries in " +:+ file_path.

(** A field handed to the writer only if its value is truthy. *)
Definition opt_value (k : string) (o : option json) : list (string * json) :=
  match o with
  | Some v => if Py.truthy v then [(k, v)] else []
  | None => []
  end.

(** The mapping [enrich_bib_entry] hands to the writer for a candidate
    whose authors are [names]. *)
Definition ad_hoc_layout (cite_key : string) (best : MetadataResult_ json)
    (names : list string) : list (string * json) :=
  [("ENTRYTYPE", JStr "article"); ("ID", JStr cite_key);
   ("title", mr_title best)]
  ++ match names with
     | [] => []
     | _ => [("author", JStr (PyStr.join " and " names))]
     end
  ++ opt_value "year" (mr_year best) ++ opt_value "doi" (mr_doi best)
  ++ opt_value "eprint" (mr_arxiv_id best)
  ++ opt_value "journal" (mr_journal best)
  ++ opt_value "volume" (mr_volume best) ++ opt_value "pages" (mr_pages best).

(* ================================================================== *)
(** * Properties *)

(** ** Floats *)

Lemma SFcompare_rank x y c :
  SFcompare x y = Some c ->
  (c = Lt <-> lex_lt (rank x) (rank y)) /\
  (c = Gt <-> lex_lt (rank y) (rank x)).
Proof.
  unfold lex_lt.
  destruct x as [[]|[]| |[] mx ex], y as [[]|[]| |[] my ey];
    cbn [SFcompare rank fst snd]; intros [= <-];
    try (split; split; first [discriminate | intros; lia | reflexivity]).
  all: change (Pos.compare_cont Eq mx my) with (Pos.compare mx my).
  all: destruct (Z.compare_spec ex ey) as [->|?|?];
      [destruct (Pos.compare_spec mx my) as [->|?|?]|..]; cbn;
      split; split; first [discriminate | intros; lia | reflexivity].
Qed.

Lemma SFcompare_number x y :
  x <> S754_nan -> y <> S754_nan -> exists c, SFcompare x y = Some c.
Proof.
  destruct x as [[]|[]| |[] mx ex], y as [[]|[]| |[] my ey];
    try congruence; cbn; eauto.
Qed.

Lemma ltb_rank x y :
  is_number x -> is_number y ->
  PrimFloat.ltb x y = true <-> lex_lt (rank (Prim2SF x)) (rank (Prim2SF y)).
Proof.
  intros Hx Hy. rewrite ltb_spec. unfold SFltb.
  destruct (SFcompare_number _ _ Hx Hy) as [c Hc]. rewrite Hc.
  destruct (SFcompare_rank _ _ _ Hc) as [<- _].
  destruct c; split; congruence.
Qed.

Lemma leb_not_ltb x y :
  is_number x -> is_number y ->
  PrimFloat.leb x y = negb (PrimFloat.ltb y x).
Proof.
  intros Hx Hy. rewrite leb_spec, ltb_spec. unfold SFleb, SFltb.
  destruct (SFcompare_number _ _ Hx Hy) as [c Hc].
  destruct (SFcompare_number _ _ Hy Hx) as [c' Hc']. rewrite Hc, Hc'.
  destruct (SFcompare_rank _ _ _ Hc) as [Hlt Hgt].
  destruct (SFcompare_rank _ _ _ Hc') as [Hlt' Hgt'].
  assert (E : c = Gt <-> c' = Lt)
    by (etransitivity; [exact Hgt|symmetry; exact Hlt']).
  destruct c, c'; try reflexivity; exfalso; intuition discriminate.
Qed.

Lemma ltb_trans x y z :
  is_number x -> is_number y -> is_number z ->
  PrimFloat.ltb x y = true -> PrimFloat.ltb y z = true ->
  PrimFloat.ltb x z = true.
Proof.
  intros Hx Hy Hz. rewrite !ltb_rank by assumption. unfold lex_lt. lia.
Qed.

Lemma leb_ltb_trans x y z :
  is_number x -> is_number y -> is_number z ->
  PrimFloat.leb x y = true -> PrimFloat.ltb y z = true ->
  PrimFloat.ltb x z = true.
Proof.
  intros Hx Hy Hz. rewrite leb_not_ltb, negb_true_iff by assumption.
  rewrite <- not_true_iff_false. rewrite !ltb_rank by assumption.
  unfold lex_lt. lia.
Qed.

Lemma ltb_leb x y :
  is_number x -> is_number y ->
  PrimFloat.ltb x y = true -> PrimFloat.leb x y = true.
Proof.
  intros Hx Hy. rewrite leb_not_ltb, negb_true_iff by assumption.
  rewrite <- not_true_iff_false. rewrite !ltb_rank by assumption.
  unfold lex_lt. lia.
Qed.

Lemma score_number f : score f = true -> is_number f.
Proof.
  unfold score, is_number. rewrite andb_true_iff, !leb_spec.
  intros [_ H] Hnan. rewrite Hnan in H. discriminate.
Qed.

Section MaxSpec.
Context {A : Type}.
Variable key : A -> float.

Lemma py_max_from_split best rest :
  Forall (fun x => is_number (key x)) (best :: rest) ->
  exists l1 l2,
    best :: rest = l1 ++ py_max_from key best rest :: l2 /\
    Forall (fun x => PrimFloat.ltb (key x) (key (py_max_from key best rest)) = true) l1 /\
    Forall (fun x => PrimFloat.leb (key x) (key (py_max_from key best rest)) = true) l2.
Proof.
  revert best. induction rest as [|x rest IH]; intros best Hnum.
  - exists [], []. simpl. auto.
  - apply Forall_cons in Hnum as [Hb Hnum].
    pose proof Hnum as Hnum'. apply Forall_cons in Hnum' as [Hx Hrest].
    simpl. destruct (PrimFloat.ltb (key best) (key x)) eqn:Hlt.
    + destruct (IH x Hnum) as (l1 & l2 & Heq & H1 & H2).
      set (m := py_max_from key x rest) in *.
      assert (Hm : is_number (key m)).
      { assert (Hin : m ∈ x :: rest).
        { rewrite Heq. apply elem_of_app. right. apply elem_of_cons. by left. }
        rewrite Forall_forall in Hnum. by apply Hnum. }
      exists (best :: l1), l2. split; [by rewrite Heq|]. split; [|done].
      constructor; [|done].
      destruct l1 as [|y l1].
      * injection Heq as <- _. done.
      * injection Heq as <- _. apply Forall_cons in H1 as [H1 _].
        by apply (ltb_trans _ (key x)).
    + destruct (IH best ltac:(by constructor)) as (l1 & l2 & Heq & H1 & H2).
      set (m := py_max_from key best rest) in *.
      assert (Hm : is_number (key m)).
      { assert (Hin : m ∈ best :: rest).
        { rewrite Heq. apply elem_of_app. right. apply elem_of_cons. by left. }
        assert (Hall : Forall (fun x => is_number (key x)) (best :: rest))
          by by constructor.
        rewrite Forall_forall in Hall. by apply Hall. }
      assert (Hxb : PrimFloat.leb (key x) (key best) = true).
      { rewrite leb_not_ltb by assumption. by rewrite Hlt. }
      destruct l1 as [|y l1].
      * simpl in Heq. injection Heq as Hbm Hl2. subst l2.
        exists [], (x :: rest). split; [simpl; congruence|]. split; [done|].
        constructor; [congruence|done].
      * injection Heq as <- Heq. apply Forall_cons in H1 as [Hbm H1].
        exists (best :: x :: l1), l2. split; [simpl; by rewrite Heq|].
        split; [|done]. constructor; [done|]. constructor; [|done].
        by apply (leb_ltb_trans _ (key best)).
Qed.
End MaxSpec.

Lemma leb_refl x : is_number x -> PrimFloat.leb x x = true.
Proof.
  intros Hx. rewrite leb_not_ltb, negb_true_iff by assumption.
  rewrite <- not_true_iff_false, ltb_rank by assumption. unfold lex_lt. lia.
Qed.

(** ** Best-candidate selection *)

(** C2. [select_best] of no candidates is nothing. Of a non-empty
    sequence of candidates, each with a confidence score between 0 and 1,
    it is a candidate [m] of the sequence such that no candidate has a
    greater confidence and every candidate before [m] has a strictly
    smaller one: the first candidate of maximal confidence. Candidates of
    confidence 0.9, 0.85 and 0.8, in any order, give the 0.9 one. *)
Theorem select_best_spec {V : Type} :
  select_best (@nil (MetadataResult_ V)) = None /\
  (forall l : list (MetadataResult_ V),
     l <> [] ->
     Forall (fun c => score (mr_confidence c) = true) l ->
     exists m l1 l2,
       select_best l = Some m /\
       l = l1 ++ m :: l2 /\
       (forall c, c ∈ l ->
          PrimFloat.leb (mr_confidence c) (mr_confidence m) = true) /\
       (forall c, c ∈ l1 ->
          PrimFloat.ltb (mr_confidence c) (mr_confidence m) = true)) /\
  (forall (a b c : MetadataResult_ V) (l : list (MetadataResult_ V)),
     mr_confidence a = 0.9%float ->
     mr_confidence b = 0.85%float ->
     mr_confidence c = 0.8%float ->
     l ≡ₚ [a; b; c] ->
     select_best l = Some a).
Proof.
  assert (Hgen : forall l : list (MetadataResult_ V),
     l <> [] ->
     Forall (fun c => score (mr_confidence c) = true) l ->
     exists m l1 l2,
       select_best l = Some m /\
       l = l1 ++ m :: l2 /\
       (forall c, c ∈ l ->
          PrimFloat.leb (mr_confidence c) (mr_confidence m) = true) /\
       (forall c, c ∈ l1 ->
          PrimFloat.ltb (mr_confidence c) (mr_confidence m) = true)).
  { intros [|r rest] Hne Hscore; [done|].
    assert (Hnum : Forall (fun c => is_number (mr_confidence c)) (r :: rest)).
    { eapply Forall_impl; [exact Hscore|]. intros c. apply score_number. }
    destruct (py_max_from_split mr_confidence r rest Hnum)
      as (l1 & l2 & Heq & H1 & H2).
    exists (py_max_from mr_confidence r rest), l1, l2.
    split; [done|]. split; [done|].
    rewrite Forall_forall in H1, H2, Hnum.
    assert (Hm : is_number (mr_confidence (py_max_from mr_confidence r rest))).
    { apply Hnum. rewrite Heq. apply elem_of_app. right. by left. }
    split; [|exact H1].
    intros c Hc. rewrite Heq in Hc.
    apply elem_of_app in Hc as [Hc|Hc].
    - apply ltb_leb; [apply Hnum; rewrite Heq; apply elem_of_app; by left|done|by apply H1].
    - apply elem_of_cons in Hc as [->|Hc]; [by apply leb_refl|by apply H2]. }
  split; [done|]. split; [exact Hgen|].
  intros a b c l Ha Hb Hc Hperm.
  destruct (Hgen l) as (m & l1 & l2 & Hsel & Heq & Hmax & _).
  - intros ->. by apply Permutation_nil_l in Hperm.
  - rewrite Hperm. repeat constructor; rewrite ?Ha, ?Hb, ?Hc; reflexivity.
  - rewrite Hsel. f_equal.
    assert (Hin : m ∈ [a; b; c]).
    { rewrite <- Hperm, Heq. apply elem_of_app. right. by left. }
    assert (Hle : PrimFloat.leb (mr_confidence a) (mr_confidence m) = true).
    { apply Hmax. rewrite Hperm. by left. }
    rewrite Ha in Hle.
    apply elem_of_cons in Hin as [->|Hin]; [done|].
    apply elem_of_cons in Hin as [->|Hin]; [rewrite Hb in Hle; discriminate|].
    apply elem_of_cons in Hin as [->|Hin]; [rewrite Hc in Hle; discriminate|].
    by apply elem_of_nil in Hin.
Qed.

Lemma select_best_spec_witness :
  select_best [cand 0.85; cand 0.9; cand 0.8] = Some (cand 0.9).
Proof.
  apply (proj2 (proj2 select_best_spec) (cand 0.9) (cand 0.85) (cand 0.8));
    try reflexivity.
  apply perm_swap.
Defined.

(** ** Merging a candidate into a record *)

Lemma or_str_wins a b : candidate_wins_str a b (or_str a b).
Proof.
  unfold candidate_wins_str, or_str. split.
  - intros s -> Hs. destruct s; [done|reflexivity].
  - intros [->| ->]; reflexivity.
Qed.

Lemma or_list_wins a b : candidate_wins_list a b (or_list a b).
Proof.
  unfold candidate_wins_list, or_list. split.
  - intros l -> Hl. destruct l; [done|reflexivity].
  - intros [->| ->]; reflexivity.
Qed.

(** C1. In the record [_merge_metadata] returns, the title is the
    candidate's title when that is non-empty and the record's otherwise;
    authors, year, venue, DOI, arXiv id, journal, volume, pages and
    publisher are the candidate's value when it is present and non-empty
    and the record's value otherwise; url, abstract and the raw fields
    are the record's. On the object store the merged record is a new
    object: the input record, like every other object, is unchanged. *)
Theorem merge_metadata_spec (entry : BibEntry) (result : MetadataResult) :
  let merged := _merge_metadata entry result in
  (mr_title result <> EmptyString -> title merged = mr_title result) /\
  (mr_title result = EmptyString -> title merged = title entry) /\
  candidate_wins_list (mr_authors result) (authors entry) (authors merged) /\
  candidate_wins_str (mr_year result) (year entry) (year merged) /\
  candidate_wins_str (mr_venue result) (venue entry) (venue merged) /\
  candidate_wins_str (mr_doi result) (doi entry) (doi merged) /\
  candidate_wins_str (mr_arxiv_id result) (arxiv_id entry) (arxiv_id merged) /\
  candidate_wins_str (mr_journal result) (journal entry) (journal merged) /\
  candidate_wins_str (mr_volume result) (volume entry) (volume merged) /\
  candidate_wins_str (mr_pages result) (pages entry) (pages merged) /\
  candidate_wins_str (mr_publisher result) (publisher entry)
    (publisher merged) /\
  url merged = url entry /\
  abstract merged = abstract entry /\
  raw_fields merged = raw_fields entry /\
  (forall (h : store) (a : nat),
     h !! a = Some entry ->
     exists a' h',
       merge_metadata_at a result h = Some (a', h') /\
       h' !! a' = Some merged /\
       a' <> a /\
       (forall b e, h !! b = Some e -> h' !! b = Some e)).
Proof.
  cbn zeta. repeat split;
    try apply or_str_wins; try apply or_list_wins; try reflexivity.
  - cbn. destruct (mr_title result); [done|reflexivity].
  - cbn. intros ->. reflexivity.
  - intros h a Ha. unfold merge_metadata_at, new_BibEntry. rewrite Ha.
    eexists _, _. split; [reflexivity|].
    split; [by apply list_lookup_middle|].
    split.
    + apply lookup_lt_Some in Ha. lia.
    + intros b e Hb. by apply lookup_app_l_Some.
Qed.

Lemma merge_metadata_spec_witness :
  doi (_merge_metadata sample_entry sample_candidate) = Some "10.1/x" /\
  url (_merge_metadata sample_entry sample_candidate) = Some "http://keep" /\
  exists a' h',
    merge_metadata_at 0 sample_candidate [sample_entry] = Some (a', h') /\
    h' !! 0 = Some sample_entry.
Proof.
  pose proof (merge_metadata_spec sample_entry sample_candidate) as H.
  cbn zeta in H.
  destruct H as (_ & _ & _ & _ & _ & Hdoi & _ & _ & _ & _ & _ & Hurl & _ & _ & Hst).
  split; [apply (proj1 Hdoi); [reflexivity|discriminate]|].
  split; [exact Hurl|].
  destruct (Hst [sample_entry] 0 eq_refl) as (a' & h' & Hm & _ & _ & Hkeep).
  exists a', h'. split; [exact Hm|]. apply Hkeep. reflexivity.
Defined.

(** C10. The merged record has the entry type and the citation key of
    the original record, whatever the candidate carries. *)
Theorem merge_metadata_keeps_identity (entry : BibEntry)
    (result : MetadataResult) :
  entry_type (_merge_metadata entry result) = entry_type entry /\
  cite_key (_merge_metadata entry result) = cite_key entry.
Proof. split; reflexivity. Qed.

(** ** The result monad *)

Lemma rbind_Ok {A B} (r : result A) (k : A -> result B) (b : B) :
  rbind r k = Ok b -> exists a, r = Ok a /\ k a = Ok b.
Proof. destruct r as [a|e]; [eauto|discriminate]. Qed.

Lemma if_Ok_None {A} (c : bool) (r : result (option A)) (v : A) :
  (if c then Ok None else r) = Ok (Some v) -> c = false /\ r = Ok (Some v).
Proof. destruct c; [discriminate|auto]. Qed.

Ltac ok_inv H :=
  repeat first
    [ apply rbind_Ok in H as (? & ? & H)
    | apply if_Ok_None in H as (? & H) ].

(** ** Provider confidence *)

Lemma arxiv_confidence soup arxiv_id c :
  ArxivScraper._parse_response soup arxiv_id = Some c ->
  mr_confidence c = 0.9%float.
Proof.
  unfold ArxivScraper._parse_response.
  destruct (Soup.find "entry" soup) as [entry|]; [|discriminate].
  destruct (Soup.find "title" entry); [|discriminate].
  by intros [= <-].
Qed.

Lemma dblp_confidence data c :
  DBLPScraper._parse_response data = Ok (Some c) ->
  mr_confidence c = 0.85%float.
Proof.
  unfold DBLPScraper._parse_response.
  destruct (DBLPScraper.parse_response_try data) as [r|e] eqn:Htry.
  - intros [= ->]. unfold DBLPScraper.parse_response_try in Htry.
    ok_inv Htry. by injection Htry as <-.
  - by destruct e.
Qed.

Lemma crossref_confidence repr_other work c :
  CrossRefScraper._parse_work repr_other work = Ok (Some c) ->
  mr_confidence c = 0.8%float.
Proof.
  unfold CrossRefScraper._parse_work. intros H.
  ok_inv H. by injection H as <-.
Qed.

(** ** Queries *)

Section PolicyFacts.
Variable http_get : request -> result response.
Variable repr_other : json -> string.

Lemma bind_client_get {A} (req : request) (k : response -> M A) log :
  bind (client_get http_get req) k log =
  match http_get req with
  | Ok resp => k resp (log ++ [req])
  | Raise e => (log ++ [req], Raise e)
  end.
Proof. unfold bind, client_get. by destruct (http_get req). Qed.

Lemma bind_lift {A B} (r : result A) (k : A -> M B) log :
  bind (lift r) k log =
  match r with
  | Ok a => k a log
  | Raise e => (log, Raise e)
  end.
Proof. unfold bind, lift. by destruct r. Qed.

Lemma bind_ret {A B} (a : A) (k : A -> M B) log : bind (ret a) k log = k a log.
Proof. reflexivity. Qed.

Lemma bind_assoc {A B C} (m : M A) (k : A -> M B) (k' : B -> M C) log :
  bind (bind m k) k' log = bind m (fun x => bind (k x) k') log.
Proof. unfold bind. destruct (m log) as [log' [a|e]]; reflexivity. Qed.

(** A query sends exactly its own request, whatever it answers. *)
Lemma run_query_log q log :
  run_query http_get repr_other q log = (log ++ [request_of q], answer http_get repr_other q).
Proof.
  unfold answer.
  destruct q; unfold run_query, request_of,
      ArxivScraper.search_by_arxiv_id, ArxivScraper.search_by_title,
      DBLPScraper.search_by_title, CrossRefScraper.search_by_doi,
      CrossRefScraper.search_by_title; cbv zeta;
    rewrite ?bind_assoc, !bind_client_get;
    match goal with |- context [http_get ?r] => destruct (http_get r) as [resp|e] end;
    try reflexivity.
  all: repeat (rewrite ?bind_lift, ?bind_ret;
         match goal with
         | |- context [match ?r with Ok _ => _ | Raise _ => _ end] =>
             destruct r; try reflexivity
         | |- context [if ?c then _ else _] => destruct c; try reflexivity
         end).
Qed.

Lemma mr_map_confidence {V W} (f : V -> W) (r : MetadataResult_ V) :
  mr_confidence (mr_map f r) = mr_confidence r.
Proof. reflexivity. Qed.

Lemma answer_confidence q c :
  answer http_get repr_other q = Ok (Some c) ->
  mr_confidence c = provider_confidence (provider_of q).
Proof.
  unfold answer.
  destruct q; unfold run_query, provider_of, provider_confidence,
      ArxivScraper.search_by_arxiv_id, ArxivScraper.search_by_title,
      DBLPScraper.search_by_title, CrossRefScraper.search_by_doi,
      CrossRefScraper.search_by_title; cbv zeta;
    rewrite ?bind_assoc, !bind_client_get;
    match goal with |- context [http_get ?r] => destruct (http_get r) as [resp|e] end;
    try discriminate.
  all: repeat (rewrite ?bind_lift, ?bind_ret;
         match goal with
         | |- context [match ?r with Ok _ => _ | Raise _ => _ end] =>
             destruct r eqn:?; try discriminate
         | |- context [if ?c then _ else _] => destruct c; try discriminate
         end).
  all: rewrite ?bind_ret; cbn [snd ret].
  - destruct (ArxivScraper._parse_response _ _) eqn:Hp; intros [= <-].
    by eapply arxiv_confidence.
  - apply crossref_confidence.
  - destruct (ArxivScraper._parse_response _ _) eqn:Hp; intros [= <-].
    by eapply arxiv_confidence.
  - apply dblp_confidence.
  - apply crossref_confidence.
Qed.
End PolicyFacts.

(** C8. Every candidate a provider's parser produces carries that
    provider's constant: 0.9 for arXiv, 0.85 for DBLP, 0.8 for CrossRef,
    whatever the response holds; and so does every candidate a query
    answers, by identifier or by title. *)
Theorem confidence_is_per_provider :
  (forall soup arxiv_id c,
     ArxivScraper._parse_response soup arxiv_id = Some c ->
     mr_confidence c = 0.9%float) /\
  (forall data c,
     DBLPScraper._parse_response data = Ok (Some c) ->
     mr_confidence c = 0.85%float) /\
  (forall repr_other work c,
     CrossRefScraper._parse_work repr_other work = Ok (Some c) ->
     mr_confidence c = 0.8%float) /\
  (forall http_get repr_other q c,
     answer http_get repr_other q = Ok (Some c) ->
     mr_confidence c = provider_confidence (provider_of q)).
Proof.
  split; [exact arxiv_confidence|].
  split; [exact dblp_confidence|].
  split; [exact crossref_confidence|].
  exact answer_confidence.
Qed.

Lemma confidence_is_per_provider_witness :
  (exists c, ArxivScraper._parse_response sample_feed None = Some c /\
             mr_confidence c = 0.9%float) /\
  (exists c, DBLPScraper._parse_response sample_dblp = Ok (Some c) /\
             mr_confidence c = 0.85%float) /\
  (exists c, CrossRefScraper._parse_work sample_repr sample_work = Ok (Some c) /\
             mr_confidence c = 0.8%float) /\
  (exists c, answer sample_net sample_repr (CrossrefByDoi "10.1234/test")
             = Ok (Some c) /\
             mr_confidence c = 0.8%float).
Proof.
  destruct confidence_is_per_provider as (Ha & Hd & Hc & Hq).
  split; [eexists; split; [vm_compute; reflexivity|];
          apply (Ha sample_feed None); vm_compute; reflexivity|].
  split; [eexists; split; [vm_compute; reflexivity|];
          apply (Hd sample_dblp); vm_compute; reflexivity|].
  split; [eexists; split; [vm_compute; reflexivity|];
          apply (Hc sample_repr sample_work); vm_compute; reflexivity|].
  eexists; split; [vm_compute; reflexivity|].
  apply (Hq sample_net sample_repr (CrossrefByDoi "10.1234/test")).
  vm_compute; reflexivity.
Defined.

(** ** Author lists *)

Lemma nonempty_or_none_ok {B} (l : list B) :
  absent_or_nonempty (Py.nonempty_or_none l).
Proof. by destruct l. Qed.

Lemma rbind_returns {A B} (r : result A) (k : A -> result (option (list B))) :
  (forall a, returns_absent_or_nonempty (k a)) ->
  returns_absent_or_nonempty (rbind r k).
Proof. intros H. destruct r; [apply H|exact I]. Qed.

(** C9. The author-string parser and the DBLP and CrossRef author
    extractors never return an empty list: the list is absent or has at
    least one name; an empty (or missing) author string gives an absent
    list. *)
Theorem author_lists_never_empty :
  (forall author_string, absent_or_nonempty (_parse_authors author_string)) /\
  _parse_authors (Some EmptyString) = None /\
  _parse_authors None = None /\
  (forall info,
     returns_absent_or_nonempty (DBLPScraper._extract_authors info)) /\
  (forall repr_other work,
     returns_absent_or_nonempty
       (CrossRefScraper._extract_authors repr_other work)).
Proof.
  split.
  { intros [s|]; [|exact I]. unfold _parse_authors.
    destruct (negb (PyStr.nonempty s)); [exact I|apply nonempty_or_none_ok]. }
  split; [reflexivity|]. split; [reflexivity|].
  split.
  - intros info. unfold DBLPScraper._extract_authors.
    repeat (apply rbind_returns; intros ?). apply nonempty_or_none_ok.
  - intros repr_other work. unfold CrossRefScraper._extract_authors.
    repeat (apply rbind_returns; intros ?). apply nonempty_or_none_ok.
Qed.

(** ** The querying policy *)

Section GatherFacts.
Variable http_get : request -> result response.
Variable repr_other : json -> string.

Lemma scrape_metadata_gather title arxiv_id doi log :
  scrape_metadata http_get repr_other title arxiv_id doi log =
  gather http_get repr_other (planned_queries title arxiv_id doi) [] log.
Proof.
  unfold scrape_metadata, planned_queries.
  destruct (given arxiv_id) as [a|], (given doi) as [d|], (given title) as [t|];
    cbn [app gather run_query]; unfold bind, ret.
  all: repeat match goal with
       | |- context [ArxivScraper.search_by_arxiv_id ?g ?a ?l] =>
           destruct (ArxivScraper.search_by_arxiv_id g a l) as [? [?|?]];
           cbn beta iota; try reflexivity
       | |- context [CrossRefScraper.search_by_doi ?r ?g ?a ?l] =>
           destruct (CrossRefScraper.search_by_doi r g a l) as [? [?|?]];
           cbn beta iota; try reflexivity
       | |- context [ArxivScraper.search_by_title ?g ?a ?l] =>
           destruct (ArxivScraper.search_by_title g a l) as [? [?|?]];
           cbn beta iota; try reflexivity
       | |- context [DBLPScraper.search_by_title ?g ?a ?l] =>
           destruct (DBLPScraper.search_by_title g a l) as [? [?|?]];
           cbn beta iota; try reflexivity
       | |- context [CrossRefScraper.search_by_title ?r ?g ?a ?l] =>
           destruct (CrossRefScraper.search_by_title r g a l) as [? [?|?]];
           cbn beta iota; try reflexivity
       end.
  reflexivity.
Qed.

Lemma gather_cons q qs results log :
  gather http_get repr_other (q :: qs) results log =
  match answer http_get repr_other q with
  | Ok r =>
      gather http_get repr_other qs (append_found results r)
        (log ++ [request_of q])
  | Raise e => (log ++ [request_of q], Raise e)
  end.
Proof.
  cbn [gather]. unfold bind. rewrite run_query_log.
  by destruct (answer http_get repr_other q).
Qed.

Lemma append_found_app {A} (results : list A) (r : option A) :
  append_found results r = results ++ option_list r.
Proof. destruct r; [reflexivity|by rewrite app_nil_r]. Qed.

(** The requests sent are an initial part of the planned ones. *)
Lemma gather_prefix qs results log :
  exists k,
    (gather http_get repr_other qs results log).1 =
    log ++ map request_of (take k qs).
Proof.
  revert results log. induction qs as [|q qs IH]; intros results log.
  - exists 0. cbn. by rewrite app_nil_r.
  - rewrite gather_cons. destruct (answer http_get repr_other q) as [r|e].
    + destruct (IH (append_found results r) (log ++ [request_of q])) as [k Hk].
      exists (S k). rewrite Hk. cbn. by rewrite <- app_assoc.
    + exists 1. cbn. by rewrite take_0.
Qed.

(** When no query raises, all of them are sent and every candidate
    found is appended, in the order of the queries. *)
Lemma gather_all_return qs results log :
  Forall (returns http_get repr_other) qs ->
  gather http_get repr_other qs results log =
  (log ++ map request_of qs,
   Ok (results ++ omap (found http_get repr_other) qs)).
Proof.
  revert results log. induction qs as [|q qs IH]; intros results log Hall.
  - cbn. by rewrite !app_nil_r.
  - apply Forall_cons in Hall as [[r Hr] Hall].
    assert (Hf : found http_get repr_other q = r)
      by (unfold found; by rewrite Hr).
    rewrite gather_cons, Hr, IH by done.
    cbn [map omap list_omap]. rewrite Hf, append_found_app, <- !app_assoc.
    by destruct r.
Qed.

(** A run that returns has met no exception. *)
Lemma gather_Ok_returns qs results log rs :
  (gather http_get repr_other qs results log).2 = Ok rs ->
  Forall (returns http_get repr_other) qs.
Proof.
  revert results log. induction qs as [|q qs IH]; intros results log H.
  - constructor.
  - rewrite gather_cons in H.
    destruct (answer http_get repr_other q) as [r|e] eqn:Hr; [|discriminate].
    constructor; [by exists r|by eapply IH].
Qed.
End GatherFacts.

(** C3. Whatever the network answers, [scrape_metadata] sends its
    requests in the planned order: arXiv by identifier if an arXiv id is
    given, CrossRef by DOI if a DOI is given, then, if a title is given,
    the title searches of arXiv, DBLP and CrossRef (an argument is given
    when it passes Python's [if arg:] test, that is when it is present and
    not empty). The requests sent are always an initial part of that
    plan; when no query raises an exception every planned request is
    sent, whatever the earlier ones found, and the result is the
    candidates found, in the order of the queries; and whenever a result
    is returned, this is the case. *)
Theorem scrape_metadata_policy (http_get : request -> result response)
    (repr_other : json -> string) (title arxiv_id doi : option string) :
  let qs := planned_queries title arxiv_id doi in
  let run := scrape_metadata http_get repr_other title arxiv_id doi [] in
  run.1 `prefix_of` map request_of qs /\
  (Forall (returns http_get repr_other) qs ->
   run = (map request_of qs, Ok (omap (found http_get repr_other) qs))) /\
  (forall results,
     run.2 = Ok results ->
     run.1 = map request_of qs /\
     results = omap (found http_get repr_other) qs).
Proof.
  cbv zeta. rewrite scrape_metadata_gather.
  set (qs := planned_queries title arxiv_id doi).
  split; [|split].
  - destruct (gather_prefix http_get repr_other qs [] []) as [k ->].
    cbn [app fst]. exists (map request_of (drop k qs)).
    by rewrite <- List.map_app, take_drop.
  - intros Hall. by rewrite gather_all_return.
  - intros results Hres.
    pose proof (gather_Ok_returns _ _ _ _ _ _ Hres) as Hall.
    rewrite gather_all_return in Hres |- * by done.
    cbn in Hres |- *. by injection Hres as <-.
Qed.


Lemma scrape_metadata_policy_witness :
  scrape_metadata sample_net sample_repr
    (Some "T") (Some "2401.12345") (Some "10.1234/test") [] =
  (map request_of
     [ArxivById "2401.12345"; CrossrefByDoi "10.1234/test";
      ArxivByTitle "T"; DblpByTitle "T"; CrossrefByTitle "T"],
   Ok (omap (found sample_net sample_repr)
     [ArxivById "2401.12345"; CrossrefByDoi "10.1234/test";
      ArxivByTitle "T"; DblpByTitle "T"; CrossrefByTitle "T"])).
Proof.
  apply (proj1 (proj2 (scrape_metadata_policy sample_net sample_repr
           (Some "T") (Some "2401.12345") (Some "10.1234/test")))).
  repeat constructor; eexists; vm_compute; reflexivity.
Defined.

(** ** Dictionaries *)

Lemma assoc_app {B} k (d d' : list (string * B)) :
  Py.assoc k (d ++ d') =
  match Py.assoc k d with Some v => Some v | None => Py.assoc k d' end.
Proof.
  induction d as [|[k' v] d IH]; [reflexivity|].
  cbn. by destruct (String.eqb k k').
Qed.

Lemma assoc_None_app {B} k (d d' : list (string * B)) :
  Py.assoc k d = None -> Py.assoc k d' = None -> Py.assoc k (d ++ d') = None.
Proof. intros H H'. by rewrite assoc_app, H. Qed.

Lemma assoc_elem_of {B} k (v : B) (d : list (string * B)) :
  (k, v) ∈ d -> is_Some (Py.assoc k d).
Proof.
  induction d as [|[k' v'] d IH]; intros Hin.
  - by apply elem_of_nil in Hin.
  - cbn. destruct (String.eqb k k') eqn:Hk; [eauto|].
    apply elem_of_cons in Hin as [[= -> ->]|Hin]; [|by apply IH].
    by rewrite String.eqb_refl in Hk.
Qed.

Lemma set_fresh {B} (d : list (string * B)) k v :
  Py.assoc k d = None -> Dict.set d k v = d ++ [(k, v)].
Proof.
  induction d as [|[k' v'] d IH]; [reflexivity|].
  cbn. destruct (String.eqb k k'); [discriminate|].
  intros H. by rewrite IH.
Qed.

Lemma set_if_truthy_fresh d k o :
  Py.assoc k d = None -> Dict.set_if_truthy d k o = d ++ opt_item k o.
Proof.
  intros H. unfold Dict.set_if_truthy, opt_item.
  destruct o as [v|]; [|by rewrite app_nil_r].
  destruct (PyStr.nonempty v); [by apply set_fresh|by rewrite app_nil_r].
Qed.

Lemma assoc_opt_item k k' o :
  Py.assoc k (opt_item k' o) = if String.eqb k k' then keep o else None.
Proof.
  unfold opt_item, keep, Py.truthy_str. destruct o as [v|]; cbn.
  - destruct (PyStr.nonempty v); cbn; by destruct (String.eqb k k').
  - by destruct (String.eqb k k').
Qed.

Lemma assoc_author_item k r :
  String.eqb k "author" = false -> Py.assoc k (author_item r) = None.
Proof.
  intros H. unfold author_item. destruct (authors r) as [[|a l]|]; cbn; by rewrite ?H.
Qed.

Lemma contains_false {B} k (d : list (string * B)) :
  Dict.contains k d = false <-> Py.assoc k d = None.
Proof. unfold Dict.contains. destruct (Py.assoc k d); split; congruence. Qed.

Lemma update_fresh {B} (raw d : list (string * B)) :
  Dict.distinct_keys raw = true ->
  (forall k v, (k, v) ∈ raw -> Py.assoc k d = None) ->
  Dict.update d raw = d ++ raw.
Proof.
  unfold Dict.update. revert d. induction raw as [|[k v] raw IH]; intros d Hd Hfresh.
  - cbn. by rewrite app_nil_r.
  - cbn in Hd. apply andb_true_iff in Hd as [Hk Hd].
    apply negb_true_iff, contains_false in Hk.
    cbn [fold_left fst snd]. rewrite set_fresh by (eapply Hfresh; by left).
    rewrite IH; [by rewrite <- app_assoc|done|].
    intros k' v' Hin. apply assoc_None_app; [eapply Hfresh; by right|].
    cbn. destruct (String.eqb k' k) eqn:Hkk; [|done].
    apply String.eqb_eq in Hkk as ->.
    apply assoc_elem_of in Hin as [? Hin]. congruence.
Qed.

(** A name outside the modelled ones differs from each of them. *)
Lemma unmodelled k :
  modelled k = false ->
  Forall (fun k' => String.eqb k k' = false) modelled_keys.
Proof.
  unfold modelled. intros H. apply Forall_forall. intros k' Hk'.
  destruct (String.eqb k k') eqn:E; [|done].
  rewrite <- H. symmetry. apply existsb_exists. exists k'.
  split; [by apply list_elem_of_In|done].
Qed.

Ltac unmodelled_eqs H :=
  apply unmodelled in H; unfold modelled_keys in H;
  repeat (apply Forall_cons in H as [? H]).

Lemma assoc_known_unmodelled r k :
  modelled k = false -> Py.assoc k (known_items r) = None.
Proof.
  intros H. unmodelled_eqs H. unfold known_items, head_items.
  repeat (apply assoc_None_app);
    rewrite ?assoc_opt_item, ?assoc_author_item by done; cbn;
    repeat match goal with E : String.eqb k _ = false |- _ => rewrite E; clear E end;
    reflexivity.
Qed.

Lemma raw_ok_unmodelled raw k v :
  raw_ok raw = true -> (k, v) ∈ raw -> modelled k = false.
Proof.
  unfold raw_ok. rewrite andb_true_iff, forallb_forall. intros [_ H] Hin.
  apply list_elem_of_In in Hin. apply H in Hin. by apply negb_true_iff in Hin.
Qed.

(** ** The field order of the written mapping *)

Lemma bib_entry_to_dict_layout r :
  raw_ok (raw_fields r) = true ->
  _bib_entry_to_dict r = known_items r ++ raw_fields r.
Proof.
  intros Hraw. unfold _bib_entry_to_dict. cbv zeta.
  change [("ENTRYTYPE", entry_type r); ("ID", cite_key r); ("title", title r)]
    with (head_items r).
  match goal with
  | |- context [Dict.set_if_truthy ?d "year" _] =>
      replace d with (head_items r ++ author_item r)
        by (unfold author_item; destruct (authors r) as [[|? ?]|]; reflexivity)
  end.
  repeat (rewrite (set_if_truthy_fresh (_ ++ _));
    [|repeat (apply assoc_None_app);
      rewrite ?assoc_opt_item, ?assoc_author_item by done; reflexivity]).
  rewrite update_fresh.
  - unfold known_items. by rewrite <- !app_assoc.
  - unfold raw_ok in Hraw. by apply andb_true_iff in Hraw as [? _].
  - intros k v Hin. rewrite <- !app_assoc. fold (known_items r).
    apply assoc_known_unmodelled. by eapply raw_ok_unmodelled.
Qed.

(** ** Reading stored text *)

Lemma append_cons c (a b : string) : String c a +:+ b = String c (a +:+ b).
Proof. reflexivity. Qed.

Lemma append_nil_r (a : string) : a +:+ "" = a.
Proof. induction a as [|c a IH]; [reflexivity|]. by rewrite append_cons, IH. Qed.

Lemma append_assoc (a b c : string) : (a +:+ b) +:+ c = a +:+ (b +:+ c).
Proof.
  induction a as [|x a IH]; [reflexivity|]. by rewrite !append_cons, IH.
Qed.

Lemma chars_go_0 s : PyStr.chars_go 0 s = (EmptyString, PyStr.chars s).
Proof.
  unfold PyStr.chars. destruct s as [|b s]; [reflexivity|].
  cbn. by destruct (PyStr.chars_go _ s).
Qed.

Lemma chars_go_owed x rest :
  PyStr.chars_go (String.length x) (x +:+ rest) = (x, PyStr.chars rest).
Proof.
  induction x as [|b x IH]; [apply chars_go_0|].
  rewrite append_cons. cbn. by rewrite IH.
Qed.

Lemma chars_go_short k x :
  String.length x <= k -> PyStr.chars_go k x = (x, []).
Proof.
  revert k. induction x as [|b x IH]; intros k Hk; [reflexivity|].
  cbn in Hk. destruct k as [|k]; [lia|]. cbn. rewrite IH by lia. reflexivity.
Qed.

Lemma chars_complete c rest :
  complete c -> PyStr.chars (c +:+ rest) = c :: PyStr.chars rest.
Proof.
  destruct c as [|b x]; [done|]. cbn [complete]. intros Hx.
  rewrite append_cons. unfold PyStr.chars at 1. cbn [PyStr.chars_go].
  by rewrite <- Hx, chars_go_owed.
Qed.

Lemma chars_partial c : partial c -> PyStr.chars c = [c].
Proof.
  destruct c as [|b x]; [done|]. cbn [partial]. intros Hx.
  unfold PyStr.chars. cbn [PyStr.chars_go]. by rewrite chars_go_short.
Qed.

Lemma complete_partial c : complete c -> partial c.
Proof. destruct c; cbn; [done|lia]. Qed.

Lemma split_bytes k s :
  k <= String.length s ->
  exists x rest, s = x +:+ rest /\ String.length x = k.
Proof.
  revert s. induction k as [|k IH]; intros s Hk.
  - by exists EmptyString, s.
  - destruct s as [|b s]; cbn in Hk; [lia|].
    destruct (IH s ltac:(lia)) as (x & rest & -> & Hx).
    exists (String b x), rest. cbn. by rewrite Hx.
Qed.

Lemma length_append (a b : string) :
  String.length (a +:+ b) = String.length a + String.length b.
Proof.
  induction a as [|c a IH]; [reflexivity|].
  rewrite append_cons. cbn. by rewrite IH.
Qed.

(** The text is cut into code points: a first one, then the code points
    of the rest. *)
Lemma chars_unfold b s :
  (exists x rest, s = x +:+ rest /\ complete (String b x) /\
     PyStr.chars (String b s) = String b x :: PyStr.chars rest) \/
  (partial (String b s) /\ PyStr.chars (String b s) = [String b s]).
Proof.
  destruct (le_lt_dec (PyStr.width b - 1) (String.length s)) as [Hle|Hlt].
  - left. destruct (split_bytes _ _ Hle) as (x & rest & -> & Hx).
    exists x, rest. split; [done|]. split; [exact Hx|].
    by rewrite <- append_cons, chars_complete.
  - right. assert (Hp : partial (String b s)) by (cbn; lia).
    split; [exact Hp|]. by apply chars_partial.
Qed.

Lemma chars_ind (P : string -> list string -> Prop) :
  P EmptyString [] ->
  (forall c rest, complete c -> P rest (PyStr.chars rest) ->
     P (c +:+ rest) (c :: PyStr.chars rest)) ->
  (forall c, partial c -> P c [c]) ->
  forall s, P s (PyStr.chars s).
Proof.
  intros Hnil Hcons Hlast s.
  induction s as [s IH] using (induction_ltof1 _ String.length).
  unfold ltof in IH. destruct s as [|b s]; [exact Hnil|].
  destruct (chars_unfold b s) as [(x & rest & -> & Hc & ->)|[Hp ->]].
  - rewrite <- append_cons. apply Hcons; [done|].
    apply IH. cbn. rewrite length_append. lia.
  - by apply Hlast.
Qed.

Lemma chars_chunks s : chunks (PyStr.chars s).
Proof.
  apply (chars_ind (fun _ l => chunks l)); [done| |done].
  intros c rest Hc IH. cbn. destruct (PyStr.chars rest); [|done].
  by apply complete_partial.
Qed.

Lemma cat_chars s : PyStr.cat (PyStr.chars s) = s.
Proof.
  apply (chars_ind (fun s l => PyStr.cat l = s)); [done| |].
  - intros c rest _ IH. cbn. by rewrite IH.
  - intros c _. cbn. apply append_nil_r.
Qed.

Lemma chunks_cons c l : chunks (c :: l) -> partial c /\ chunks l.
Proof.
  cbn. destruct l; [done|]. intros [Hc ?]. split; [|done].
  by apply complete_partial.
Qed.

Lemma chunks_app l1 l2 : chunks (l1 ++ l2) -> chunks l1 /\ chunks l2.
Proof.
  induction l1 as [|c l1 IH]; [done|]. intros H.
  destruct (chunks_cons _ _ H) as [Hp Hrest].
  destruct (IH Hrest) as [H1 H2]. split; [|done].
  cbn. destruct l1 as [|c' l1]; [done|]. split; [|done].
  cbn in H. by destruct H.
Qed.

Lemma chars_cat l : chunks l -> PyStr.chars (PyStr.cat l) = l.
Proof.
  induction l as [|c l IH]; [done|]. intros H. cbn [PyStr.cat].
  destruct l as [|c' l].
  - cbn. rewrite append_nil_r. by apply chars_partial.
  - destruct H as [Hc Hl]. rewrite chars_complete by done. by rewrite IH.
Qed.

Lemma drop_spaces_suffix l :
  exists l1, l = l1 ++ PyStr.drop_spaces l /\ forallb PyStr.isspace l1 = true.
Proof.
  induction l as [|c l (l1 & IH & Hl1)]; [by exists []|].
  cbn. destruct (PyStr.isspace c) eqn:E.
  - exists (c :: l1). cbn. rewrite E. split; [by f_equal|done].
  - by exists [].
Qed.

Lemma drop_spaces_head l c :
  head (PyStr.drop_spaces l) = Some c -> PyStr.isspace c = false.
Proof.
  induction l as [|c' l IH]; [done|].
  cbn. destruct (PyStr.isspace c') eqn:E; [exact IH|].
  cbn. by intros [= <-].
Qed.


Lemma forallb_rev {A} (f : A -> bool) l : forallb f (rev l) = forallb f l.
Proof.
  induction l as [|x l IH]; [done|].
  cbn. rewrite forallb_app, IH. cbn. rewrite andb_true_r. apply andb_comm.
Qed.

(** What stripping leaves is a stretch of the code points, between
    white space. *)
Lemma strip_chars_infix l :
  exists l1 l3,
    l = l1 ++ PyStr.strip_chars l ++ l3 /\
    forallb PyStr.isspace l1 = true /\ forallb PyStr.isspace l3 = true.
Proof.
  unfold PyStr.strip_chars.
  destruct (drop_spaces_suffix l) as (l1 & Hl & H1).
  destruct (drop_spaces_suffix (rev (PyStr.drop_spaces l))) as (l3 & Hr & H3).
  exists l1, (rev l3). split; [|split; [done|by rewrite forallb_rev]].
  rewrite Hl at 1. f_equal.
  rewrite <- (rev_involutive (PyStr.drop_spaces l)), Hr at 1.
  by rewrite rev_app_distr.
Qed.

Lemma last_rev {A} (l : list A) : last (rev l) = head l.
Proof. destruct l as [|x l]; [done|]. cbn. by rewrite last_snoc. Qed.

Lemma strip_chars_first l c :
  head (PyStr.strip_chars l) = Some c -> PyStr.isspace c = false.
Proof.
  unfold PyStr.strip_chars. intros H.
  destruct (drop_spaces_suffix (rev (PyStr.drop_spaces l))) as (l3 & Hr & _).
  apply (f_equal (@rev _)) in Hr.
  rewrite rev_involutive, rev_app_distr in Hr.
  apply (drop_spaces_head l). rewrite Hr.
  destruct (rev (PyStr.drop_spaces (rev (PyStr.drop_spaces l)))); [done|].
  exact H.
Qed.

Lemma strip_chars_last l c :
  last (PyStr.strip_chars l) = Some c -> PyStr.isspace c = false.
Proof.
  unfold PyStr.strip_chars. rewrite last_rev. apply drop_spaces_head.
Qed.


Lemma strip_chars_chunks l : chunks l -> chunks (PyStr.strip_chars l).
Proof.
  intros H. destruct (strip_chars_infix l) as (l1 & l3 & Hl & _).
  rewrite Hl in H. apply chunks_app in H as [_ H].
  by apply chunks_app in H as [H _].
Qed.

(** The code points of [s.strip()] *)
Lemma chars_strip s :
  PyStr.chars (PyStr.strip s) = PyStr.strip_chars (PyStr.chars s).
Proof. apply chars_cat, strip_chars_chunks, chars_chunks. Qed.

Lemma cat_nonempty l :
  chunks l ->
  PyStr.nonempty (PyStr.cat l) = match l with [] => false | _ => true end.
Proof.
  destruct l as [|c l]; [done|]. intros H.
  apply chunks_cons in H as [Hp _]. by destruct c.
Qed.


Lemma strip_trimmed s : trimmed (PyStr.strip s).
Proof.
  unfold trimmed, first_char, last_char. rewrite chars_strip.
  split; intros c; [apply strip_chars_first|apply strip_chars_last].
Qed.

Lemma drop_spaces_id l :
  (forall c, head l = Some c -> PyStr.isspace c = false) ->
  PyStr.drop_spaces l = l.
Proof.
  destruct l as [|c l]; [done|]. intros H. cbn. by rewrite (H c).
Qed.

(** Stripping changes exactly the texts that have white space at an
    end. *)
Lemma strip_id s : PyStr.strip s = s <-> trimmed s.
Proof.
  split.
  - intros <-. apply strip_trimmed.
  - intros [Hfirst Hlast]. unfold PyStr.strip, PyStr.strip_chars.
    rewrite (drop_spaces_id (PyStr.chars s)) by exact Hfirst.
    rewrite drop_spaces_id, rev_involutive; [apply cat_chars|].
    intros c Hc. apply Hlast. unfold last_char.
    by rewrite <- (rev_involutive (PyStr.chars s)), last_rev.
Qed.

Lemma chars_take n s :
  PyStr.chars (PyStr.take n s) = firstn n (PyStr.chars s).
Proof.
  apply chars_cat. pose proof (chars_chunks s) as H.
  rewrite <- (firstn_skipn n (PyStr.chars s)) in H.
  by apply chunks_app in H as [H _].
Qed.

Lemma take_length n s : PyStr.len (PyStr.take n s) <= n.
Proof. unfold PyStr.len. rewrite chars_take. apply firstn_le_length. Qed.



(** ** The arXiv identifier of a stored entry *)

Lemma extract_arxiv_id_spec entry :
  _extract_arxiv_id entry =
  match Py.assoc "eprint" entry with
  | Some v => Some v
  | None => Py.assoc "arxiv" entry
  end.
Proof.
  unfold _extract_arxiv_id, Dict.contains.
  destruct (Py.assoc "eprint" entry); [reflexivity|].
  by destruct (Py.assoc "arxiv" entry).
Qed.

Lemma filter_none {A} (f : A -> bool) (l : list A) :
  (forall x, x ∈ l -> f x = false) -> List.filter f l = [].
Proof.
  induction l as [|x l IH]; intros H; [reflexivity|].
  cbn. rewrite (H x) by (by left). apply IH. intros y Hy. apply H. by right.
Qed.

Lemma assoc_keys {B} k (d : list (string * B)) :
  is_Some (Py.assoc k d) -> k ∈ map fst d.
Proof.
  induction d as [|[k' v] d IH]; cbn; [by intros [? ?]|].
  destruct (String.eqb k k') eqn:E.
  - apply String.eqb_eq in E as ->. intros _. by left.
  - intros H. right. by apply IH.
Qed.

(** C7. The arXiv identifier of a parsed entry is the value of [eprint]
    when the entry has that field, and otherwise the value of [arxiv] if
    it has that one; so at most one of the two is used. Neither name is a
    key of the raw fields. When the reader finds in the scenario's text
    one entry with the fields it spells out, in whatever order,
    [parse_bib_string] returns one record, with arXiv identifier
    2401.00001 and no raw fields. *)
Theorem arxiv_id_from_eprint_or_arxiv :
  (forall entry,
     arxiv_id (_dict_to_bib_entry entry) =
     match Py.assoc "eprint" entry with
     | Some v => Some v
     | None => Py.assoc "arxiv" entry
     end) /\
  (forall entry k v,
     (k, v) ∈ raw_fields (_dict_to_bib_entry entry) ->
     k <> "eprint" /\ k <> "arxiv") /\
  (forall loads entry,
     same_fields entry scenario_fields ->
     loads scenario_text = Ok [entry] ->
     parse_bib_string loads scenario_text = Ok [scenario_record]).
Proof.
  split; [exact extract_arxiv_id_spec|]. split.
  - intros entry k v Hin. cbn [_dict_to_bib_entry raw_fields] in Hin.
    apply list_elem_of_In, filter_In in Hin as [_ Hk].
    cbn [fst] in Hk. apply negb_true_iff in Hk.
    split; intros ->; discriminate.
  - intros loads entry Hsame Hloads. unfold parse_bib_string.
    rewrite Hloads. cbn [rbind map]. 
    replace (negb (PyStr.nonempty (PyStr.strip scenario_text))) with false
      by (vm_compute; reflexivity).
    do 2 f_equal. unfold _dict_to_bib_entry.
    rewrite extract_arxiv_id_spec, !Hsame.
    rewrite filter_none; [reflexivity|].
    intros [k v] Hin. cbn [fst]. apply negb_false_iff.
    apply assoc_elem_of in Hin. rewrite Hsame in Hin.
    apply assoc_keys in Hin. cbn in Hin.
    repeat (apply elem_of_cons in Hin as [->|Hin]; [reflexivity|]).
    by apply elem_of_nil in Hin.
Qed.

Lemma arxiv_id_from_eprint_or_arxiv_witness :
  parse_bib_string scenario_loads scenario_text = Ok [scenario_record].
Proof.
  apply (proj2 (proj2 arxiv_id_from_eprint_or_arxiv) scenario_loads
           [("title", "X"); ("eprint", "2401.00001"); ("ENTRYTYPE", "misc");
            ("ID", "a")]); [|reflexivity].
  intros k. cbn.
  repeat match goal with
         | |- context [String.eqb k ?s] =>
             destruct (String.eqb_spec k s) as [->|?]; cbn; try reflexivity
         end.
Defined.

(** ** Splitting the joined author string *)

Lemma prefix_append s t : String.prefix s (s +:+ t) = true.
Proof.
  induction s as [|c s IH]; [by destruct t|].
  rewrite append_cons. cbn. by destruct (ascii_dec c c).
Qed.

Lemma prefix_append_l s a t :
  String.prefix s a = true -> String.prefix s (a +:+ t) = true.
Proof.
  revert a. induction s as [|c s IH]; intros a; [by destruct a, t|].
  destruct a as [|c' a]; [discriminate|].
  rewrite append_cons. cbn.
  destruct (ascii_dec c c'); [apply IH|discriminate].
Qed.

(** Whether [s] is a prefix is decided by the first [length s]
    characters. *)
Lemma prefix_append_long s a t :
  String.length s <= String.length a ->
  String.prefix s (a +:+ t) = String.prefix s a.
Proof.
  revert a. induction s as [|c s IH]; intros a Hlen.
  - by destruct a, t.
  - destruct a as [|c' a]; cbn in Hlen; [lia|].
    rewrite append_cons. cbn.
    destruct (ascii_dec c c'); [apply IH; lia|reflexivity].
Qed.

Lemma split_go_skip sep x rest :
  PyStr.split_go sep (String.length x) (x +:+ rest) = PyStr.split_go sep 0 rest.
Proof.
  induction x as [|c x IH]; [reflexivity|].
  rewrite append_cons. exact IH.
Qed.

Section Split.
Variable c0 : ascii.
Variable sep' : string.
Let sep := String c0 sep'.

(** Inside a name that is free of the separator, no separator starts,
    whatever follows the separator after the name. *)
Lemma sep_free_no_prefix c a rest :
  sep_free sep (String c a) = true ->
  String.prefix sep (String c a +:+ sep +:+ rest) = false.
Proof.
  cbn [sep_free]. intros H. apply andb_true_iff in H as [H _].
  apply negb_true_iff in H.
  rewrite <- append_assoc, prefix_append_long; [exact H|].
  rewrite length_append. cbn. lia.
Qed.

Lemma split_go_name a rest :
  sep_free sep a = true ->
  PyStr.split_go sep 0 (a +:+ sep +:+ rest) =
  (a, (PyStr.split_go sep 0 rest).1 :: (PyStr.split_go sep 0 rest).2).
Proof.
  induction a as [|c a IH]; intros Hfree.
  - change (EmptyString +:+ sep +:+ rest) with (String c0 (sep' +:+ rest)).
    cbn [PyStr.split_go].
    change (String c0 (sep' +:+ rest)) with (sep +:+ rest).
    rewrite prefix_append.
    replace (String.length sep - 1) with (String.length sep')
      by (unfold sep; cbn; lia).
    rewrite split_go_skip. by destruct (PyStr.split_go sep 0 rest).
  - pose proof (sep_free_no_prefix _ _ rest Hfree) as Hno.
    cbn [sep_free] in Hfree. apply andb_true_iff in Hfree as [_ Hfree].
    change (String c a +:+ sep +:+ rest) with (String c (a +:+ sep +:+ rest)) in *.
    cbn [PyStr.split_go]. rewrite Hno, IH by done. reflexivity.
Qed.

Lemma split_go_last a :
  sep_free sep a = true -> PyStr.split_go sep 0 a = (a, []).
Proof.
  induction a as [|c a IH]; intros Hfree; [reflexivity|].
  cbn [sep_free] in Hfree. apply andb_true_iff in Hfree as [Hno Hfree].
  apply negb_true_iff in Hno.
  cbn [PyStr.split_go].
  destruct (String.prefix sep (String c a)) eqn:Hp.
  - apply (prefix_append_l _ _ sep) in Hp. congruence.
  - by rewrite IH.
Qed.

(** Splitting a joined list of separator-free names gives the names. *)
Lemma split_join a l :
  forallb (sep_free sep) (a :: l) = true ->
  PyStr.split sep (PyStr.join sep (a :: l)) = a :: l.
Proof.
  unfold PyStr.split, PyStr.join. revert a.
  induction l as [|b l IH]; intros a Hfree;
    cbn [forallb] in Hfree; apply andb_true_iff in Hfree as [Ha Hl].
  - cbn [String.concat]. by rewrite split_go_last.
  - change (String.concat sep (a :: b :: l))
      with (a +:+ sep +:+ String.concat sep (b :: l)).
    rewrite split_go_name by done.
    specialize (IH b Hl).
    destruct (PyStr.split_go sep 0 (String.concat sep (b :: l))) as [p ps].
    cbn [fst snd]. by rewrite IH.
Qed.
End Split.

Lemma parse_authors_join a l :
  forallb author_ok (a :: l) = true ->
  _parse_authors (Some (PyStr.join " and " (a :: l))) = Some (a :: l).
Proof.
  intros Hok.
  assert (Hall : forall x, x ∈ a :: l ->
            PyStr.nonempty x = true /\ PyStr.strip x = x /\
            sep_free " and " x = true).
  { intros x Hx. rewrite forallb_forall in Hok.
    apply list_elem_of_In, Hok in Hx. unfold author_ok in Hx.
    apply andb_true_iff in Hx as [Hx ?]. apply andb_true_iff in Hx as [? Hx].
    by apply String.eqb_eq in Hx. }
  unfold _parse_authors.
  assert (Hne : PyStr.nonempty (PyStr.join " and " (a :: l)) = true).
  { destruct (Hall a ltac:(by left)) as [Ha _].
    destruct a; [discriminate|]. unfold PyStr.join. cbn [String.concat].
    by destruct l. }
  rewrite Hne. cbn [negb].
  rewrite (split_join " " "and ").
  - assert (Hmap : map PyStr.strip (a :: l) = a :: l).
    { clear Hne Hok. induction (a :: l) as [|x xs IH]; [reflexivity|].
      cbn [map]. rewrite (proj1 (proj2 (Hall x ltac:(by left)))).
      f_equal. apply IH. intros y Hy. apply Hall. by right. }
    by rewrite Hmap.
  - apply forallb_forall. intros x Hx. apply list_elem_of_In in Hx.
    by apply Hall.
Qed.

(** ** Reading back what was written *)



Ltac known_lookup :=
  unfold known_items, head_items;
  repeat first
    [ rewrite assoc_app
    | rewrite assoc_opt_item
    | rewrite assoc_author_item by reflexivity ];
  cbn;
  repeat match goal with
         | |- context [keep ?o] => destruct (keep o)
         end;
  reflexivity.

Lemma known_ENTRYTYPE r : Py.assoc "ENTRYTYPE" (known_items r) = Some (entry_type r).
Proof. known_lookup. Qed.
Lemma known_ID r : Py.assoc "ID" (known_items r) = Some (cite_key r).
Proof. known_lookup. Qed.
Lemma known_title r : Py.assoc "title" (known_items r) = Some (title r).
Proof. known_lookup. Qed.
Lemma known_year r : Py.assoc "year" (known_items r) = keep (year r).
Proof. known_lookup. Qed.
Lemma known_doi r : Py.assoc "doi" (known_items r) = keep (doi r).
Proof. known_lookup. Qed.
Lemma known_eprint r : Py.assoc "eprint" (known_items r) = keep (arxiv_id r).
Proof. known_lookup. Qed.
Lemma known_arxiv r : Py.assoc "arxiv" (known_items r) = None.
Proof. known_lookup. Qed.
Lemma known_url r : Py.assoc "url" (known_items r) = keep (url r).
Proof. known_lookup. Qed.
Lemma known_abstract r : Py.assoc "abstract" (known_items r) = keep (abstract r).
Proof. known_lookup. Qed.
Lemma known_booktitle r : Py.assoc "booktitle" (known_items r) = keep (booktitle r).
Proof. known_lookup. Qed.
Lemma known_journal r : Py.assoc "journal" (known_items r) = keep (journal r).
Proof. known_lookup. Qed.
Lemma known_volume r : Py.assoc "volume" (known_items r) = keep (volume r).
Proof. known_lookup. Qed.
Lemma known_pages r : Py.assoc "pages" (known_items r) = keep (pages r).
Proof. known_lookup. Qed.
Lemma known_publisher r : Py.assoc "publisher" (known_items r) = keep (publisher r).
Proof. known_lookup. Qed.

Lemma known_author r :
  Py.assoc "author" (known_items r) =
  match authors r with
  | Some (a :: l) => Some (PyStr.join " and " (a :: l))
  | _ => None
  end.
Proof.
  unfold known_items, head_items. rewrite assoc_app. cbn.
  rewrite assoc_app. unfold author_item.
  destruct (authors r) as [[|a l]|]; cbn; try reflexivity;
    repeat first [rewrite assoc_app | rewrite assoc_opt_item]; reflexivity.
Qed.

Create Rewrite HintDb known_fields.
#[local] Hint Rewrite known_ENTRYTYPE known_ID known_title known_year known_doi
  known_eprint known_arxiv known_url known_abstract known_booktitle
  known_journal known_volume known_pages known_publisher known_author
  : known_fields.

Lemma assoc_filter_key (g : string -> bool) k (d : pydict) :
  Py.assoc k (List.filter (fun kv => g (fst kv)) d) =
  if g k then Py.assoc k d else None.
Proof.
  induction d as [|[k' v] d IH]; cbn; [by destruct (g k)|].
  destruct (String.eqb_spec k k') as [->|Hne].
  - destruct (g k'); cbn; [by rewrite String.eqb_refl|].
    rewrite IH. by destruct (g k').
  - destruct (g k'); cbn; [|exact IH].
    apply String.eqb_neq in Hne. by rewrite Hne.
Qed.






(** ** The typed reading of the functions *)

Lemma strs_strings l : Dyn.strs (map JStr l) = Ok l.
Proof. induction l as [|a l IH]; [done|]. cbn. by rewrite IH. Qed.

Lemma item_map_set {V W} (f : V -> W) (d : list (string * V)) k v :
  item_map f (Dict.set d k v) = Dict.set (item_map f d) k (f v).
Proof.
  induction d as [|[k' v'] d IH]; [reflexivity|].
  cbn. destruct (String.eqb k k'); cbn; [reflexivity|]. by f_equal.
Qed.

Lemma item_map_update {V W} (f : V -> W) (other d : list (string * V)) :
  item_map f (Dict.update d other) = Dict.update (item_map f d) (item_map f other).
Proof.
  unfold Dict.update. revert d.
  induction other as [|[k v] other IH]; intros d; [reflexivity|].
  cbn [fold_left fst snd]. rewrite IH, item_map_set. reflexivity.
Qed.

Lemma dyn_set_if_truthy (d : pydict) k o :
  Dyn.set_if_truthy (item_map JStr d) k (JStr <$> o)
  = item_map JStr (Dict.set_if_truthy d k o).
Proof.
  destruct o as [v|]; [|reflexivity].
  unfold Dyn.set_if_truthy, Dict.set_if_truthy.
  cbn [fmap option_fmap option_map Py.truthy].
  destruct (PyStr.nonempty v); [|reflexivity]. symmetry. apply item_map_set.
Qed.

(** On a record whose fields are strings, the mapping is built without
    error and is the mapping of the typed reading. *)
Lemma dyn_bib_entry_to_dict (r : BibEntry) :
  Dyn._bib_entry_to_dict (be_map JStr r)
  = Ok (item_map JStr (_bib_entry_to_dict r)).
Proof.
  unfold Dyn._bib_entry_to_dict, _bib_entry_to_dict, be_map. cbv zeta.
  cbn [entry_type cite_key title authors year venue doi arxiv_id url abstract
       booktitle journal volume pages publisher raw_fields].
  set (head := [("ENTRYTYPE", JStr (entry_type r)); ("ID", JStr (cite_key r));
                ("title", JStr (title r))]).
  change head with
    (item_map JStr [("ENTRYTYPE", entry_type r); ("ID", cite_key r);
                    ("title", title r)]).
  clear head.
  destruct (authors r) as [[|a l]|]; cbn [fmap option_fmap option_map map rbind];
    try (rewrite !dyn_set_if_truthy, <- item_map_update; reflexivity).
  change (JStr a :: map JStr l) with (map JStr (a :: l)).
  rewrite strs_strings. cbn [rbind].
  rewrite <- (item_map_set JStr).
  by rewrite !dyn_set_if_truthy, <- item_map_update.
Qed.

Lemma dyn_or_val (a b : option string) :
  Dyn.or_val (JStr <$> a) (JStr <$> b) = JStr <$> or_str a b.
Proof. destruct a as [v|]; cbn; [|done]. unfold Dyn.or_val, or_str. cbn. by destruct (PyStr.nonempty v). Qed.

Lemma dyn_or_list (a b : option (list string)) :
  Dyn.or_list (map JStr <$> a) (map JStr <$> b) = map JStr <$> or_list a b.
Proof. by destruct a as [[|? ?]|]. Qed.

(** On a record and a candidate whose fields are strings, merging is the
    merge of the typed reading. *)
Lemma dyn_merge_metadata (entry : BibEntry) (result : MetadataResult) :
  Dyn._merge_metadata (be_map JStr entry) (mr_map JStr result)
  = be_map JStr (_merge_metadata entry result).
Proof.
  unfold Dyn._merge_metadata, _merge_metadata, be_map, mr_map.
  cbn [entry_type cite_key title authors year venue doi arxiv_id url abstract
       booktitle journal volume pages publisher raw_fields
       mr_title mr_authors mr_year mr_venue mr_doi mr_arxiv_id mr_booktitle
       mr_journal mr_volume mr_pages mr_publisher Py.truthy].
  rewrite !dyn_or_val, dyn_or_list.
  by destruct (PyStr.nonempty (mr_title result)).
Qed.



(** ** The round trip through the stored format *)


Section Pieces.
Variable c0 : ascii.
Variable sep' : string.
Let sep := String c0 sep'.

Lemma occurs_app_r a b : occurs sep b = true -> occurs sep (a +:+ b) = true.
Proof.
  intros H. induction a as [|c a IH]; [exact H|].
  rewrite append_cons. cbn [occurs]. rewrite IH. apply orb_true_r.
Qed.

Lemma occurs_app_l a b : occurs sep a = true -> occurs sep (a +:+ b) = true.
Proof.
  induction a as [|c a IH]; [discriminate|].
  rewrite append_cons. cbn [occurs]. intros H.
  apply orb_true_iff in H as [H|H].
  - change (String c (a +:+ b)) with (String c a +:+ b).
    by rewrite (prefix_append_l sep (String c a) b H).
  - rewrite IH by done. apply orb_true_r.
Qed.

(** The piece under construction starts the text that is left once the
    rest of a separator has been passed over, and no piece contains the
    separator. *)
Lemma split_go_pieces skip s :
  (exists x rest,
     s = x +:+ (PyStr.split_go sep skip s).1 +:+ rest /\
     String.length x <= skip) /\
  Forall (fun p => occurs sep p = false)
    ((PyStr.split_go sep skip s).1 :: (PyStr.split_go sep skip s).2).
Proof.
  revert skip. induction s as [|c s IH]; intros skip.
  - cbn [PyStr.split_go fst snd].
    split; [exists EmptyString, EmptyString; split; [reflexivity|cbn; lia]|].
    constructor; [reflexivity|constructor].
  - cbn [PyStr.split_go]. destruct skip as [|k].
    + destruct (String.prefix sep (String c s)) eqn:Hp.
      * destruct (IH (String.length sep - 1)) as [_ Hall].
        destruct (PyStr.split_go sep (String.length sep - 1) s) as [p ps].
        split; [by exists EmptyString, (String c s)|].
        constructor; [reflexivity|exact Hall].
      * destruct (IH 0) as [(x & rest & Hs & Hx) Hall].
        destruct (PyStr.split_go sep 0 s) as [p ps]. cbn [fst snd] in *.
        destruct x; [|cbn in Hx; lia]. change (s = p +:+ rest) in Hs.
        split.
        { exists EmptyString, rest. split; [|cbn; lia].
          change (String c s = String c (p +:+ rest)). by rewrite <- Hs. }
        apply Forall_cons in Hall as [Hp' Hps]. constructor; [|exact Hps].
        cbn [occurs]. rewrite Hp'. rewrite orb_false_r.
        destruct (String.prefix sep (String c p)) eqn:Hcp; [|reflexivity].
        apply (prefix_append_l _ _ rest) in Hcp.
        rewrite append_cons, <- Hs in Hcp. congruence.
    + destruct (IH k) as [(x & rest & Hs & Hx) Hall]. split; [|exact Hall].
      exists (String c x), rest. rewrite append_cons, <- Hs.
      split; [reflexivity|cbn; lia].
Qed.

Lemma split_pieces s :
  Forall (fun p => occurs sep p = false) (PyStr.split sep s).
Proof.
  unfold PyStr.split. destruct (split_go_pieces 0 s) as [_ H].
  by destruct (PyStr.split_go sep 0 s).
Qed.
End Pieces.

Lemma cat_app l1 l2 : PyStr.cat (l1 ++ l2) = PyStr.cat l1 +:+ PyStr.cat l2.
Proof.
  induction l1 as [|c l1 IH]; [reflexivity|].
  cbn. by rewrite IH, append_assoc.
Qed.

(** What stripping leaves is a stretch of the text. *)
Lemma strip_infix s :
  exists a b, s = a +:+ PyStr.strip s +:+ b.
Proof.
  destruct (strip_chars_infix (PyStr.chars s)) as (l1 & l3 & Hl & _).
  exists (PyStr.cat l1), (PyStr.cat l3).
  rewrite <- (cat_chars s) at 1. by rewrite Hl, !cat_app.
Qed.

(** Every name [_parse_authors] returns has been stripped and is free
    of the delimiter. *)
Lemma parse_authors_names author_string names :
  _parse_authors author_string = Some names ->
  Forall (fun name => trimmed name /\ occurs " and " name = false) names.
Proof.
  destruct author_string as [s|]; [|discriminate].
  unfold _parse_authors. destruct (negb (PyStr.nonempty s)); [discriminate|].
  intros H.
  assert (Hnames : names = map PyStr.strip (PyStr.split " and " s)).
  { destruct (map PyStr.strip (PyStr.split " and " s)); [discriminate|].
    by injection H. }
  rewrite Hnames. apply Forall_forall. intros x Hx.
  apply list_elem_of_In, in_map_iff in Hx as (y & <- & Hy).
  split; [apply strip_trimmed|].
  pose proof (split_pieces " " "and " s) as Hall.
  rewrite Forall_forall in Hall. apply list_elem_of_In, Hall in Hy.
  destruct (strip_infix y) as (a & b & Hab).
  destruct (occurs " and " (PyStr.strip y)) eqn:Ho; [|reflexivity].
  rewrite <- Hy, Hab. symmetry.
  apply (occurs_app_r " " "and "), (occurs_app_l " " "and "), Ho.
Qed.





(** ** Worked examples *)

(** The scenarios of the specification and of the test suite. *)

Example parse_authors_two :
  _parse_authors (Some "Smith, John and Doe, Jane")
  = Some ["Smith, John"; "Doe, Jane"].
Proof. reflexivity. Qed.

Example arxiv_no_entry :
  ArxivScraper._parse_response empty_feed (Some "9999.99999") = None.
Proof. reflexivity. Qed.

Example arxiv_id_from_entry_id :
  mr_arxiv_id <$> ArxivScraper._parse_response sample_feed None
  = Some (Some "2401.12345").
Proof. reflexivity. Qed.

Example dblp_no_hit_no_candidate :
  DBLPScraper._parse_response dblp_no_hit = Ok None.
Proof. reflexivity. Qed.

Example dblp_single_author_object :
  exists c,
    DBLPScraper._parse_response dblp_single_author = Ok (Some c) /\
    mr_authors c = Some [JStr "Ada Lovelace"].
Proof. eexists. split; reflexivity. Qed.

Example dblp_not_an_object :
  DBLPScraper._parse_response (JArr []) = Raise AttributeError.
Proof. reflexivity. Qed.

Example merge_fills_doi_keeps_url :
  doi (_merge_metadata sample_entry sample_candidate) = Some "10.1/x" /\
  url (_merge_metadata sample_entry sample_candidate) = Some "http://keep".
Proof. split; reflexivity. Qed.

(** What the hypotheses of the round trip exclude: an author name with
    the delimiter in it is read back as two names, a name ending in
    [" and"] moves the cut, and an extra field named [title] replaces the
    title. *)
Example delimiter_in_author_name :
  authors (_dict_to_bib_entry (_bib_entry_to_dict delimiter_entry))
  = Some ["Simon"; "Schuster"].
Proof. reflexivity. Qed.

Example author_name_ending_in_and :
  authors (_dict_to_bib_entry (_bib_entry_to_dict trailing_and_entry))
  = Some ["x"; "and y"].
Proof. reflexivity. Qed.

Example extra_field_named_title :
  title (_dict_to_bib_entry (_bib_entry_to_dict clash_entry)) = "Y".
Proof. reflexivity. Qed.

(* ================================================================== *)
(** * Further properties of the code *)

(** ** Author strings *)

(** X1. Every name [_parse_authors] returns has no white space at
    either end and does not contain the delimiter [" and "]. *)
Theorem parse_authors_trimmed (author_string : option string)
    (names : list string) :
  _parse_authors author_string = Some names ->
  Forall (fun name => trimmed name /\ occurs " and " name = false) names.
Proof. apply parse_authors_names. Qed.

Lemma parse_authors_trimmed_witness :
  _parse_authors
    (Some (nbsp +:+ " Smith, John and " +:+ em_space +:+ "Doe, Jane "))
  = Some ["Smith, John"; "Doe, Jane"] /\
  Forall (fun name => trimmed name /\ occurs " and " name = false)
    ["Smith, John"; "Doe, Jane"].
Proof.
  split; [reflexivity|].
  apply (parse_authors_trimmed
           (Some (nbsp +:+ " Smith, John and " +:+ em_space +:+ "Doe, Jane "))).
  reflexivity.
Defined.

(** X2. Names that are not empty, have no white space at either end and
    are free of the delimiter survive the way authors are stored: joining
    them with [" and "], as [_bib_entry_to_dict] does, and parsing the
    result with [_parse_authors] gives the same names. *)
Theorem parse_authors_of_join (a : string) (l : list string) :
  Forall (fun name => PyStr.nonempty name = true /\ trimmed name /\
                      sep_free " and " name = true) (a :: l) ->
  _parse_authors (Some (PyStr.join " and " (a :: l))) = Some (a :: l).
Proof.
  intros Hok. apply parse_authors_join, forallb_forall.
  intros name Hin. apply list_elem_of_In in Hin.
  rewrite Forall_forall in Hok. destruct (Hok name Hin) as (Hne & Ht & Hsep).
  unfold author_ok. apply strip_id in Ht. rewrite Hne, Ht, Hsep.
  by rewrite String.eqb_refl.
Qed.

Lemma parse_authors_of_join_witness :
  _parse_authors (Some (PyStr.join " and " ["Smith, John"; "Doe, Jane"]))
  = Some ["Smith, John"; "Doe, Jane"].
Proof.
  apply (parse_authors_of_join "Smith, John" ["Doe, Jane"]).
  repeat constructor; by intros c [= <-].
Defined.

(** ** Field mappings *)

Lemma assoc_set (d : pydict) k k' v :
  Py.assoc k (Dict.set d k' v) =
  if String.eqb k k' then Some v else Py.assoc k d.
Proof.
  induction d as [|[k0 v0] d IH]; [reflexivity|].
  cbn. destruct (String.eqb_spec k' k0) as [->|Hne]; cbn.
  - by destruct (String.eqb k k0).
  - rewrite IH. destruct (String.eqb_spec k k0) as [->|?]; [|reflexivity].
    apply String.eqb_neq in Hne. rewrite String.eqb_sym in Hne. by rewrite Hne.
Qed.

Lemma assoc_update (o d : pydict) k :
  Py.assoc k (Dict.update d o) =
  match last_assoc k o with
  | Some v => Some v
  | None => Py.assoc k d
  end.
Proof.
  unfold Dict.update, last_assoc. revert d.
  induction o as [|[k' v] o IH]; intros d; [reflexivity|].
  cbn [fold_left fst snd rev]. rewrite IH, assoc_app, assoc_set. cbn.
  destruct (Py.assoc k (rev o)); [reflexivity|].
  by destruct (String.eqb k k').
Qed.

Lemma contains_set (d : pydict) k k' v :
  Dict.contains k (Dict.set d k' v) = String.eqb k k' || Dict.contains k d.
Proof.
  unfold Dict.contains. rewrite assoc_set.
  by destruct (String.eqb k k').
Qed.

Lemma set_distinct (d : pydict) k v :
  Dict.distinct_keys d = true -> Dict.distinct_keys (Dict.set d k v) = true.
Proof.
  induction d as [|[k0 v0] d IH]; [reflexivity|].
  cbn [Dict.distinct_keys Dict.set]. intros H.
  apply andb_true_iff in H as [Hk0 Hd].
  destruct (String.eqb_spec k k0) as [->|Hne]; cbn [Dict.distinct_keys].
  - by apply andb_true_iff.
  - apply andb_true_iff. split; [|by apply IH].
    rewrite contains_set. apply String.eqb_neq in Hne.
    rewrite String.eqb_sym in Hne. rewrite Hne. exact Hk0.
Qed.

Lemma set_if_truthy_distinct d k o :
  Dict.distinct_keys d = true ->
  Dict.distinct_keys (Dict.set_if_truthy d k o) = true.
Proof.
  intros H. unfold Dict.set_if_truthy. destruct o as [v|]; [|done].
  destruct (PyStr.nonempty v); [by apply set_distinct|done].
Qed.

Lemma update_distinct (o d : pydict) :
  Dict.distinct_keys d = true -> Dict.distinct_keys (Dict.update d o) = true.
Proof.
  unfold Dict.update. revert d.
  induction o as [|[k v] o IH]; intros d H; [done|].
  cbn. by apply IH, set_distinct.
Qed.

Lemma set_keys_prefix (d : pydict) k v :
  exists more, Dict.keys (Dict.set d k v) = Dict.keys d ++ more.
Proof.
  unfold Dict.keys.
  induction d as [|[k0 v0] d [more IH]]; [by exists [k]|].
  cbn. destruct (String.eqb k k0); cbn.
  - exists []. by rewrite app_nil_r.
  - exists more. by rewrite IH.
Qed.

Lemma update_keys_prefix (o d : pydict) :
  exists more, Dict.keys (Dict.update d o) = Dict.keys d ++ more.
Proof.
  unfold Dict.update. revert d.
  induction o as [|[k v] o IH]; intros d.
  - exists []. by rewrite app_nil_r.
  - cbn [fold_left fst snd]. destruct (IH (Dict.set d k v)) as [more Hm].
    destruct (set_keys_prefix d k v) as [more' Hm'].
    exists (more' ++ more). by rewrite Hm, Hm', <- app_assoc.
Qed.

(** Before the extra fields are merged in, the mapping holds the
    modelled fields, for every record. *)
Lemma bib_entry_to_dict_update r :
  _bib_entry_to_dict r = Dict.update (known_items r) (raw_fields r).
Proof.
  unfold _bib_entry_to_dict. cbv zeta.
  change [("ENTRYTYPE", entry_type r); ("ID", cite_key r); ("title", title r)]
    with (head_items r).
  match goal with
  | |- context [Dict.set_if_truthy ?d "year" _] =>
      replace d with (head_items r ++ author_item r)
        by (unfold author_item; destruct (authors r) as [[|? ?]|]; reflexivity)
  end.
  repeat (rewrite (set_if_truthy_fresh (_ ++ _));
    [|repeat (apply assoc_None_app);
      rewrite ?assoc_opt_item, ?assoc_author_item by done; reflexivity]).
  unfold known_items. by rewrite <- !app_assoc.
Qed.

(** X4. In the mapping [_bib_entry_to_dict] builds, for every record, an
    extra field wins over a modelled field of the same name: the value
    under a name is the last one the extra fields give it, and the
    modelled field's only if the extra fields do not use the name. *)
Theorem written_value_of_field (r : BibEntry) (k : string) :
  Py.assoc k (_bib_entry_to_dict r) =
  match last_assoc k (raw_fields r) with
  | Some v => Some v
  | None => Py.assoc k (known_items r)
  end.
Proof. by rewrite bib_entry_to_dict_update, assoc_update. Qed.

Lemma known_items_distinct r : Dict.distinct_keys (known_items r) = true.
Proof.
  pose proof (bib_entry_to_dict_update
    {| entry_type := entry_type r; cite_key := cite_key r; title := title r;
       authors := authors r; year := year r; venue := venue r; doi := doi r;
       arxiv_id := arxiv_id r; url := url r; abstract := abstract r;
       booktitle := booktitle r; journal := journal r; volume := volume r;
       pages := pages r; publisher := publisher r; raw_fields := [] |}) as H.
  change (known_items _) with (known_items r) in H.
  cbn [Dict.update raw_fields fold_left] in H. rewrite <- H.
  unfold _bib_entry_to_dict. cbv zeta.
  cbn [entry_type cite_key title authors year venue doi arxiv_id url abstract
       booktitle journal volume pages publisher raw_fields Dict.update fold_left].
  repeat apply set_if_truthy_distinct.
  destruct (authors r) as [[|a l]|]; reflexivity.
Qed.

(** X5. For every record the mapping built for the writer is a proper
    dictionary (no field name occurs twice) that starts with the entry
    type, the citation key and the title, in this order, whatever the
    extra fields are. *)
Theorem written_mapping_shape (r : BibEntry) :
  Dict.distinct_keys (_bib_entry_to_dict r) = true /\
  exists more,
    Dict.keys (_bib_entry_to_dict r) = ["ENTRYTYPE"; "ID"; "title"] ++ more.
Proof.
  rewrite bib_entry_to_dict_update. split.
  - apply update_distinct, known_items_distinct.
  - destruct (update_keys_prefix (raw_fields r) (known_items r)) as [more ->].
    unfold known_items, head_items, Dict.keys. rewrite !List.map_app. cbn.
    eexists. reflexivity.
Qed.

Lemma distinct_keys_app {B} (d d' : list (string * B)) :
  Dict.distinct_keys (d ++ d') = true ->
  Dict.distinct_keys d' = true /\
  forall k, Dict.contains k d' = true -> Py.assoc k d = None.
Proof.
  induction d as [|[k0 v0] d IH]; [by split|].
  cbn [app Dict.distinct_keys]. intros H. apply andb_true_iff in H as [Hk0 H].
  destruct (IH H) as [Hd' Hfresh]. split; [exact Hd'|].
  intros k Hk. cbn. destruct (String.eqb_spec k k0) as [->|_]; [|by apply Hfresh].
  apply negb_true_iff, contains_false in Hk0.
  rewrite assoc_app in Hk0. unfold Dict.contains in Hk.
  destruct (Py.assoc k0 d); [discriminate|]. by rewrite Hk0 in Hk.
Qed.

(** X30. The mapping handed to the writer lists the entry type, the
    citation key and the title, then the authors, the year, the DOI, the
    arXiv identifier (as [eprint]), the URL, abstract, booktitle,
    journal, volume, pages and publisher, each only if set, then the
    extra fields in their order, exactly when the extra fields have
    distinct names and none of them is the name of a field that is
    listed before them. *)
Theorem mapping_field_order (r : BibEntry) :
  _bib_entry_to_dict r = layout_with_eprint r <->
  Dict.distinct_keys (raw_fields r) = true /\
  forall k, Dict.contains k (raw_fields r) = true ->
            Py.assoc k (known_items r) = None.
Proof.
  rewrite bib_entry_to_dict_update. unfold layout_with_eprint. split.
  - intros H. apply distinct_keys_app. rewrite <- H.
    apply update_distinct, known_items_distinct.
  - intros [Hd Hfresh]. apply update_fresh; [exact Hd|].
    intros k v Hin. apply Hfresh. unfold Dict.contains.
    by destruct (assoc_elem_of _ _ _ Hin) as [? ->].
Qed.

Lemma mapping_field_order_witness :
  _bib_entry_to_dict arxiv_entry =
  [("ENTRYTYPE", "misc"); ("ID", "arxiv2024"); ("title", "ArXiv Paper");
   ("doi", "10.1/x"); ("eprint", "2401.12345");
   ("url", "https://arxiv.org/abs/2401.12345")] /\
  _bib_entry_to_dict clash_entry <> layout_with_eprint clash_entry.
Proof.
  split.
  - apply (proj2 (mapping_field_order arxiv_entry)). by split.
  - intros H. apply (proj1 (mapping_field_order clash_entry)) in H as [_ H].
    specialize (H "title" eq_refl). discriminate.
Defined.

Lemma filter_sublist {A} (f : A -> bool) (l : list A) :
  sublist (List.filter f l) l.
Proof.
  induction l as [|x l IH]; [constructor|].
  cbn. destruct (f x); by constructor.
Qed.

(** X6. [_dict_to_bib_entry] drops no unrecognised field: the extra
    fields of the record are the fields of the entry whose names are not
    modelled, in the entry's order and with their values, and no modelled
    name is among them. *)
Theorem unrecognised_fields_kept (entry : pydict) :
  sublist (raw_fields (_dict_to_bib_entry entry)) entry /\
  forall k,
    Py.assoc k (raw_fields (_dict_to_bib_entry entry)) =
    if modelled k then None else Py.assoc k entry.
Proof.
  cbn [_dict_to_bib_entry raw_fields]. split; [apply filter_sublist|].
  intros k. rewrite (assoc_filter_key (fun k => negb (modelled k))).
  by destruct (modelled k).
Qed.

Lemma last_assoc_filter_key (g : string -> bool) k (d : pydict) :
  last_assoc k (List.filter (fun kv => g (fst kv)) d) =
  if g k then last_assoc k d else None.
Proof.
  unfold last_assoc. rewrite <- List.filter_rev. apply assoc_filter_key.
Qed.

Lemma last_assoc_distinct k (d : pydict) :
  Dict.distinct_keys d = true -> last_assoc k d = Py.assoc k d.
Proof.
  unfold last_assoc. induction d as [|[k' v] d IH]; [reflexivity|].
  cbn [Dict.distinct_keys rev]. intros H.
  apply andb_true_iff in H as [Hk' Hd].
  apply negb_true_iff, contains_false in Hk'.
  rewrite assoc_app, IH by done. cbn.
  destruct (String.eqb_spec k k') as [->|?].
  - by rewrite Hk'.
  - by destruct (Py.assoc k d).
Qed.

(** X7. Reading an entry and writing it back renames the arXiv
    identifier: the written mapping never has an [arxiv] field, and its
    [eprint] field is the entry's [eprint], or else its [arxiv], when that
    value is not empty. *)
Theorem arxiv_field_written_as_eprint (entry : pydict) :
  let written := _bib_entry_to_dict (_dict_to_bib_entry entry) in
  Py.assoc "arxiv" written = None /\
  Py.assoc "eprint" written =
    keep (match Py.assoc "eprint" entry with
          | Some v => Some v
          | None => Py.assoc "arxiv" entry
          end).
Proof.
  cbv zeta.
  rewrite !bib_entry_to_dict_update, !assoc_update.
  rewrite known_arxiv, known_eprint.
  cbn [_dict_to_bib_entry raw_fields arxiv_id].
  rewrite !(last_assoc_filter_key (fun k => negb (modelled k))).
  by rewrite extract_arxiv_id_spec.
Qed.

(** X8. An unrecognised field survives reading an entry and writing it
    back: for a dictionary entry, the written mapping gives every
    unmodelled name the value the entry gives it. *)
Theorem unrecognised_field_survives (entry : pydict) (k : string) :
  Dict.distinct_keys entry = true ->
  modelled k = false ->
  Py.assoc k (_bib_entry_to_dict (_dict_to_bib_entry entry)) = Py.assoc k entry.
Proof.
  intros Hd Hk.
  rewrite bib_entry_to_dict_update, assoc_update.
  rewrite assoc_known_unmodelled by done.
  cbn [_dict_to_bib_entry raw_fields].
  rewrite (last_assoc_filter_key (fun k => negb (modelled k))), Hk.
  cbn [negb]. rewrite last_assoc_distinct by done.
  by destruct (Py.assoc k entry).
Qed.

Lemma unrecognised_field_survives_witness :
  Py.assoc "keywords"
    (_bib_entry_to_dict
       (_dict_to_bib_entry
          [("title", "X"); ("keywords", "deep learning"); ("ENTRYTYPE", "misc");
           ("ID", "a")]))
  = Some "deep learning".
Proof.
  apply (unrecognised_field_survives
           [("title", "X"); ("keywords", "deep learning"); ("ENTRYTYPE", "misc");
            ("ID", "a")] "keywords"); reflexivity.
Defined.

Lemma filter_distinct (g : string -> bool) (d : pydict) :
  Dict.distinct_keys d = true ->
  Dict.distinct_keys (List.filter (fun kv => g (fst kv)) d) = true.
Proof.
  induction d as [|[k v] d IH]; [reflexivity|].
  cbn [Dict.distinct_keys List.filter fst]. intros H.
  apply andb_true_iff in H as [Hk Hd].
  destruct (g k); [|by apply IH].
  cbn [Dict.distinct_keys]. apply andb_true_iff. split; [|by apply IH].
  apply negb_true_iff, contains_false.
  apply negb_true_iff, contains_false in Hk.
  rewrite assoc_filter_key, Hk. by destruct (g k).
Qed.

(** The extra fields of a parsed dictionary entry do not clash. *)
Lemma parsed_raw_ok (entry : pydict) :
  Dict.distinct_keys entry = true ->
  raw_ok (raw_fields (_dict_to_bib_entry entry)) = true.
Proof.
  intros Hd. unfold raw_ok. cbn [_dict_to_bib_entry raw_fields].
  apply andb_true_iff. split.
  - by apply (filter_distinct (fun k => negb (modelled k))).
  - apply forallb_forall. intros kv Hin. by apply filter_In in Hin as [_ ?].
Qed.

(** X9. The mapping handed to the writer for a record of the program:
    for a record read from a dictionary entry, merged with any candidate
    of the annotated type or not, the mapping lists the modelled fields
    in the fixed order, followed by the extra fields in their order. (The
    order in which the writer's text lists them is the writer's.) *)
Theorem parsed_records_written_in_layout (entry : pydict)
    (candidate : MetadataResult) :
  Dict.distinct_keys entry = true ->
  let r := _dict_to_bib_entry entry in
  _bib_entry_to_dict r = layout_with_eprint r /\
  _bib_entry_to_dict (_merge_metadata r candidate) =
    layout_with_eprint (_merge_metadata r candidate).
Proof.
  intros Hd. cbv zeta. split; apply bib_entry_to_dict_layout;
    by apply parsed_raw_ok.
Qed.

Lemma parsed_records_written_in_layout_witness :
  _bib_entry_to_dict
    (_merge_metadata (_dict_to_bib_entry scenario_fields) sample_candidate) =
  [("ENTRYTYPE", "misc"); ("ID", "a"); ("title", "New Title");
   ("year", "2023"); ("doi", "10.1/x"); ("eprint", "2401.00001")].
Proof.
  apply (proj2 (parsed_records_written_in_layout scenario_fields
                  sample_candidate eq_refl)).
Defined.

(** ** More on merging *)

Lemma or_str_idem a b : or_str a (or_str a b) = or_str a b.
Proof. unfold or_str. by destruct (Py.truthy_str a). Qed.

Lemma or_list_idem a b : or_list a (or_list a b) = or_list a b.
Proof. unfold or_list. by destruct (Py.truthy_list a). Qed.

(** X11. Merging is idempotent: merging the same candidate a second time
    changes nothing. *)
Theorem merge_metadata_idempotent (entry : BibEntry) (result : MetadataResult) :
  _merge_metadata (_merge_metadata entry result) result
  = _merge_metadata entry result.
Proof.
  unfold _merge_metadata.
  cbn [entry_type cite_key title authors year venue doi arxiv_id url abstract
       booktitle journal volume pages publisher raw_fields].
  rewrite !or_str_idem, or_list_idem.
  by destruct (PyStr.nonempty (mr_title result)).
Qed.

Lemma or_str_populated a b : populated b -> populated (or_str a b).
Proof. unfold populated, or_str. by destruct (Py.truthy_str a) eqn:E. Qed.

Lemma or_list_populated a b : populated_list b -> populated_list (or_list a b).
Proof.
  unfold populated_list, or_list. by destruct (Py.truthy_list a) eqn:E.
Qed.

(** X12. Merging never empties a field: a title that is not empty stays
    so, and every optional field that is populated in the record is
    populated in the merged record, whatever the candidate holds. *)
Theorem merge_metadata_keeps_populated (entry : BibEntry)
    (result : MetadataResult) :
  let merged := _merge_metadata entry result in
  (PyStr.nonempty (title entry) = true ->
   PyStr.nonempty (title merged) = true) /\
  (populated_list (authors entry) -> populated_list (authors merged)) /\
  (populated (year entry) -> populated (year merged)) /\
  (populated (venue entry) -> populated (venue merged)) /\
  (populated (doi entry) -> populated (doi merged)) /\
  (populated (arxiv_id entry) -> populated (arxiv_id merged)) /\
  (populated (url entry) -> populated (url merged)) /\
  (populated (abstract entry) -> populated (abstract merged)) /\
  (populated (booktitle entry) -> populated (booktitle merged)) /\
  (populated (journal entry) -> populated (journal merged)) /\
  (populated (volume entry) -> populated (volume merged)) /\
  (populated (pages entry) -> populated (pages merged)) /\
  (populated (publisher entry) -> populated (publisher merged)).
Proof.
  cbv zeta. unfold _merge_metadata.
  cbn [entry_type cite_key title authors year venue doi arxiv_id url abstract
       booktitle journal volume pages publisher raw_fields].
  repeat split; try apply or_str_populated; try apply or_list_populated;
    try done.
  by destruct (PyStr.nonempty (mr_title result)) eqn:E.
Qed.

Lemma merge_metadata_keeps_populated_witness :
  populated (url (_merge_metadata sample_entry sample_candidate)) /\
  populated_list (authors (_merge_metadata sample_entry sample_candidate)).
Proof.
  destruct (merge_metadata_keeps_populated sample_entry sample_candidate)
    as (_ & Hauthors & _ & _ & _ & _ & Hurl & _).
  split; [apply Hurl|apply Hauthors]; reflexivity.
Defined.

(** ** The arXiv scraper *)

Lemma span_digits_spec l :
  l = (Re.span_digits l).1 ++ (Re.span_digits l).2 /\
  forallb Re.isdigit (Re.span_digits l).1 = true.
Proof.
  induction l as [|c l [IH1 IH2]]; [done|].
  cbn [Re.span_digits]. destruct (Re.isdigit c) eqn:E; [|by split].
  destruct (Re.span_digits l) as [d r]. cbn [fst snd] in *.
  split; [cbn [app]; by f_equal|cbn [forallb]; by rewrite E].
Qed.

Lemma digits_cat l :
  chunks l -> forallb Re.isdigit l = true -> all_digits (PyStr.cat l) = true.
Proof. intros Hl Hd. unfold all_digits. by rewrite chars_cat. Qed.

Lemma match_here_number l m :
  chunks l -> Re.match_here l = Some m -> arxiv_number m.
Proof.
  unfold Re.match_here. intros Hl.
  destruct (span_digits_spec l) as [Hsplit Hd1].
  destruct (Re.span_digits l) as [[|c d] [|dot r]]; try discriminate.
  cbn [fst snd] in Hsplit, Hd1. rewrite Hsplit in Hl.
  apply chunks_app in Hl as [Hcd Hr]. apply chunks_cons in Hr as [_ Hr].
  destruct (String.eqb dot "."); [|discriminate].
  destruct (span_digits_spec r) as [Hsplit' Hd2].
  destruct (Re.span_digits r) as [[|c' d'] r']; [discriminate|].
  cbn [fst snd] in Hsplit', Hd2. rewrite Hsplit' in Hr.
  apply chunks_app in Hr as [Hcd' _].
  intros [= <-]. exists (PyStr.cat (c :: d)), (PyStr.cat (c' :: d')).
  split; [reflexivity|].
  by rewrite !cat_nonempty, !digits_cat.
Qed.

Lemma search_from_number l m :
  chunks l -> Re.search_from l = Some m -> arxiv_number m.
Proof.
  induction l as [|c l IH]; intros Hl; cbn [Re.search_from].
  - destruct (Re.match_here []) eqn:E; [|discriminate].
    intros [= <-]. by eapply match_here_number.
  - destruct (Re.match_here (c :: l)) eqn:E.
    + intros [= <-]. by eapply match_here_number.
    + apply IH. by apply chunks_cons in Hl as [_ ?].
Qed.

Lemma search_number s m : Re.search s = Some m -> arxiv_number m.
Proof. apply search_from_number, chars_chunks. Qed.

(** X13. The arXiv identifier of an arXiv candidate: an identifier that
    was asked for is returned as given; otherwise the identifier, when
    one is found in the entry, is made of decimal digits, a dot and
    decimal digits (the digits of any script, as [\d] matches them). *)
Theorem arxiv_candidate_identifier (soup : Soup.node)
    (arxiv_id : option string) (c : MetadataResult) :
  ArxivScraper._parse_response soup arxiv_id = Some c ->
  (populated arxiv_id -> mr_arxiv_id c = arxiv_id) /\
  (~ populated arxiv_id ->
   mr_arxiv_id c = arxiv_id \/
   exists x, mr_arxiv_id c = Some x /\ arxiv_number x).
Proof.
  unfold ArxivScraper._parse_response, populated.
  destruct (Soup.find "entry" soup) as [entry|]; [|discriminate].
  destruct (Soup.find "title" entry); [|discriminate].
  intros [= <-]. cbn [mr_arxiv_id].
  destruct (Py.truthy_str arxiv_id); split; try done.
  intros _. destruct (Soup.find "id" entry) as [id_elem|]; [|by left].
  destruct (Re.search _) as [m|] eqn:E; [|by left].
  right. exists m. split; [reflexivity|by eapply search_number].
Qed.

Lemma arxiv_candidate_identifier_witness :
  exists c,
    ArxivScraper._parse_response sample_feed None = Some c /\
    exists x, mr_arxiv_id c = Some x /\ arxiv_number x.
Proof.
  eexists. split; [vm_compute; reflexivity|].
  edestruct (arxiv_candidate_identifier sample_feed None) as [_ H];
    [vm_compute; reflexivity|].
  destruct H as [H|H]; [discriminate|discriminate|exact H].
Defined.

(** X14. An arXiv candidate has a year of at most four characters (code
    points) and an author list that is absent or not empty. *)
Theorem arxiv_candidate_year_authors (soup : Soup.node)
    (arxiv_id : option string) (c : MetadataResult) :
  ArxivScraper._parse_response soup arxiv_id = Some c ->
  (forall y, mr_year c = Some y -> PyStr.len y <= 4) /\
  absent_or_nonempty (mr_authors c).
Proof.
  unfold ArxivScraper._parse_response.
  destruct (Soup.find "entry" soup) as [entry|]; [|discriminate].
  destruct (Soup.find "title" entry); [|discriminate].
  intros [= <-]. cbn [mr_year mr_authors]. split.
  - intros y. destruct (Soup.find "published" entry) as [published|];
      [|discriminate].
    intros [= <-]. exact (take_length 4 (Soup.get_text_strip published)).
  - apply nonempty_or_none_ok.
Qed.

Lemma arxiv_candidate_year_authors_witness :
  exists c,
    ArxivScraper._parse_response sample_feed None = Some c /\
    mr_year c = Some "2024" /\ PyStr.len "2024" <= 4 /\
    absent_or_nonempty (mr_authors c).
Proof.
  eexists. split; [vm_compute; reflexivity|].
  edestruct (arxiv_candidate_year_authors sample_feed None) as [Hy Ha];
    [vm_compute; reflexivity|].
  split; [reflexivity|]. split; [by apply Hy|exact Ha].
Defined.

(** ** What the providers fill in *)

Section QueryFacts.
Variable http_get : request -> result response.
Variable repr_other : json -> string.

(** A candidate a query answers is a candidate its provider's parser
    built. *)
Lemma answer_parsed q c :
  answer http_get repr_other q = Ok (Some c) ->
  match provider_of q with
  | Arxiv =>
      exists soup arxiv_id c0,
        ArxivScraper._parse_response soup arxiv_id = Some c0 /\
        c = mr_map JStr c0
  | Dblp => exists data, DBLPScraper._parse_response data = Ok (Some c)
  | Crossref =>
      exists work, CrossRefScraper._parse_work repr_other work = Ok (Some c)
  end.
Proof.
  unfold answer.
  destruct q; unfold run_query, provider_of,
      ArxivScraper.search_by_arxiv_id, ArxivScraper.search_by_title,
      DBLPScraper.search_by_title, CrossRefScraper.search_by_doi,
      CrossRefScraper.search_by_title; cbv zeta;
    rewrite ?bind_assoc, !bind_client_get;
    match goal with |- context [http_get ?r] => destruct (http_get r) as [resp|e] end;
    try discriminate.
  all: repeat (rewrite ?bind_lift, ?bind_ret;
         match goal with
         | |- context [match ?r with Ok _ => _ | Raise _ => _ end] =>
             destruct r eqn:?; try discriminate
         | |- context [if ?c then _ else _] => destruct c; try discriminate
         end).
  all: rewrite ?bind_ret; cbn [snd ret lift].
  - destruct (ArxivScraper._parse_response _ _) eqn:Hp; intros [= <-]. eauto.
  - eauto.
  - destruct (ArxivScraper._parse_response _ _) eqn:Hp; intros [= <-]. eauto.
  - eauto.
  - eauto.
Qed.
End QueryFacts.

Lemma arxiv_fields soup arxiv_id c :
  ArxivScraper._parse_response soup arxiv_id = Some c ->
  mr_source c = "arxiv" /\ mr_venue c = None /\ mr_doi c = None /\
  mr_booktitle c = None /\ mr_journal c = None /\ mr_volume c = None /\
  mr_pages c = None /\ mr_publisher c = None.
Proof.
  unfold ArxivScraper._parse_response.
  destruct (Soup.find "entry" soup) as [entry|]; [|discriminate].
  destruct (Soup.find "title" entry); [|discriminate].
  intros [= <-]. by repeat split.
Qed.

Lemma dblp_fields data c :
  DBLPScraper._parse_response data = Ok (Some c) ->
  mr_source c = "dblp" /\ mr_arxiv_id c = None /\ mr_booktitle c = None /\
  mr_journal c = None /\ mr_volume c = None /\ mr_pages c = None /\
  mr_publisher c = None /\ Py.truthy (mr_title c) = true.
Proof.
  unfold DBLPScraper._parse_response.
  destruct (DBLPScraper.parse_response_try data) as [r|e] eqn:Htry.
  - intros [= ->]. unfold DBLPScraper.parse_response_try in Htry.
    ok_inv Htry. injection Htry as <-. cbn.
    repeat split. by apply negb_false_iff.
  - by destruct e.
Qed.

Lemma crossref_fields repr_other work c :
  CrossRefScraper._parse_work repr_other work = Ok (Some c) ->
  mr_source c = "crossref" /\ mr_venue c = None /\ mr_arxiv_id c = None /\
  mr_booktitle c = None /\ mr_publisher c = None /\
  Py.truthy (mr_title c) = true.
Proof.
  unfold CrossRefScraper._parse_work. intros H.
  ok_inv H. injection H as <-. cbn. repeat split. by apply negb_false_iff.
Qed.

(** X15. What each provider fills in. A candidate a query answers is
    tagged with its provider's name; no provider supplies a book title or
    a publisher; a venue comes only from DBLP, an arXiv identifier only
    from arXiv, a journal, volume or pages only from CrossRef, and arXiv
    never supplies a DOI. *)
Theorem provider_fields (http_get : request -> result response)
    (repr_other : json -> string) (q : query) (c : MetadataResult_ json) :
  answer http_get repr_other q = Ok (Some c) ->
  mr_source c = provider_name (provider_of q) /\
  mr_booktitle c = None /\ mr_publisher c = None /\
  (mr_venue c <> None -> provider_of q = Dblp) /\
  (mr_arxiv_id c <> None -> provider_of q = Arxiv) /\
  (mr_journal c <> None \/ mr_volume c <> None \/ mr_pages c <> None ->
   provider_of q = Crossref) /\
  (mr_doi c <> None -> provider_of q <> Arxiv).
Proof.
  intros H. apply answer_parsed in H.
  destruct (provider_of q).
  - destruct H as (soup & arxiv_id & c0 & Hp & ->).
    apply arxiv_fields in Hp as (Hs & Hv & Hd & Hb & Hj & Hvol & Hpg & Hpub).
    cbn [mr_map mr_source mr_booktitle mr_publisher mr_venue mr_arxiv_id
         mr_journal mr_volume mr_pages mr_doi provider_name].
    rewrite Hs, Hv, Hd, Hb, Hj, Hvol, Hpg, Hpub. cbn.
    repeat split; try done. by intros [?|[?|?]].
  - destruct H as (data & Hp).
    apply dblp_fields in Hp as (Hs & Ha & Hb & Hj & Hvol & Hpg & Hpub & _).
    rewrite Hs, Ha, Hb, Hj, Hvol, Hpg, Hpub. cbn.
    repeat split; try done. by intros [?|[?|?]].
  - destruct H as (work & Hp).
    apply crossref_fields in Hp as (Hs & Hv & Ha & Hb & Hpub & _).
    rewrite Hs, Hv, Ha, Hb, Hpub. cbn. repeat split; done.
Qed.

Lemma provider_fields_witness :
  exists c,
    answer sample_net sample_repr (CrossrefByDoi "10.1234/test") = Ok (Some c) /\
    mr_source c = "crossref".
Proof.
  eexists. split; [vm_compute; reflexivity|].
  apply (provider_fields sample_net sample_repr (CrossrefByDoi "10.1234/test")).
  vm_compute; reflexivity.
Defined.

(** X16. A DBLP or CrossRef candidate always has a title that is not
    empty: a hit without one gives no candidate. *)
Theorem json_candidates_have_titles :
  (forall data c,
     DBLPScraper._parse_response data = Ok (Some c) ->
     Py.truthy (mr_title c) = true) /\
  (forall repr_other work c,
     CrossRefScraper._parse_work repr_other work = Ok (Some c) ->
     Py.truthy (mr_title c) = true).
Proof.
  split.
  - intros data c H. by apply dblp_fields in H as (_ & _ & _ & _ & _ & _ & _ & ?).
  - intros repr_other work c H.
    by apply crossref_fields in H as (_ & _ & _ & _ & _ & ?).
Qed.

Lemma json_candidates_have_titles_witness :
  exists c,
    DBLPScraper._parse_response sample_dblp = Ok (Some c) /\
    Py.truthy (mr_title c) = true.
Proof.
  eexists. split; [vm_compute; reflexivity|].
  apply (proj1 json_candidates_have_titles sample_dblp). vm_compute; reflexivity.
Defined.

(** ** Exceptions of the JSON scrapers *)

Lemma rbind_Raise {A B} (r : result A) (k : A -> result B) e :
  rbind r k = Raise e -> r = Raise e \/ exists a, r = Ok a /\ k a = Raise e.
Proof. destruct r as [a|e']; cbn; [eauto|]. intros [= ->]. by left. Qed.

Lemma get_Raise v k d e : Py.get v k d = Raise e -> e = AttributeError.
Proof. destruct v; cbn; congruence. Qed.

Lemma item0_Raise v e :
  Py.item0 v = Raise e -> e = IndexError \/ e = KeyError \/ e = TypeError.
Proof.
  destruct v as [| | | |s|[|? ?]|]; cbn; try (intros [= <-]; by auto).
  destruct (PyStr.chars s); intros [= <-]; auto.
Qed.

Lemma iter_Raise v e : Py.iter v = Raise e -> e = TypeError.
Proof. destruct v; cbn; congruence. Qed.

Lemma dblp_authors_loop_returns items authors :
  exists l, DBLPScraper.authors_loop items authors = Ok l.
Proof.
  revert authors. induction items as [|a items IH]; intros authors; [by eexists|].
  destruct a; cbn; apply IH.
Qed.

Lemma dblp_extract_authors_Raise info e :
  DBLPScraper._extract_authors info = Raise e ->
  e = AttributeError \/ e = TypeError.
Proof.
  unfold DBLPScraper._extract_authors. intros H.
  apply rbind_Raise in H as [H|(a1 & _ & H)]; [left; by eapply get_Raise|].
  apply rbind_Raise in H as [H|(a2 & _ & H)]; [left; by eapply get_Raise|].
  apply rbind_Raise in H as [H|(a3 & _ & H)]; [right; by eapply iter_Raise|].
  destruct (dblp_authors_loop_returns a3 []) as [l Hl].
  rewrite Hl in H. discriminate.
Qed.

(** X17. [DBLPScraper._parse_response] swallows [KeyError] and
    [IndexError] only: the exceptions that escape it are [AttributeError]
    (a value that should be an object is not) and [TypeError] (a value
    that cannot be indexed or iterated). *)
Theorem dblp_escaping_exceptions (data : json) (e : exn) :
  DBLPScraper._parse_response data = Raise e ->
  e = AttributeError \/ e = TypeError.
Proof.
  unfold DBLPScraper._parse_response.
  destruct (DBLPScraper.parse_response_try data) as [r|e'] eqn:Htry;
    [discriminate|].
  assert (Hcases : e' = AttributeError \/ e' = TypeError \/
                   e' = KeyError \/ e' = IndexError).
  { unfold DBLPScraper.parse_response_try in Htry.
    repeat match type of Htry with
    | rbind _ _ = Raise _ =>
        apply rbind_Raise in Htry as [Htry|(? & _ & Htry)]
    | (if ?c then _ else _) = Raise _ => destruct c; [discriminate|]
    | Py.get _ _ _ = Raise _ => apply get_Raise in Htry; auto
    | Py.item0 _ = Raise _ =>
        apply item0_Raise in Htry as [?|[?|?]]; auto
    | DBLPScraper._extract_authors _ = Raise _ =>
        apply dblp_extract_authors_Raise in Htry as [?|?]; auto
    | Ok _ = Raise _ => discriminate
    end. }
  destruct Hcases as [ -> | [ -> | [ -> | -> ] ] ]; intros [= <-]; auto.
Qed.

Lemma dblp_escaping_exceptions_witness :
  AttributeError = AttributeError \/ AttributeError = TypeError.
Proof. apply (dblp_escaping_exceptions (JArr [])). reflexivity. Defined.

(** X18. DBLP gives the authors of a hit as a list or, for a single
    author, as one object: a single object yields exactly one author, the
    object's text (the empty string if it has none). *)
Theorem dblp_lone_author (info authors_obj : json)
    (author : list (string * json)) :
  Py.get info "authors" (JObj []) = Ok authors_obj ->
  Py.get authors_obj "author" (JArr []) = Ok (JObj author) ->
  DBLPScraper._extract_authors info
  = Ok (Some [default (JStr "") (Py.assoc "text" author)]).
Proof.
  intros H1 H2. unfold DBLPScraper._extract_authors.
  rewrite H1. cbn [rbind]. rewrite H2. cbn.
  by destruct (Py.assoc "text" author).
Qed.

Lemma dblp_lone_author_witness :
  DBLPScraper._extract_authors
    (JObj [("authors", JObj [("author", JObj [("text", JStr "Ada Lovelace")])])])
  = Ok (Some [JStr "Ada Lovelace"]).
Proof.
  apply (dblp_lone_author _ (JObj [("author", JObj [("text", JStr "Ada Lovelace")])])
           [("text", JStr "Ada Lovelace")]); reflexivity.
Defined.

(** ** The CrossRef scraper *)

Section CrossRefFacts.
Variable repr_other : json -> string.

Lemma crossref_authors_loop_inv (P : string -> Prop) items authors l :
  (forall s, PyStr.nonempty (PyStr.strip s) = true -> P (PyStr.strip s)) ->
  Forall P authors ->
  CrossRefScraper.authors_loop repr_other items authors = Ok l ->
  Forall P l.
Proof.
  intros HP. revert authors.
  induction items as [|a items IH]; intros authors Hacc; cbn.
  - by intros [= <-].
  - intros H. ok_inv H. revert H.
    match goal with
    | |- context [PyStr.strip ?s] => set (name := PyStr.strip s)
    end.
    destruct (PyStr.nonempty name) eqn:E; apply IH; [|done].
    apply Forall_app. split; [done|]. constructor; [|constructor].
    by apply HP.
Qed.
End CrossRefFacts.

(** X19. The CrossRef author extractor never yields a blank name: every
    name it returns is non-empty and has no white space at either end;
    authors whose given and family names are both missing or blank are
    skipped. *)
Theorem crossref_author_names (repr_other : json -> string) (work : json)
    (names : list string) :
  CrossRefScraper._extract_authors repr_other work = Ok (Some names) ->
  Forall (fun name => PyStr.nonempty name = true /\ trimmed name) names.
Proof.
  unfold CrossRefScraper._extract_authors. intros H. ok_inv H.
  match goal with
  | Hl : CrossRefScraper.authors_loop _ _ _ = Ok ?l |- _ =>
      assert (Hall : Forall (fun name => PyStr.nonempty name = true /\
                                         trimmed name) l);
      [ eapply (crossref_authors_loop_inv repr_other); [|constructor|exact Hl];
        intros s Hs; split; [done|apply strip_trimmed]
      | injection H as H; destruct l; [discriminate|];
        by injection H as <- ]
  end.
Qed.

Lemma crossref_author_names_witness :
  CrossRefScraper._extract_authors sample_repr blank_author_work
    = Ok (Some ["John Doe"]) /\
  Forall (fun name => PyStr.nonempty name = true /\ trimmed name) ["John Doe"].
Proof.
  split; [reflexivity|].
  apply (crossref_author_names sample_repr blank_author_work). reflexivity.
Defined.

Section YearFacts.
Variable repr_other : json -> string.

Lemma year_loop_skip key rest work :
  no_year work key ->
  CrossRefScraper.year_loop repr_other (key :: rest) (JObj work)
  = CrossRefScraper.year_loop repr_other rest (JObj work).
Proof.
  intros (date_parts & Hparts & Hno). unfold date_parts_of in Hparts.
  cbn [Py.get rbind] in Hparts.
  cbn [CrossRefScraper.year_loop Py.get rbind]. rewrite Hparts. cbn [rbind].
  destruct Hno as [->|(first & Hfirst & Hfalse)]; [reflexivity|].
  destruct (Py.truthy date_parts); [|reflexivity].
  rewrite Hfirst. cbn [rbind]. by rewrite Hfalse.
Qed.

Lemma year_loop_date key rest work y :
  has_date work key y ->
  CrossRefScraper.year_loop repr_other (key :: rest) (JObj work)
  = Ok (Some (Py.str repr_other y)).
Proof.
  intros (date_parts & first & Hparts & Ht & Hfirst & Ht' & Hy).
  unfold date_parts_of in Hparts. cbn [Py.get rbind] in Hparts.
  cbn [CrossRefScraper.year_loop Py.get rbind]. rewrite Hparts. cbn [rbind].
  rewrite Ht, Hfirst. cbn [rbind]. by rewrite Ht', Hy.
Qed.

Lemma year_loop_priority skipped key rest work y :
  Forall (no_year work) skipped -> has_date work key y ->
  CrossRefScraper.year_loop repr_other (skipped ++ key :: rest) (JObj work)
  = Ok (Some (Py.str repr_other y)).
Proof.
  intros Hskip Hdate. induction Hskip as [|k ks Hk _ IH].
  - by apply year_loop_date.
  - cbn [app]. by rewrite year_loop_skip.
Qed.

Lemma year_loop_none keys work :
  Forall (no_year work) keys ->
  CrossRefScraper.year_loop repr_other keys (JObj work) = Ok None.
Proof.
  induction 1 as [|k ks Hk _ IH]; [reflexivity|]. by rewrite year_loop_skip.
Qed.
End YearFacts.

(** X20. The year of a CrossRef work is taken from the first of the
    print date, the online date and the creation date that gives one:
    a date gives no year when the work does not have it, when its date
    parts are empty, or when the first of them is. When none of the
    three gives a year, there is none. *)
Theorem crossref_year_priority (repr_other : json -> string)
    (work : list (string * json)) :
  (forall skipped key rest y,
     ["published-print"; "published-online"; "created"]
       = skipped ++ key :: rest ->
     Forall (no_year work) skipped -> has_date work key y ->
     CrossRefScraper._extract_year repr_other (JObj work)
     = Ok (Some (Py.str repr_other y))) /\
  (Forall (no_year work) ["published-print"; "published-online"; "created"] ->
   CrossRefScraper._extract_year repr_other (JObj work) = Ok None) /\
  (forall key, Py.assoc key work = None -> no_year work key).
Proof.
  unfold CrossRefScraper._extract_year. repeat split.
  - intros skipped key rest y ->. apply year_loop_priority.
  - apply year_loop_none.
  - intros key Hkey. exists (JArr [JArr []]). unfold date_parts_of.
    cbn [Py.get rbind]. rewrite Hkey. split; [reflexivity|].
    right. by exists (JArr []).
Qed.

Lemma crossref_year_priority_witness :
  CrossRefScraper._extract_year sample_repr (JObj online_work) = Ok (Some "2021").
Proof.
  apply (proj1 (crossref_year_priority sample_repr online_work)
           ["published-print"] "published-online" ["created"] (JInt 2021));
    [reflexivity| |].
  - constructor; [|constructor]. exists (JArr [JArr []]).
    split; [reflexivity|]. right. by exists (JArr []).
  - exists (JArr [JArr [JInt 2021; JInt 5]]), (JArr [JInt 2021; JInt 5]).
    by repeat split.
Defined.

(** ** Queries and their answers *)

Section AnswerFacts.
Variable http_get : request -> result response.
Variable repr_other : json -> string.

Ltac answer_unfold :=
  unfold answer, run_query,
    ArxivScraper.search_by_arxiv_id, ArxivScraper.search_by_title,
    DBLPScraper.search_by_title, CrossRefScraper.search_by_doi,
    CrossRefScraper.search_by_title, request_of; cbv zeta;
  rewrite ?bind_assoc, !bind_client_get;
  match goal with |- context [http_get ?r] => destruct (http_get r) as [resp|e] end;
  [|reflexivity]; cbn [rbind];
  repeat (rewrite ?bind_lift, ?bind_ret;
    match goal with
    | |- context [match ?r with Ok _ => _ | Raise _ => _ end] =>
        destruct r; cbn [rbind]; try reflexivity
    | |- context [if ?c then _ else _] => destruct c; try reflexivity
    end);
  try reflexivity.

Lemma answer_arxiv_by_id a :
  answer http_get repr_other (ArxivById a) =
  let? resp := http_get (request_of (ArxivById a)) in
  Ok (mr_map JStr <$> ArxivScraper._parse_response (resp_soup resp) (Some a)).
Proof. answer_unfold. Qed.

Lemma answer_arxiv_by_title t :
  answer http_get repr_other (ArxivByTitle t) =
  let? resp := http_get (request_of (ArxivByTitle t)) in
  Ok (mr_map JStr <$> ArxivScraper._parse_response (resp_soup resp) None).
Proof. answer_unfold. Qed.

Lemma answer_dblp_by_title t :
  answer http_get repr_other (DblpByTitle t) =
  let? resp := http_get (request_of (DblpByTitle t)) in
  let? data := resp_json resp in
  DBLPScraper._parse_response data.
Proof. answer_unfold. Qed.

Lemma answer_crossref_by_doi d :
  answer http_get repr_other (CrossrefByDoi d) =
  let? resp := http_get (request_of (CrossrefByDoi d)) in
  let? data := resp_json resp in
  let? status := Py.get data "status" JNull in
  if CrossRefScraper.not_ok status then Ok None
  else
    let? message := Py.get data "message" (JObj []) in
    CrossRefScraper._parse_work repr_other message.
Proof. answer_unfold. Qed.

Lemma answer_crossref_by_title t :
  answer http_get repr_other (CrossrefByTitle t) =
  let? resp := http_get (request_of (CrossrefByTitle t)) in
  let? data := resp_json resp in
  let? message := Py.get data "message" (JObj []) in
  let? items := Py.get message "items" (JArr []) in
  if negb (Py.truthy items) then Ok None
  else
    let? item0 := Py.item0 items in
    CrossRefScraper._parse_work repr_other item0.
Proof. answer_unfold. Qed.
End AnswerFacts.

(** X21. No match is no candidate, not an error: an arXiv feed without
    an entry, a DBLP answer whose list of hits is empty, a CrossRef
    search whose list of items is empty, and a CrossRef work lookup whose
    status is not ["ok"] all answer with no candidate. *)
Theorem no_match_no_candidate (http_get : request -> result response)
    (repr_other : json -> string) :
  (forall q resp,
     provider_of q = Arxiv ->
     http_get (request_of q) = Ok resp ->
     Soup.find "entry" (resp_soup resp) = None ->
     answer http_get repr_other q = Ok None) /\
  (forall t resp data result hits,
     http_get (request_of (DblpByTitle t)) = Ok resp ->
     resp_json resp = Ok data ->
     Py.get data "result" JNull = Ok result ->
     Py.get result "hits" (JObj []) = Ok hits ->
     Py.get hits "hit" (JArr []) = Ok (JArr []) ->
     answer http_get repr_other (DblpByTitle t) = Ok None) /\
  (forall t resp data message,
     http_get (request_of (CrossrefByTitle t)) = Ok resp ->
     resp_json resp = Ok data ->
     Py.get data "message" (JObj []) = Ok message ->
     Py.get message "items" (JArr []) = Ok (JArr []) ->
     answer http_get repr_other (CrossrefByTitle t) = Ok None) /\
  (forall d resp data status,
     http_get (request_of (CrossrefByDoi d)) = Ok resp ->
     resp_json resp = Ok data ->
     Py.get data "status" JNull = Ok status ->
     CrossRefScraper.not_ok status = true ->
     answer http_get repr_other (CrossrefByDoi d) = Ok None).
Proof.
  repeat split.
  - intros q resp Hq Hget Hfind.
    destruct q; try discriminate;
      rewrite ?answer_arxiv_by_id, ?answer_arxiv_by_title, Hget; cbn [rbind];
      unfold ArxivScraper._parse_response; by rewrite Hfind.
  - intros t resp data result hits Hget Hjson Hres Hhits Hhit.
    rewrite answer_dblp_by_title, Hget. cbn [rbind]. rewrite Hjson. cbn [rbind].
    unfold DBLPScraper._parse_response, DBLPScraper.parse_response_try.
    rewrite Hres. cbn [rbind].
    destruct (negb (Py.truthy result)); [reflexivity|].
    rewrite Hhits. cbn [rbind]. rewrite Hhit. reflexivity.
  - intros t resp data message Hget Hjson Hmsg Hitems.
    rewrite answer_crossref_by_title, Hget. cbn [rbind]. rewrite Hjson.
    cbn [rbind]. rewrite Hmsg. cbn [rbind]. rewrite Hitems. reflexivity.
  - intros d resp data status Hget Hjson Hstatus Hnot.
    rewrite answer_crossref_by_doi, Hget. cbn [rbind]. rewrite Hjson.
    cbn [rbind]. rewrite Hstatus. cbn [rbind]. by rewrite Hnot.
Qed.

Lemma no_match_no_candidate_witness :
  answer (fun _ => Ok {| resp_soup := empty_feed; resp_json := Ok dblp_no_hit |})
    sample_repr (DblpByTitle "Nonexistent Paper XYZ123")
  = Ok None.
Proof.
  eapply (proj1 (proj2 (no_match_no_candidate _ sample_repr)));
    reflexivity.
Defined.

(** X22. Each search sends exactly one request, its own, whatever the
    answer; a failure of the transport is the failure of the search, and
    so is, for DBLP and CrossRef, a body that is not JSON. *)
Theorem one_request_per_search (http_get : request -> result response)
    (repr_other : json -> string) (q : query) :
  (forall log,
     (run_query http_get repr_other q log).1 = log ++ [request_of q]) /\
  (forall e,
     http_get (request_of q) = Raise e ->
     answer http_get repr_other q = Raise e) /\
  (forall resp e,
     provider_of q <> Arxiv ->
     http_get (request_of q) = Ok resp ->
     resp_json resp = Raise e ->
     answer http_get repr_other q = Raise e).
Proof.
  split; [intros log; by rewrite run_query_log|]. split.
  - intros e He.
    destruct q; rewrite ?answer_arxiv_by_id, ?answer_arxiv_by_title,
      ?answer_dblp_by_title, ?answer_crossref_by_doi,
      ?answer_crossref_by_title, He; reflexivity.
  - intros resp e Hq Hget Hjson.
    destruct q; try (by destruct Hq);
      rewrite ?answer_dblp_by_title, ?answer_crossref_by_doi,
        ?answer_crossref_by_title, Hget; cbn [rbind]; by rewrite Hjson.
Qed.

Lemma one_request_per_search_witness :
  answer (fun _ => Raise TransportError) sample_repr (ArxivById "2401.12345")
  = Raise TransportError.
Proof.
  apply (proj1 (proj2 (one_request_per_search (fun _ => Raise TransportError)
                         sample_repr (ArxivById "2401.12345")))).
  reflexivity.
Defined.

(** ** Gathering and selecting *)

Lemma planned_queries_length title arxiv_id doi :
  length (planned_queries title arxiv_id doi) <= 5.
Proof.
  unfold planned_queries.
  destruct (given arxiv_id), (given doi), (given title); cbn; lia.
Qed.

Lemma omap_length_le {A B} (f : A -> option B) (l : list A) :
  length (omap f l) <= length l.
Proof.
  induction l as [|x l IH]; [reflexivity|].
  cbn. destruct (f x); cbn; lia.
Qed.

(** X23. One call of [scrape_metadata] sends at most five requests and
    returns at most one candidate per request sent; when no title, arXiv
    identifier or DOI is given it sends nothing and returns the empty
    list. *)
Theorem scrape_metadata_bounds (http_get : request -> result response)
    (repr_other : json -> string) (title arxiv_id doi : option string) :
  let run := scrape_metadata http_get repr_other title arxiv_id doi [] in
  length run.1 <= 5 /\
  (forall results, run.2 = Ok results -> length results <= length run.1) /\
  (given title = None -> given arxiv_id = None -> given doi = None ->
   run = ([], Ok [])).
Proof.
  cbv zeta. rewrite scrape_metadata_gather.
  set (qs := planned_queries title arxiv_id doi).
  pose proof (planned_queries_length title arxiv_id doi) as Hlen.
  fold qs in Hlen. split; [|split].
  - destruct (gather_prefix http_get repr_other qs [] []) as [k ->].
    cbn [app]. rewrite length_map, length_take. lia.
  - intros results Hres.
    pose proof (gather_Ok_returns _ _ _ _ _ _ Hres) as Hall.
    rewrite gather_all_return in Hres |- * by done.
    cbn in Hres |- *. injection Hres as <-.
    rewrite length_map. apply omap_length_le.
  - intros Ht Ha Hd. unfold qs, planned_queries. by rewrite Ht, Ha, Hd.
Qed.

Lemma scrape_metadata_bounds_witness :
  scrape_metadata sample_net sample_repr (Some "") None None [] = ([], Ok []).
Proof.
  apply (proj2 (proj2 (scrape_metadata_bounds sample_net sample_repr
                         (Some "") None None))); reflexivity.
Defined.

Section ScrapedFacts.
Variable http_get : request -> result response.
Variable repr_other : json -> string.

Lemma answer_source q c :
  answer http_get repr_other q = Ok (Some c) ->
  mr_source c = provider_name (provider_of q).
Proof.
  intros H. apply answer_parsed in H. destruct (provider_of q).
  - destruct H as (soup & arxiv_id & c0 & Hp & ->).
    cbn [mr_map mr_source]. by apply arxiv_fields in Hp as (-> & _).
  - destruct H as (data & Hp). by apply dblp_fields in Hp as (-> & _).
  - destruct H as (work & Hp). by apply crossref_fields in Hp as (-> & _).
Qed.

(** Every candidate [scrape_metadata] returns was answered by one of the
    five queries. *)
Lemma scraped_from_query title arxiv_id doi results c :
  (scrape_metadata http_get repr_other title arxiv_id doi []).2 = Ok results ->
  c ∈ results ->
  exists q, answer http_get repr_other q = Ok (Some c).
Proof.
  rewrite scrape_metadata_gather. intros Hres Hc.
  pose proof (gather_Ok_returns _ _ _ _ _ _ Hres) as Hall.
  rewrite gather_all_return in Hres by done.
  cbn in Hres. injection Hres as <-.
  apply list_elem_of_omap in Hc as (q & _ & Hq).
  exists q. unfold found in Hq.
  by destruct (answer http_get repr_other q) as [r|]; [subst|].
Qed.
End ScrapedFacts.

Lemma provider_confidence_number p : is_number (provider_confidence p).
Proof. destruct p; vm_compute; discriminate. Qed.

(** The maximum of a non-empty list of candidates whose confidences are
    numbers is one of them, and none has a greater confidence. *)
Lemma select_best_max {V} (l : list (MetadataResult_ V)) :
  l <> [] ->
  Forall (fun c => is_number (mr_confidence c)) l ->
  exists m,
    select_best l = Some m /\ m ∈ l /\
    forall c, c ∈ l ->
      PrimFloat.leb (mr_confidence c) (mr_confidence m) = true.
Proof.
  intros Hne Hnum. destruct l as [|r rest]; [done|].
  destruct (py_max_from_split mr_confidence r rest Hnum)
    as (l1 & l2 & Heq & H1 & H2).
  exists (py_max_from mr_confidence r rest).
  assert (Hin : py_max_from mr_confidence r rest ∈ r :: rest).
  { rewrite Heq. apply elem_of_app. right. by left. }
  split; [done|]. split; [done|].
  rewrite Forall_forall in H1, H2, Hnum.
  intros c Hc. rewrite Heq in Hc.
  apply elem_of_app in Hc as [Hc|Hc].
  - apply ltb_leb; [apply Hnum; rewrite Heq; apply elem_of_app; by left
                   |by apply Hnum|by apply H1].
  - apply elem_of_cons in Hc as [->|Hc]; [apply leb_refl; by apply Hnum|].
    by apply H2.
Qed.

(** X24. Selecting among what [scrape_metadata] returned: when the list
    is not empty a candidate of the list is selected, none of the list
    has a greater confidence, and if the list holds an arXiv candidate the
    selected one is an arXiv candidate. *)
Theorem best_of_scraped (http_get : request -> result response)
    (repr_other : json -> string) (title arxiv_id doi : option string)
    (results : list (MetadataResult_ json)) :
  (scrape_metadata http_get repr_other title arxiv_id doi []).2 = Ok results ->
  results <> [] ->
  exists best,
    select_best results = Some best /\ best ∈ results /\
    (forall c, c ∈ results ->
       PrimFloat.leb (mr_confidence c) (mr_confidence best) = true) /\
    ((exists c, c ∈ results /\ mr_source c = "arxiv") ->
     mr_source best = "arxiv").
Proof.
  intros Hres Hne.
  assert (Hq : forall c, c ∈ results ->
            exists p, mr_confidence c = provider_confidence p /\
                      mr_source c = provider_name p).
  { intros c Hc.
    destruct (scraped_from_query _ _ _ _ _ _ _ Hres Hc) as [q Hans].
    exists (provider_of q). split;
      [by eapply answer_confidence|by eapply answer_source]. }
  destruct (select_best_max results Hne) as (best & Hsel & Hin & Hmax).
  { apply Forall_forall. intros c Hc. destruct (Hq c Hc) as (p & -> & _).
    apply provider_confidence_number. }
  exists best. repeat split; try done.
  intros (c & Hc & Hsrc).
  specialize (Hmax c Hc).
  destruct (Hq c Hc) as (p & Hconf & Hname).
  destruct (Hq best Hin) as (pb & Hconfb & Hnameb).
  rewrite Hconf, Hconfb in Hmax. rewrite Hname in Hsrc. rewrite Hnameb.
  destruct p; try discriminate. by destruct pb.
Qed.

Lemma best_of_scraped_witness :
  exists best,
    select_best
      (omap (found sample_net sample_repr)
         [ArxivById "2401.12345"; CrossrefByDoi "10.1234/test";
          ArxivByTitle "T"; DblpByTitle "T"; CrossrefByTitle "T"])
    = Some best /\ mr_source best = "arxiv".
Proof.
  destruct (best_of_scraped sample_net sample_repr
              (Some "T") (Some "2401.12345") (Some "10.1234/test")
              (omap (found sample_net sample_repr)
                 [ArxivById "2401.12345"; CrossrefByDoi "10.1234/test";
                  ArxivByTitle "T"; DblpByTitle "T"; CrossrefByTitle "T"]))
    as (best & Hsel & _ & _ & Harxiv).
  - vm_compute. reflexivity.
  - vm_compute. discriminate.
  - exists best. split; [exact Hsel|]. apply Harxiv.
    eexists. split; [vm_compute; left|reflexivity].
Defined.

(** ** The functions on typed values *)

Lemma strs_Raise l e : Dyn.strs l = Raise e -> e = TypeError.
Proof.
  induction l as [|a l IH]; [discriminate|].
  destruct a; cbn; try (by intros [= <-]).
  destruct (Dyn.strs l); cbn; [discriminate|]. intros [= <-]. by apply IH.
Qed.

(** X29. On a record and a candidate whose fields hold strings, as
    annotated, the functions as Python runs them agree with their typed
    reading: merging gives the merged record, and the mapping for the
    writer is built without error and is the typed mapping. On other
    values the mapping fails only with a [TypeError], and only for a
    record that has authors. *)
Theorem typed_reading (entry : BibEntry) (result : MetadataResult) :
  Dyn._merge_metadata (be_map JStr entry) (mr_map JStr result)
    = be_map JStr (_merge_metadata entry result) /\
  Dyn._bib_entry_to_dict (be_map JStr entry)
    = Ok (item_map JStr (_bib_entry_to_dict entry)) /\
  (forall (r : BibEntry_ json) e,
     Dyn._bib_entry_to_dict r = Raise e ->
     e = TypeError /\ Py.truthy_list (authors r) = true).
Proof.
  split; [apply dyn_merge_metadata|]. split; [apply dyn_bib_entry_to_dict|].
  intros r e. unfold Dyn._bib_entry_to_dict. cbv zeta.
  destruct (authors r) as [[|a l]|]; cbn [rbind]; try discriminate.
  destruct (Dyn.strs (a :: l)) as [names|e'] eqn:Hnames; [discriminate|].
  cbn [rbind]. intros [= <-]. split; [|reflexivity].
  by eapply strs_Raise.
Qed.

Lemma typed_reading_witness :
  TypeError = TypeError /\
  Py.truthy_list (authors (entry_of_best "k" number_author)) = true.
Proof.
  apply (proj2 (proj2 (typed_reading sample_entry sample_candidate))
           (entry_of_best "k" number_author)).
  reflexivity.
Defined.

(** ** The tools *)

Section ToolFacts.
Variable http_get : request -> result response.
Variable repr_other : json -> string.

(** What a run answers does not depend on the requests made before
    it, which it only extends. *)
Lemma gather_log qs results log :
  gather http_get repr_other qs results log =
  (log ++ (gather http_get repr_other qs results []).1,
   (gather http_get repr_other qs results []).2).
Proof.
  revert results log. induction qs as [|q qs IH]; intros results log.
  - cbn. by rewrite app_nil_r.
  - rewrite !gather_cons. destruct (answer http_get repr_other q) as [r|e].
    + rewrite (IH _ (log ++ _)), (IH _ ([] ++ _)). cbn [fst snd].
      by rewrite <- !app_assoc.
    + reflexivity.
Qed.

Lemma scrape_metadata_log title arxiv_id doi log :
  scrape_metadata http_get repr_other title arxiv_id doi log =
  (log ++ (scrape_metadata http_get repr_other title arxiv_id doi []).1,
   (scrape_metadata http_get repr_other title arxiv_id doi []).2).
Proof. rewrite !scrape_metadata_gather. apply gather_log. Qed.

Lemma select_best_found {V} (results : list (MetadataResult_ V)) :
  found_any results = match select_best results with Some _ => true | None => false end.
Proof. by destruct results. Qed.

(** The loop treats the entries one by one, in order. *)
Lemma enrich_loop_spec entries updated count log log' updated' count' :
  enrich_loop http_get repr_other entries updated count log
    = (log', Ok (updated', count')) ->
  exists results,
    Forall2 (fun entry rs => scraped http_get repr_other entry = Ok rs)
      entries results /\
    updated' = updated ++ zip_with updated_entry entries results /\
    count' = count + length (List.filter found_any results).
Proof.
  revert updated count log.
  induction entries as [|entry rest IH]; intros updated count log.
  - intros [= <- <- <-]. exists []. cbn. by rewrite app_nil_r, Nat.add_0_r.
  - cbn [enrich_loop]. unfold bind. rewrite scrape_metadata_log.
    fold (scraped http_get repr_other entry).
    destruct (scraped http_get repr_other entry) as [rs|e] eqn:Hrs;
      [|discriminate].
    destruct (select_best rs) as [best|] eqn:Hbest; intros H;
      apply IH in H as (results & Hall & -> & ->);
      exists (rs :: results);
      (split; [by constructor|]);
      cbn [zip_with List.filter]; unfold updated_entry at 2;
      rewrite select_best_found, Hbest, <- app_assoc; cbn [app length];
      (split; [reflexivity|lia]).
Qed.

Lemma updated_entry_kept_or_merged entry rs :
  kept_or_merged entry (updated_entry entry rs).
Proof.
  unfold updated_entry, kept_or_merged.
  destruct (select_best rs); [right; by eexists|by left].
Qed.

Lemma filter_length_le {A} (f : A -> bool) l :
  length (List.filter f l) <= length l.
Proof. induction l as [|x l IH]; cbn; [lia|]. destruct (f x); cbn; lia. Qed.
End ToolFacts.

(** X25. When [enrich_bib_file] succeeds, the file held entries that
    parsed and scraping returned for each of them; the updated entries
    are, one for one and in order, the entry merged with the best of
    its candidates, or the entry as it was when none was found (so with
    its citation key and entry type); the writer made a text of them,
    and the files are the old ones with this one file replaced by that
    text, line feeds written as the platform's line separator; the
    summary counts the entries for which a candidate was found, out of
    all. *)
Theorem enrich_bib_file_success (http_get : request -> result response)
    (repr_other : json -> string) (loads : string -> result (list pydict))
    (write : list (list (string * json)) -> result string)
    (linesep file_path : string) (log log' : list request)
    (fs fs' : gmap string string) (summary : string) :
  enrich_bib_file http_get repr_other loads write linesep file_path (log, fs)
    = ((log', fs'), Ok summary) ->
  exists entries results text,
    parse_bib_file loads file_path fs = Ok entries /\
    Forall2 (fun entry rs => scraped http_get repr_other entry = Ok rs)
      entries results /\
    let updated := zip_with updated_entry entries results in
    bibtex_of_entries write updated = Ok text /\
    fs' = <[file_path := TextIO.translate_newlines linesep text]> fs /\
    Forall2 kept_or_merged entries updated /\
    map cite_key updated = map (fun e => JStr (cite_key e)) entries /\
    map entry_type updated = map (fun e => JStr (entry_type e)) entries /\
    length (List.filter found_any results) <= length entries /\
    summary = enriched_summary (length (List.filter found_any results))
                (length entries) file_path.
Proof.
  unfold enrich_bib_file.
  destruct (parse_bib_file loads file_path fs) as [entries|e]; [|discriminate].
  destruct (enrich_loop http_get repr_other entries [] 0 log)
    as [log1 [[updated count]|e]] eqn:Hloop; [|discriminate].
  apply enrich_loop_spec in Hloop as (results & Hall & -> & ->).
  cbn [app Nat.add]. unfold write_bib_file, bibtex_of_entries.
  destruct (rmap Dyn._bib_entry_to_dict _) as [db_entries|e] eqn:Hdb;
    [|discriminate].
  cbn [rbind]. destruct (write db_entries) as [text|e] eqn:Hw; [|discriminate].
  intros [= <- <- <-]. exists entries, results, text. cbv zeta.
  assert (Hlen : length results = length entries)
    by (symmetry; by eapply Forall2_length).
  repeat split; try done.
  - by rewrite Hdb.
  - clear Hlen Hdb. induction Hall; cbn; constructor;
      [apply updated_entry_kept_or_merged|done].
  - clear Hlen Hdb. induction Hall as [|e rs es rss _ _ IH]; [done|].
    cbn. rewrite IH. f_equal. unfold updated_entry. by destruct (select_best rs).
  - clear Hlen Hdb. induction Hall as [|e rs es rss _ _ IH]; [done|].
    cbn. rewrite IH. f_equal. unfold updated_entry. by destruct (select_best rs).
  - rewrite <- Hlen. apply filter_length_le.
Qed.

Lemma enrich_bib_file_success_witness :
  (exists log',
     enrich_bib_file empty_net sample_repr toy_loads toy_write posix "refs.bib"
       ([], sample_fs)
     = ((log', sample_fs), Ok "Enriched 0/1 entries in refs.bib")) /\
  exists log' fs',
    enrich_bib_file sample_net sample_repr toy_loads toy_write posix "refs.bib"
      ([], sample_fs)
    = ((log', fs'), Ok "Enriched 1/1 entries in refs.bib") /\
    exists entries results,
      parse_bib_file toy_loads "refs.bib" sample_fs = Ok entries /\
      Forall2 kept_or_merged entries (zip_with updated_entry entries results).
Proof.
  split; [eexists; vm_compute; reflexivity|].
  assert (H : exists log' fs',
            enrich_bib_file sample_net sample_repr toy_loads toy_write posix
              "refs.bib" ([], sample_fs)
            = ((log', fs'), Ok "Enriched 1/1 entries in refs.bib"))
    by (do 2 eexists; vm_compute; reflexivity).
  destruct H as (log' & fs' & H). exists log', fs'. split; [exact H|].
  destruct (enrich_bib_file_success _ _ _ _ _ _ _ _ _ _ _ H)
    as (entries & results & text & Hparse & _ & _ & _ & Hall & _).
  exists entries, results. split; assumption.
Defined.



(** *** The single entry *)

Lemma dyn_set_if_truthy_fresh d k o :
  Py.assoc k d = None -> Dyn.set_if_truthy d k o = d ++ opt_value k o.
Proof.
  intros H. unfold Dyn.set_if_truthy, opt_value.
  destruct o as [v|]; [|by rewrite app_nil_r].
  destruct (Py.truthy v); [by apply set_fresh|by rewrite app_nil_r].
Qed.

Lemma assoc_opt_value k k' o :
  String.eqb k k' = false -> Py.assoc k (opt_value k' o) = None.
Proof.
  intros H. unfold opt_value. destruct o as [v|]; [|done].
  destruct (Py.truthy v); cbn; by rewrite ?H.
Qed.

(** The mapping built for the record of [enrich_bib_entry]: it fails
    only on an author that is not a string. *)
Lemma entry_of_best_mapping key best :
  Dyn._bib_entry_to_dict (entry_of_best key best) =
  let? names := Dyn.strs (default [] (mr_authors best)) in
  Ok (ad_hoc_layout key best names).
Proof.
  unfold Dyn._bib_entry_to_dict, entry_of_best, ad_hoc_layout. cbv zeta.
  cbn [entry_type cite_key title authors year venue doi arxiv_id url abstract
       booktitle journal volume pages publisher raw_fields Dyn.set_if_truthy
       Dict.update fold_left].
  set (head := [("ENTRYTYPE", JStr "article"); ("ID", JStr key);
                ("title", mr_title best)]).
  assert (Hrest : forall d : list (string * json),
    (forall k, In k ["year"; "doi"; "eprint"; "journal"; "volume"; "pages"] ->
               Py.assoc k d = None) ->
    Dyn.set_if_truthy
      (Dyn.set_if_truthy
         (Dyn.set_if_truthy
            (Dyn.set_if_truthy
               (Dyn.set_if_truthy (Dyn.set_if_truthy d "year" (mr_year best))
                  "doi" (mr_doi best)) "eprint" (mr_arxiv_id best))
            "journal" (mr_journal best)) "volume" (mr_volume best))
      "pages" (mr_pages best)
    = d ++ opt_value "year" (mr_year best) ++ opt_value "doi" (mr_doi best)
        ++ opt_value "eprint" (mr_arxiv_id best)
        ++ opt_value "journal" (mr_journal best)
        ++ opt_value "volume" (mr_volume best)
        ++ opt_value "pages" (mr_pages best)).
  { intros d Hd.
    rewrite (dyn_set_if_truthy_fresh d "year") by (apply Hd; cbn; tauto).
    repeat (rewrite (dyn_set_if_truthy_fresh (_ ++ _));
      [|repeat (apply assoc_None_app); try (by apply assoc_opt_value);
        apply Hd; cbn; tauto]).
    by rewrite <- !app_assoc. }
  destruct (mr_authors best) as [[|a l]|]; unfold default; cbn [id rbind].
  - rewrite Hrest; [reflexivity|].
    intros k Hk; cbn in Hk; intuition subst; reflexivity.
  - destruct (Dyn.strs (a :: l)) as [names|e] eqn:Hnames; [|reflexivity].
    cbn [rbind]. rewrite set_fresh by reflexivity.
    rewrite Hrest.
    + destruct names as [|n names]; [|by rewrite <- app_assoc].
      destruct a; try discriminate. cbn in Hnames.
      by destruct (Dyn.strs l).
    + intros k Hk; cbn in Hk; intuition subst; reflexivity.
  - rewrite Hrest; [reflexivity|].
    intros k Hk; cbn in Hk; intuition subst; reflexivity.
Qed.

(** X28. What [enrich_bib_entry] does once scraping has returned. With
    no candidate the reply is a "No metadata found" message. Otherwise
    the writer is handed one mapping: an article with the given key, the
    best candidate's title and, each only if truthy, its authors joined
    by [" and "], year, DOI, arXiv identifier (as [eprint]), journal,
    volume and pages, in this order, and nothing else (venue, book title
    and publisher are not carried over); the reply is the writer's text,
    stripped. An exception is the scraper's, a [TypeError] for an author
    that is not a string, or the writer's. No request is added to those
    of the scraping. *)
Theorem enrich_bib_entry_reply (http_get : request -> result response)
    (repr_other : json -> string)
    (write : list (list (string * json)) -> result string)
    (key : string) (title arxiv_id doi : option string)
    (log log' : list request) (results : list (MetadataResult_ json)) :
  scrape_metadata http_get repr_other title arxiv_id doi log
    = (log', Ok results) ->
  exists outcome,
    enrich_bib_entry http_get repr_other write key title arxiv_id doi log
      = (log', outcome) /\
    match select_best results with
    | None => outcome = Ok ("No metadata found for " +:+ key)
    | Some best =>
        match Dyn.strs (default [] (mr_authors best)) with
        | Raise e => e = TypeError /\ outcome = Raise TypeError
        | Ok names =>
            match write [ad_hoc_layout key best names] with
            | Ok text => outcome = Ok (PyStr.strip text)
            | Raise e => outcome = Raise e
            end
        end
    end.
Proof.
  intros Hscrape. unfold enrich_bib_entry, bind. rewrite Hscrape.
  destruct (select_best results) as [best|]; [|by eexists].
  unfold lift, entry_to_bibtex. rewrite entry_of_best_mapping.
  eexists. split; [reflexivity|].
  destruct (Dyn.strs _) as [names|e] eqn:Hnames; cbn [rbind].
  - by destruct (write _).
  - apply strs_Raise in Hnames as ->. by split.
Qed.

Lemma enrich_bib_entry_reply_witness :
  exists log',
    enrich_bib_entry sample_net sample_repr toy_write "doe2024" None
      (Some "2401.12345") None []
    = (log',
       Ok "ENTRYTYPE=article|ID=doe2024|title=Test Paper Title|author=John Doe and Jane Smith|year=2024|eprint=2401.12345").
Proof.
  assert (H : exists log' results,
            scrape_metadata sample_net sample_repr None (Some "2401.12345")
              None [] = (log', Ok results))
    by (do 2 eexists; vm_compute; reflexivity).
  destruct H as (log' & results & H). exists log'.
  destruct (enrich_bib_entry_reply sample_net sample_repr toy_write "doe2024"
              _ _ _ _ _ _ H) as (outcome & -> & Hout).
  f_equal. vm_compute in H. injection H as <- <-.
  vm_compute in Hout. exact Hout.
Defined.
